(** * ADLAB metadata assistant: context assembly and knowledge representation

    A shallow embedding of the Python sources
    [cache_utils.py], [graphdb_utils.py], [metadata_queries.py],
    [metadata_extractor.py] and [rag_pipeline.py], followed by the
    properties of the context-assembly pipeline.

    Conventions.
    - A Python [str] is a [string]; [str.upper]/[str.lower] are the ASCII
      case maps (the field names, SQL type names and keywords handled by the
      program are ASCII).
    - A row of a data frame ([Dict[str, Any]]) is a [gmap string cell]; a
      cell holds [None], a bool, an int, a float, a str, a [Decimal] or a
      [datetime]/[date], the values the statements of the program return.
    - Python exceptions are the [Raise] outcome of a computation; code that
      talks to the warehouse, the vector store, the model or the disk threads
      an explicit state.  Writing a local file and closing the connection
      are taken not to fail.
    - What the interpreter and third-party libraries provide (float
      conversion, [isoformat], [repr], [json.loads], SHA-256, the services
      themselves) is abstract: a [PyRuntime] and an [Externals] instance. *)

From Stdlib Require Import ZArith Ascii Lia.
From stdpp Require Import base option list gmap strings pretty fin_maps.

Local Open Scope Z_scope.

(** ** Exceptions and outcomes *)

Inductive exn : Type :=
  | ValueError        (* networkx: None cannot be a node *)
  | AttributeError    (* a str method called on a value that is not a str *)
  | TypeError         (* unpacking a non-mapping *)
  | RetryError        (* tenacity: attempts exhausted *)
  | ExternalError.    (* any failure reported by an external service *)

Inductive outcome (A : Type) : Type :=
  | Return (a : A)
  | Raise (e : exn).
Arguments Return {A} a.
Arguments Raise {A} e.

Definition obind {A B} (m : outcome A) (k : A -> outcome B) : outcome B :=
  match m with
  | Return a => k a
  | Raise e => Raise e
  end.

Notation "'let?' x := m 'in' k" := (obind m (fun x => k))
  (at level 10, x name, m at level 100, k at level 200).

(** ** Values supplied by the interpreter *)

Class PyRuntime : Type := {
  pyfloat : Type;                       (* float *)
  decimal : Type;                       (* decimal.Decimal *)
  temporal : Type;                      (* datetime.datetime or datetime.date *)
  pyfloat_eq_dec :: EqDecision pyfloat;
  decimal_eq_dec :: EqDecision decimal;
  temporal_eq_dec :: EqDecision temporal;
  float_of_decimal : decimal -> pyfloat;   (* float(d) *)
  isoformat : temporal -> string;          (* t.isoformat() *)
  float_nonzero : pyfloat -> bool;         (* bool(f) *)
  decimal_nonzero : decimal -> bool;       (* bool(d) *)
  float_str : pyfloat -> string;           (* str(f), also repr(f) *)
  decimal_str : decimal -> string;         (* str(d) *)
  temporal_str : temporal -> string;       (* str(t) *)
  str_repr : string -> string;             (* repr(s) *)
  decimal_repr : decimal -> string;        (* repr(d) *)
  temporal_repr : temporal -> string;      (* repr(t) *)
}.

Section Values.
Context {rt : PyRuntime}.

(** The values found in the cells of a data frame returned by the driver and
    in the attribute dictionaries of the graph. *)
Inductive cell : Type :=
  | VNone
  | VBool (b : bool)
  | VInt (z : Z)
  | VFloat (f : pyfloat)
  | VStr (s : string)
  | VDecimal (d : decimal)
  | VTemporal (t : temporal).

#[export] Instance cell_eq_dec : EqDecision cell.
Proof. solve_decision. Defined.

(** [bool(v)], the test behind [not v], [a or b] and [if v]. *)
Definition truthy (v : cell) : bool :=
  match v with
  | VNone => false
  | VBool b => b
  | VInt z => negb (z =? 0)
  | VFloat f => float_nonzero f
  | VStr s => negb (String.eqb s EmptyString)
  | VDecimal d => decimal_nonzero d
  | VTemporal _ => true
  end.

(** [a or b] *)
Definition py_or (a b : cell) : cell := if truthy a then a else b.

(** [str(v)], which is also what an f-string field [{v}] renders. *)
Definition py_str (v : cell) : string :=
  match v with
  | VNone => "None"
  | VBool true => "True"
  | VBool false => "False"
  | VInt z => pretty z
  | VFloat f => float_str f
  | VStr s => s
  | VDecimal d => decimal_str d
  | VTemporal t => temporal_str t
  end.

(** [repr(v)] *)
Definition py_repr (v : cell) : string :=
  match v with
  | VStr s => str_repr s
  | VDecimal d => decimal_repr d
  | VTemporal t => temporal_repr t
  | _ => py_str v
  end.

End Values.

(** ** Strings *)

Definition upper_ascii (c : ascii) : ascii :=
  let n := nat_of_ascii c in
  if ((97 <=? n) && (n <=? 122))%nat then ascii_of_nat (n - 32) else c.

Definition lower_ascii (c : ascii) : ascii :=
  let n := nat_of_ascii c in
  if ((65 <=? n) && (n <=? 90))%nat then ascii_of_nat (n + 32) else c.

Fixpoint str_map (f : ascii -> ascii) (s : string) : string :=
  match s with
  | EmptyString => EmptyString
  | String c s' => String (f c) (str_map f s')
  end.

(** [s.upper()] and [s.lower()] on ASCII text.  A string is the sequence of
    its UTF-8 bytes: the bytes outside ASCII are left as they are, where
    Python maps the characters they encode by the Unicode tables.  The field
    names and type names the program passes are ASCII; the keyword and the
    node names of the graph search are free text. *)
Definition upper (s : string) : string := str_map upper_ascii s.
Definition lower (s : string) : string := str_map lower_ascii s.

(** [s.startswith(p)] *)
Fixpoint startswith (p s : string) : bool :=
  match p, s with
  | EmptyString, _ => true
  | String a p', String b s' => Ascii.eqb a b && startswith p' s'
  | String _ _, EmptyString => false
  end.

(** [p in s] for two strings *)
Fixpoint contains (p s : string) : bool :=
  startswith p s ||
  match s with
  | EmptyString => false
  | String _ s' => contains p s'
  end.

(** [sep.join(parts)] *)
Fixpoint join (sep : string) (parts : list string) : string :=
  match parts with
  | [] => EmptyString
  | [p] => p
  | p :: ps => p +:+ sep +:+ join sep ps
  end.

(** ** Rows *)

Section Rows.
Context {rt : PyRuntime}.

(** [row.get(key)]: a missing key reads as [None]. *)
Definition row_get (r : gmap string cell) (key : string) : cell :=
  default VNone (r !! key).

(** [row.get(key, row.get(key.upper()))] *)
Definition _get (r : gmap string cell) (key : string) : cell :=
  match r !! key with
  | Some v => v
  | None => row_get r (upper key)
  end.

End Rows.

(** ** graphdb_utils.py *)

Section Graph.
Context {rt : PyRuntime}.

(** An attribute dictionary, in insertion order. *)
Fixpoint attrs_set (k : string) (v : cell) (a : list (string * cell)) : list (string * cell) :=
  match a with
  | [] => [(k, v)]
  | (k', v') :: a' => if String.eqb k k' then (k, v) :: a' else (k', v') :: attrs_set k v a'
  end.

(** [a.update(new)] *)
Definition attrs_update (new a : list (string * cell)) : list (string * cell) :=
  fold_left (fun acc kv => attrs_set (fst kv) (snd kv) acc) new a.

(** [a.get(k, dflt)] *)
Fixpoint attrs_get (a : list (string * cell)) (k : string) (dflt : cell) : cell :=
  match a with
  | [] => dflt
  | (k', v) :: a' => if String.eqb k k' then v else attrs_get a' k dflt
  end.

(** [networkx.DiGraph]: nodes in insertion order with their attributes, and
    edges keyed by their two end points.  Node identifiers are compared as
    values of [cell]; the identifiers the build creates are strings, for
    which this is Python's equality. *)
Record DiGraph : Type := {
  nodes : list (cell * list (string * cell));
  edges : list ((cell * cell) * list (string * cell));
}.

Definition empty_graph : DiGraph := {| nodes := []; edges := [] |}.

Fixpoint has_key {K V} `{EqDecision K} (k : K) (l : list (K * V)) : bool :=
  match l with
  | [] => false
  | (k', _) :: l' => if decide (k = k') then true else has_key k l'
  end.

(** Update the attributes stored under [k]; the entry keeps its position. *)
Fixpoint alter_key {K V} `{EqDecision K} (f : V -> V) (k : K) (l : list (K * V)) : list (K * V) :=
  match l with
  | [] => []
  | (k', v) :: l' => if decide (k = k') then (k', f v) :: l' else (k', v) :: alter_key f k l'
  end.

(** [G.add_node(n, **attr)] *)
Definition add_node (n : cell) (attr : list (string * cell)) (g : DiGraph) : outcome DiGraph :=
  if has_key n (nodes g)
  then Return {| nodes := alter_key (attrs_update attr) n (nodes g); edges := edges g |}
  else match n with
       | VNone => Raise ValueError
       | _ => Return {| nodes := nodes g ++ [(n, attrs_update attr [])]; edges := edges g |}
       end.

(** The implicit creation of an end point by [add_edge]. *)
Definition touch_node (n : cell) (g : DiGraph) : outcome DiGraph :=
  if has_key n (nodes g) then Return g
  else match n with
       | VNone => Raise ValueError
       | _ => Return {| nodes := nodes g ++ [(n, [])]; edges := edges g |}
       end.

(** [G.add_edge(u, v, **attr)] *)
Definition add_edge (u v : cell) (attr : list (string * cell)) (g : DiGraph) : outcome DiGraph :=
  let? g := touch_node u g in
  let? g := touch_node v g in
  Return
    {| nodes := nodes g;
       edges := if has_key (u, v) (edges g)
                then alter_key (attrs_update attr) (u, v) (edges g)
                else edges g ++ [((u, v), attrs_update attr [])] |}.

(** Body of the first loop of [build_from_metadata]. *)
Definition add_table_row (t : gmap string cell) (g : DiGraph) : outcome DiGraph :=
  let db := _get t "database_name" in
  let schema := _get t "schema_name" in
  let table := _get t "table_name" in
  if negb (truthy db) || negb (truthy schema) || negb (truthy table) then Return g
  else
    let schema_id := VStr (py_str db +:+ "." +:+ py_str schema) in
    let table_id := VStr (py_str db +:+ "." +:+ py_str schema +:+ "." +:+ py_str table) in
    let? g := add_node db [("label", VStr "Database"); ("name", db)] g in
    let? g := add_node schema_id [("label", VStr "Schema"); ("name", schema)] g in
    let? g := add_node table_id
                [("label", VStr "Table"); ("name", table); ("row_count", _get t "row_count")] g in
    let? g := add_edge db schema_id [("type", VStr "CONTAINS")] g in
    add_edge schema_id table_id [("type", VStr "CONTAINS")] g.

(** Body of the second loop of [build_from_metadata]. *)
Definition add_column_row (c : gmap string cell) (g : DiGraph) : outcome DiGraph :=
  let db := _get c "database_name" in
  let schema := _get c "schema_name" in
  let table := _get c "table_name" in
  let column := _get c "column_name" in
  let data_type := _get c "data_type" in
  if negb (truthy db) || negb (truthy schema) || negb (truthy table) || negb (truthy column)
  then Return g
  else
    let table_id := py_str db +:+ "." +:+ py_str schema +:+ "." +:+ py_str table in
    let col_id := VStr (table_id +:+ "." +:+ py_str column) in
    let? g := add_node col_id
                [("label", VStr "Column"); ("name", column); ("data_type", data_type)] g in
    add_edge (VStr table_id) col_id [("type", VStr "HAS_COLUMN")] g.

(** [for x in xs: body(x)] on the graph, stopping at the first exception. *)
Fixpoint for_rows (body : gmap string cell -> DiGraph -> outcome DiGraph)
    (xs : list (gmap string cell)) (g : DiGraph) : outcome DiGraph :=
  match xs with
  | [] => Return g
  | x :: xs' => let? g := body x g in for_rows body xs' g
  end.

(** [GraphDB.build_from_metadata]; the argument [g] is [self.g] on entry. *)
Definition build_from_metadata (g : DiGraph)
    (tables columns : list (gmap string cell)) : outcome DiGraph :=
  let g := empty_graph (* self.g.clear() *) in
  let? g := for_rows add_table_row tables g in
  for_rows add_column_row columns g.

(** The loop of [GraphDB.search]: [matches] is the list collected so far. *)
Fixpoint search_loop (keyword_lower : string) (max_results : Z)
    (ns : list (cell * list (string * cell)))
    (matches : list (cell * list (string * cell)))
    : outcome (list (cell * list (string * cell))) :=
  match ns with
  | [] => Return matches
  | (node_id, data) :: ns' =>
      let name := lower (py_str (attrs_get data "name" (VStr EmptyString))) in
      let? hit :=
        if contains keyword_lower name then Return true
        else match node_id with
             | VStr s => Return (contains keyword_lower (lower s))
             | _ => Raise AttributeError
             end in
      let matches := if hit then matches ++ [(node_id, data)] else matches in
      if Z.of_nat (length matches) >=? max_results then Return matches
      else search_loop keyword_lower max_results ns' matches
  end.

(** [GraphDB.search] *)
Definition search (g : DiGraph) (keyword : string) (max_results : Z)
    : outcome (list (cell * list (string * cell))) :=
  search_loop (lower keyword) max_results (nodes g) [].

End Graph.

(** ** metadata_queries.py *)

Definition nl : string := String (ascii_of_nat 10) EmptyString.
Definition dquote : string := String (ascii_of_nat 34) EmptyString.

(** The two batteries, in the iteration order of the dictionaries. *)
Definition QUERIES : list (string * string) :=
  [
    ("tables", join nl
      [ EmptyString;
        "		SELECT t.table_catalog AS database_name,";
        "			   t.table_schema AS schema_name,";
        "			   t.table_name,";
        "			   t.table_type,";
        "			   t.row_count,";
        "			   t.created,";
        "			   t.last_altered,";
        "			   d.comment AS table_description,";
        "			   CASE WHEN LOWER(t.table_name) LIKE '%fact%' THEN 'fact'";
        "					WHEN LOWER(t.table_name) LIKE '%dim%' THEN 'dimension'";
        "					ELSE NULL END AS table_category";
        "		FROM information_schema.tables t";
        "		LEFT JOIN information_schema.tables d";
        "		  ON d.table_catalog = t.table_catalog AND d.table_schema = t.table_schema AND d.table_name = t.table_name";
        "		WHERE t.table_type IN ('BASE TABLE','VIEW')";
        "		ORDER BY t.table_schema, t.table_name;";
        "	" ]);
    ("views", join nl
      [ EmptyString;
        "		SELECT table_catalog AS database_name,";
        "			   table_schema AS schema_name,";
        "			   table_name,";
        "			   created,";
        "			   last_altered";
        "		FROM information_schema.views";
        "		ORDER BY table_schema, table_name;";
        "	" ]);
    ("columns", join nl
      [ EmptyString;
        "		SELECT c.table_catalog AS database_name,";
        "			   c.table_schema AS schema_name,";
        "			   c.table_name,";
        "			   c.column_name,";
        "			   c.ordinal_position,";
        "			   c.data_type,";
        "			   c.character_maximum_length,";
        "			   c.numeric_precision,";
        "			   c.numeric_scale,";
        "			   c.is_nullable,";
        "			   col.comment AS column_description";
        "		FROM information_schema.columns c";
        "		LEFT JOIN information_schema.columns col";
        "		  ON col.table_catalog=c.table_catalog AND col.table_schema=c.table_schema AND col.table_name=c.table_name AND col.column_name=c.column_name";
        "		ORDER BY c.table_schema, c.table_name, c.ordinal_position;";
        "	" ]);
    ("foreign_keys", join nl
      [ EmptyString;
        "		SELECT kcu.table_catalog AS database_name,";
        "			   kcu.table_schema AS schema_name,";
        "			   kcu.table_name,";
        "			   kcu.column_name,";
        "			   rc.unique_constraint_catalog AS referenced_database,";
        "			   rc.unique_constraint_schema AS referenced_schema,";
        "			   ccu.table_name AS referenced_table,";
        "			   ccu.column_name AS referenced_column";
        "		FROM information_schema.referential_constraints rc";
        "		JOIN information_schema.key_column_usage kcu";
        "		  ON rc.constraint_catalog=kcu.constraint_catalog AND rc.constraint_schema=kcu.constraint_schema AND rc.constraint_name=kcu.constraint_name";
        "		JOIN information_schema.constraint_column_usage ccu";
        "		  ON rc.unique_constraint_catalog=ccu.constraint_catalog AND rc.unique_constraint_schema=ccu.constraint_schema AND rc.unique_constraint_name=ccu.constraint_name";
        "	" ]);
    ("indexes", join nl
      [ EmptyString;
        "		SELECT database_name, schema_name, table_name, index_name, column_name";
        "		FROM snowflake.account_usage.table_indexes";
        "		WHERE deleted IS NULL";
        "	" ]);
    ("query_history", join nl
      [ EmptyString;
        "		SELECT query_text,";
        "			   database_name,";
        "			   schema_name,";
        "			   execution_status,";
        "			   error_code,";
        "			   start_time,";
        "			   end_time,";
        "			   total_elapsed_time";
        "		FROM table(information_schema.query_history())";
        "		ORDER BY start_time DESC";
        "		LIMIT 500;";
        "	" ])
  ].

Definition QUERIES_ACCOUNT : list (string * string) :=
  [
    ("tables", join nl
      [ EmptyString;
        "		SELECT table_catalog AS database_name,";
        "			   table_schema AS schema_name,";
        "			   table_name,";
        "			   table_type,";
        "			   row_count,";
        "			   created,";
        "			   last_altered,";
        "			   NULL AS table_description,";
        "			   CASE WHEN LOWER(table_name) LIKE '%fact%' THEN 'fact'";
        "					WHEN LOWER(table_name) LIKE '%dim%' THEN 'dimension'";
        "					ELSE NULL END AS table_category";
        "		FROM snowflake.account_usage.tables";
        "		WHERE deleted IS NULL";
        "		ORDER BY database_name, schema_name, table_name;";
        "	" ]);
    ("views", join nl
      [ EmptyString;
        "		SELECT table_catalog AS database_name,";
        "			   table_schema AS schema_name,";
        "			   table_name,";
        "			   created,";
        "			   last_altered";
        "		FROM snowflake.account_usage.views";
        "		WHERE deleted IS NULL";
        "		ORDER BY database_name, schema_name, table_name;";
        "	" ]);
    ("columns", join nl
      [ EmptyString;
        "		SELECT table_catalog AS database_name,";
        "			   table_schema AS schema_name,";
        "			   table_name,";
        "			   column_name,";
        "			   ordinal_position,";
        "			   data_type,";
        "			   character_maximum_length,";
        "			   numeric_precision,";
        "			   numeric_scale,";
        "			   is_nullable,";
        "			   NULL AS column_description";
        "		FROM snowflake.account_usage.columns";
        "		WHERE deleted IS NULL";
        "		ORDER BY schema_name, table_name, ordinal_position;";
        "	" ]);
    ("foreign_keys", join nl
      [ EmptyString;
        "		SELECT database_name AS database_name,";
        "			   schema_name AS schema_name,";
        "			   table_name AS table_name,";
        "			   column_name AS column_name,";
        "			   referenced_database AS referenced_database,";
        "			   referenced_schema AS referenced_schema,";
        "			   referenced_table_name AS referenced_table,";
        "			   referenced_column_name AS referenced_column";
        "		FROM snowflake.account_usage.referential_constraints";
        "		WHERE deleted IS NULL";
        "	" ]);
    ("indexes", join nl
      [ EmptyString;
        "		SELECT database_name, schema_name, table_name, index_name, column_name";
        "		FROM snowflake.account_usage.table_indexes";
        "		WHERE deleted IS NULL";
        "	" ]);
    ("query_history", join nl
      [ EmptyString;
        "		SELECT query_text,";
        "			   database_name,";
        "			   schema_name,";
        "			   execution_status,";
        "			   error_code,";
        "			   start_time,";
        "			   end_time,";
        "			   total_elapsed_time";
        "		FROM snowflake.account_usage.query_history";
        "		ORDER BY start_time DESC";
        "		LIMIT 500;";
        "	" ])
  ].

Section Queries.
Context {rt : PyRuntime}.

(** [v.upper()], [v.startswith(p)]: only a [str] has these methods. *)
Definition cell_upper (v : cell) : outcome string :=
  match v with
  | VStr s => Return (upper s)
  | _ => Raise AttributeError
  end.

Definition cell_startswith (p : string) (v : cell) : outcome bool :=
  match v with
  | VStr s => Return (startswith p s)
  | _ => Raise AttributeError
  end.

Definition quote_ident (name : cell) : outcome cell :=
  if truthy name then
    let? quoted := cell_startswith dquote name in
    Return (if quoted then name else VStr (dquote +:+ py_str name +:+ dquote))
  else Return name.

Definition fq_table (database schema table : cell) : outcome cell :=
  if truthy database && truthy schema then
    let? d := quote_ident database in
    let? s := quote_ident schema in
    let? t := quote_ident table in
    Return (VStr (py_str d +:+ "." +:+ py_str s +:+ "." +:+ py_str t))
  else if truthy schema then
    let? s := quote_ident schema in
    let? t := quote_ident table in
    Return (VStr (py_str s +:+ "." +:+ py_str t))
  else quote_ident table.

Definition numeric_types : list string :=
  ["NUMBER"; "DECIMAL"; "INT"; "INTEGER"; "BIGINT"; "FLOAT"; "DOUBLE"].
Definition date_types : list string :=
  ["DATE"; "TIMESTAMP"; "TIMESTAMP_NTZ"; "TIMESTAMP_LTZ"; "TIMESTAMP_TZ"].
Definition text_types : list string := ["TEXT"; "VARCHAR"; "STRING"].

(** [s in types] *)
Definition str_in (s : string) (types : list string) : bool :=
  existsb (String.eqb s) types.

Definition min_max_distinct_for_column
    (database schema table column data_type : cell) : outcome string :=
  let? fully_qualified := fq_table database schema table in
  let? col := quote_ident column in
  let from_table := " FROM " +:+ py_str fully_qualified +:+ ";" in
  let c := py_str col in
  let? dt := cell_upper data_type in
  if str_in dt numeric_types then
    Return ("SELECT MIN(" +:+ c +:+ ") AS min_value, MAX(" +:+ c
            +:+ ") AS max_value, COUNT(DISTINCT " +:+ c +:+ ") AS distinct_count"
            +:+ from_table)
  else if str_in dt date_types then
    Return ("SELECT MIN(" +:+ c +:+ ") AS min_date, MAX(" +:+ c
            +:+ ") AS max_date, COUNT(DISTINCT " +:+ c +:+ ") AS distinct_count"
            +:+ from_table)
  else if str_in dt text_types then
    Return ("SELECT COUNT(DISTINCT " +:+ c +:+ ") AS distinct_count" +:+ from_table)
  else
    Return ("SELECT COUNT(DISTINCT " +:+ c +:+ ") AS distinct_count" +:+ from_table).

End Queries.

(** ** config.py *)

Record SnowflakeConfig : Type := {
  account : string;
  user : string;
  password : string;
  warehouse_name : string;   (* the field [warehouse] *)
  database : string;
  role : string;
  schema : option string;
}.

Record AppConfig : Type := {
  graph_path : string;
  openai_model : string;
  default_top_k : Z;
}.

(** ** The outside world *)

(** A parsed JSON document, as [json.loads] returns it. *)
#[local] Unset Elimination Schemes.
Inductive json {rt : PyRuntime} : Type :=
  | JNull
  | JBool (b : bool)
  | JInt (z : Z)
  | JFloat (f : pyfloat)
  | JStr (s : string)
  | JList (l : list json)
  | JDict (d : list (string * json)).
#[local] Set Elimination Schemes.

(** What one [cur.execute(sql)] followed by [cur.fetch_pandas_all()] can do. *)
Inductive executed {rt : PyRuntime} : Type :=
  | ExecRaised                                   (* [execute] raised *)
  | FetchRaised                                  (* [execute] passed, the fetch raised *)
  | Fetched (frame : list (gmap string cell)).   (* [df.to_dict(orient="records")] *)

(** The services and library functions the program calls.  Each service has
    an opaque state of its own; a call returns its outcome and the next
    state. *)
Class Externals {rt : PyRuntime} : Type := {
  snowflake_config : SnowflakeConfig;
  app_config : AppConfig;
  (* Snowflake *)
  warehouse : Type;
  sf_connect : warehouse -> outcome unit * warehouse;
  cur_execute : string -> warehouse -> executed * warehouse;
  sf_close : warehouse -> warehouse;
  (* Chroma *)
  vstore : Type;
  get_or_create_collection : vstore -> outcome unit * vstore;
  collection_upsert :
    list string -> list (gmap string cell) -> list string -> vstore -> outcome unit * vstore;
  collection_query : string -> Z -> vstore -> outcome (list string) * vstore;
  (* OpenAI: model, system prompt, user prompt; the answer is [message.content] *)
  llm : Type;
  chat_completions_create :
    string -> string -> string -> llm -> outcome (option string) * llm;
  (* libraries *)
  json_loads : string -> outcome json;
  sha256_hexdigest : string -> string;
}.

Section World.
Context {rt : PyRuntime} {ext : Externals}.

(** Everything the program can read or change outside its own variables.
    [w_issued] and [w_upserts] are traces: they record the calls made and are
    never read by the program. *)
Record world : Type := {
  w_warehouse : warehouse;
  w_issued : list string;
      (* the statements handed to [run_query], oldest first *)
  w_written : list (gmap string (list (gmap string cell)));
      (* the successive contents of ./data/metadata_latest.json *)
  w_graph_file : option DiGraph;
      (* the graph file; [None] when it is absent or unreadable *)
  w_vstore : vstore;
  w_upserts : list (list string);
      (* the [ids] argument of every upsert request, oldest first *)
  w_llm : llm;
  w_cache : gmap string (list (string * json) * Z);
      (* diskcache: key to value and expiry time *)
  w_now : Z;
      (* the clock *)
}.

Definition set_warehouse (x : warehouse) (w : world) : world :=
  {| w_warehouse := x; w_issued := w_issued w; w_written := w_written w;
     w_graph_file := w_graph_file w; w_vstore := w_vstore w; w_upserts := w_upserts w;
     w_llm := w_llm w; w_cache := w_cache w; w_now := w_now w |}.

Definition set_issued (x : list string) (w : world) : world :=
  {| w_warehouse := w_warehouse w; w_issued := x; w_written := w_written w;
     w_graph_file := w_graph_file w; w_vstore := w_vstore w; w_upserts := w_upserts w;
     w_llm := w_llm w; w_cache := w_cache w; w_now := w_now w |}.

Definition set_written (x : list (gmap string (list (gmap string cell)))) (w : world) : world :=
  {| w_warehouse := w_warehouse w; w_issued := w_issued w; w_written := x;
     w_graph_file := w_graph_file w; w_vstore := w_vstore w; w_upserts := w_upserts w;
     w_llm := w_llm w; w_cache := w_cache w; w_now := w_now w |}.

Definition set_graph_file (x : option DiGraph) (w : world) : world :=
  {| w_warehouse := w_warehouse w; w_issued := w_issued w; w_written := w_written w;
     w_graph_file := x; w_vstore := w_vstore w; w_upserts := w_upserts w;
     w_llm := w_llm w; w_cache := w_cache w; w_now := w_now w |}.

Definition set_vstore (x : vstore) (w : world) : world :=
  {| w_warehouse := w_warehouse w; w_issued := w_issued w; w_written := w_written w;
     w_graph_file := w_graph_file w; w_vstore := x; w_upserts := w_upserts w;
     w_llm := w_llm w; w_cache := w_cache w; w_now := w_now w |}.

Definition set_upserts (x : list (list string)) (w : world) : world :=
  {| w_warehouse := w_warehouse w; w_issued := w_issued w; w_written := w_written w;
     w_graph_file := w_graph_file w; w_vstore := w_vstore w; w_upserts := x;
     w_llm := w_llm w; w_cache := w_cache w; w_now := w_now w |}.

Definition set_llm (x : llm) (w : world) : world :=
  {| w_warehouse := w_warehouse w; w_issued := w_issued w; w_written := w_written w;
     w_graph_file := w_graph_file w; w_vstore := w_vstore w; w_upserts := w_upserts w;
     w_llm := x; w_cache := w_cache w; w_now := w_now w |}.

Definition set_cache (x : gmap string (list (string * json) * Z)) (w : world) : world :=
  {| w_warehouse := w_warehouse w; w_issued := w_issued w; w_written := w_written w;
     w_graph_file := w_graph_file w; w_vstore := w_vstore w; w_upserts := w_upserts w;
     w_llm := w_llm w; w_cache := x; w_now := w_now w |}.

(** A Python computation: it ends by returning or raising, and leaves a
    world behind in both cases. *)
Definition Py (A : Type) : Type := world -> outcome A * world.

Definition ret {A} (a : A) : Py A := fun w => (Return a, w).
Definition raise {A} (e : exn) : Py A := fun w => (Raise e, w).

Definition bind {A B} (m : Py A) (k : A -> Py B) : Py B :=
  fun w =>
    match m w with
    | (Return a, w') => k a w'
    | (Raise e, w') => (Raise e, w')
    end.

(** A pure computation that may raise. *)
Definition lift {A} (o : outcome A) : Py A := fun w => (o, w).

(** [try: m  except Exception: handler] *)
Definition try_except {A} (m : Py A) (handler : exn -> Py A) : Py A :=
  fun w =>
    match m w with
    | (Return a, w') => (Return a, w')
    | (Raise e, w') => handler e w'
    end.

(** [try: m  finally: cleanup], for a cleanup that cannot raise. *)
Definition try_finally {A} (m : Py A) (cleanup : world -> world) : Py A :=
  fun w => let (r, w') := m w in (r, cleanup w').

(** [for x in xs: acc = body(x, acc)] *)
Fixpoint for_each {A B} (xs : list A) (acc : B) (body : A -> B -> Py B) : Py B :=
  match xs with
  | [] => ret acc
  | x :: xs' => bind (body x acc) (fun acc' => for_each xs' acc' body)
  end.

(** tenacity's [@retry(stop=stop_after_attempt(n))]: the call is attempted up
    to [n] times; the waiting between attempts has no effect on the result. *)
Fixpoint retry {A} (attempts : nat) (f : Py A) : Py A :=
  match attempts with
  | O => raise RetryError
  | S n =>
      fun w =>
        match f w with
        | (Return a, w') => (Return a, w')
        | (Raise _, w') => retry n f w'
        end
  end.

End World.

Notation "'do' x <- m ; k" := (bind m (fun x => k))
  (at level 10, x name, m at level 100, k at level 200).

(** ** metadata_extractor.py *)

Section Extractor.
Context {rt : PyRuntime} {ext : Externals}.

Definition _json_safe (value : cell) : cell :=
  match value with
  | VDecimal d => VFloat (float_of_decimal d)
  | VTemporal t => VStr (isoformat t)
  | _ => value
  end.

(** [{k: _json_safe(v) for k, v in r.items()}] *)
Definition json_safe_row (r : gmap string cell) : gmap string cell :=
  _json_safe <$> r.

Definition _json_safe_records (records : list (gmap string cell)) : list (gmap string cell) :=
  map json_safe_row records.

(** [snowflake.connector.connect(...)] *)
Definition get_sf_connection : Py unit :=
  fun w => let (r, wh) := sf_connect (w_warehouse w) in (r, set_warehouse wh w).

(** [conn.close()] *)
Definition conn_close (w : world) : world :=
  set_warehouse (sf_close (w_warehouse w)) w.

(** One [cur.execute(sql)] whose result set is not read. *)
Definition execute_only (sql : string) : Py unit :=
  fun w =>
    match cur_execute sql (w_warehouse w) with
    | (ExecRaised, wh) => (Raise ExternalError, set_warehouse wh w)
    | (_, wh) => (Return tt, set_warehouse wh w)
    end.

Definition apply_context : Py unit :=
  do _ <- (if String.eqb (role snowflake_config) EmptyString then ret tt
           else execute_only ("USE ROLE " +:+ role snowflake_config));
  do _ <- (if String.eqb (warehouse_name snowflake_config) EmptyString then ret tt
           else execute_only ("USE WAREHOUSE " +:+ warehouse_name snowflake_config));
  do _ <- (if String.eqb (database snowflake_config) EmptyString then ret tt
           else execute_only ("USE DATABASE " +:+ database snowflake_config));
  match schema snowflake_config with
  | Some s => if String.eqb s EmptyString then ret tt
              else execute_only ("USE SCHEMA " +:+ s)
  | None => ret tt
  end.

(** The body of [run_query]: one attempt. *)
Definition run_query_attempt (sql : string) : Py (list (gmap string cell)) :=
  fun w =>
    match cur_execute sql (w_warehouse w) with
    | (ExecRaised, wh) => (Raise ExternalError, set_warehouse wh w)
    | (FetchRaised, wh) => (Return [], set_warehouse wh w)   (* df = pd.DataFrame() *)
    | (Fetched frame, wh) => (Return frame, set_warehouse wh w)
    end.

(** [run_query(conn, sql)] under [@retry(stop=stop_after_attempt(3))]; the
    result is the frame's [to_dict(orient="records")]. *)
Definition run_query (sql : string) : Py (list (gmap string cell)) :=
  fun w => retry 3 (run_query_attempt sql) (set_issued (w_issued w ++ [sql]) w).

(** [try: df = run_query(conn, sql)  except Exception: df = pd.DataFrame()] *)
Definition run_query_or_empty (sql : string) : Py (list (gmap string cell)) :=
  try_except (run_query sql) (fun _ => ret []).

Definition initial_results : gmap string (list (gmap string cell)) :=
  {[ "tables" := []; "views" := []; "columns" := []; "query_history" := [] ]}.

(** The loop over [queries.items()]. *)
Definition run_battery (queries : list (string * string))
    (results : gmap string (list (gmap string cell)))
    : Py (gmap string (list (gmap string cell))) :=
  for_each queries results (fun q results =>
    do df <- run_query_or_empty (snd q);
    ret (<[fst q := _json_safe_records df]> results)).

(** [json.dump(results, f)] into ./data/metadata_latest.json; the local disk
    is taken to be writable. *)
Definition write_snapshot (results : gmap string (list (gmap string cell))) : Py unit :=
  fun w => (Return tt, set_written (w_written w ++ [results]) w).

(** [c.get(k) or c.get(K)] *)
Definition get_or (c : gmap string cell) (k K : string) : cell :=
  py_or (row_get c k) (row_get c K).

(** [per_table.setdefault(tkey, []).append(c)] *)
Fixpoint setdefault_append (tkey : cell * cell * cell) (c : gmap string cell)
    (per_table : list (cell * cell * cell * list (gmap string cell)))
    : list (cell * cell * cell * list (gmap string cell)) :=
  match per_table with
  | [] => [(tkey, [c])]
  | (k, cols) :: rest =>
      if decide (tkey = k) then (k, cols ++ [c]) :: rest
      else (k, cols) :: setdefault_append tkey c rest
  end.

(** The body of the grouping loop of the statistics phase. *)
Definition group_column (per_table : list (cell * cell * cell * list (gmap string cell)))
    (c : gmap string cell) : list (cell * cell * cell * list (gmap string cell)) :=
  let db := get_or c "database_name" "DATABASE_NAME" in
  let schema := get_or c "schema_name" "SCHEMA_NAME" in
  let table := get_or c "table_name" "TABLE_NAME" in
  if negb (truthy table) then per_table
  else setdefault_append (db, schema, table) c per_table.

(** The grouping loop: [per_table] after [for c in columns]. *)
Definition group_columns (columns : list (gmap string cell))
    : list (cell * cell * cell * list (gmap string cell)) :=
  fold_left group_column columns [].

(** The dictionary appended to [stats] for one column. *)
Definition stat_row (tkey : cell * cell * cell) (col dtype : cell)
    (df : list (gmap string cell)) : gmap string cell :=
  let row := match df with r :: _ => r | [] => ∅ end in
  let row := json_safe_row row in
  row ∪ {[ "database_name" := tkey.1.1; "schema_name" := tkey.1.2;
           "table_name" := tkey.2; "column_name" := col; "data_type" := dtype ]}.

(** The body of [for c in cols[:5]]. *)
Definition sample_column (tkey : cell * cell * cell) (c : gmap string cell)
    (stats : list (gmap string cell)) : Py (list (gmap string cell)) :=
  let col := get_or c "column_name" "COLUMN_NAME" in
  let dtype := get_or c "data_type" "DATA_TYPE" in
  if negb (truthy col) || negb (truthy dtype) then ret stats
  else
    do sql <- lift (min_max_distinct_for_column tkey.1.1 tkey.1.2 tkey.2 col dtype);
    do df <- run_query_or_empty sql;
    ret (stats ++ [stat_row tkey col dtype df]).

(** The body of [for tkey, cols in per_table.items()]. *)
Definition sample_table (group : cell * cell * cell * list (gmap string cell))
    (stats : list (gmap string cell)) : Py (list (gmap string cell)) :=
  for_each (take 5 (snd group)) stats (sample_column (fst group)).

(** The statistics phase, [try] block and handler. *)
Definition derive_stats (results : gmap string (list (gmap string cell)))
    : Py (gmap string (list (gmap string cell))) :=
  try_except
    (let columns := default [] (results !! "columns") in
     do stats <- for_each (group_columns columns) [] sample_table;
     ret (<["column_stats" := stats]> results))
    (fun _ => ret results).

(** [GraphDB.load_local]: the graph stays empty when the file is absent or
    cannot be read. *)
Definition load_local : Py DiGraph :=
  fun w => (Return (default empty_graph (w_graph_file w)), w).

(** [GraphDB.save_local] *)
Definition save_local (g : DiGraph) : Py unit :=
  fun w => (Return tt, set_graph_file (Some g) w).

(** The graph phase, [try] block and handler.  The optional Neo4j mirror
    writes to a store the program never reads back and is left out. *)
Definition build_graph (results : gmap string (list (gmap string cell))) : Py unit :=
  try_except
    (do g <- load_local;
     do g <- lift (build_from_metadata g (default [] (results !! "tables"))
                                         (default [] (results !! "columns")));
     save_local g)
    (fun _ => ret tt).

Definition extract_metadata : Py (gmap string (list (gmap string cell))) :=
  do _ <- get_sf_connection;
  try_finally
    (do _ <- apply_context;
     let queries :=
       if String.eqb (database snowflake_config) EmptyString then QUERIES_ACCOUNT else QUERIES in
     do results <- run_battery queries initial_results;
     do _ <- write_snapshot results;
     do results <- derive_stats results;
     do _ <- write_snapshot results;
     do _ <- build_graph results;
     ret results)
    conn_close.

End Extractor.

(** ** cache_utils.py *)

Section Cache.
Context {rt : PyRuntime} {ext : Externals}.

(** [hashlib.sha256(key.encode("utf-8")).hexdigest()] *)
Definition _hash_key (key : string) : string := sha256_hexdigest key.

(** The key under which [cached_call] files its value. *)
Definition cache_key (key_parts : list string) : string :=
  let key_raw := join "|" key_parts in
  _hash_key key_raw.

(** [_cache[key]] guarded by [key in _cache]: an entry past its expiry time
    is absent. *)
Definition cache_get (key : string) (w : world) : option (list (string * json)) :=
  match w_cache w !! key with
  | Some (value, expire_time) => if w_now w <? expire_time then Some value else None
  | None => None
  end.

(** [_cache.set(key, value, expire=expire)] *)
Definition cache_set (key : string) (value : list (string * json)) (expire : Z) : Py unit :=
  fun w => (Return tt, set_cache (<[key := (value, w_now w + expire)]> (w_cache w)) w).

Definition cached_call (key_parts : list string) (fn : Py (list (string * json)))
    (expire : Z) : Py (list (string * json)) :=
  let key := cache_key key_parts in
  fun w =>
    match cache_get key w with
    | Some value => (Return value, w)
    | None => (do value <- fn; do _ <- cache_set key value expire; ret value) w
    end.

End Cache.

(** ** rag_pipeline.py *)

(** A document of the corpus: [{"id": ..., "text": ..., "metadata": ...}]. *)
Record document {rt : PyRuntime} : Type := {
  doc_id : string;
  doc_text : string;
  doc_metadata : option (gmap string cell);
}.

(** [range(0, stop, step)] for a positive step *)
Definition py_range (stop step : nat) : list nat :=
  map (fun k => (k * step)%nat) (seq 0 ((stop + step - 1) / step)%nat).

(** [l[i:j]] for [0 <= i <= j] *)
Definition slice {A} (i j : nat) (l : list A) : list A := take (j - i)%nat (drop i l).

Section Rag.
Context {rt : PyRuntime} {ext : Externals}.

Definition get_chroma_collection : Py unit :=
  fun w => let (r, vs) := get_or_create_collection (w_vstore w) in (r, set_vstore vs w).

(** [collection.upsert(ids=..., metadatas=..., documents=...)] *)
Definition upsert_request (ids : list string) (metadatas : list (gmap string cell))
    (documents : list string) : Py unit :=
  fun w =>
    let (r, vs) := collection_upsert ids metadatas documents (w_vstore w) in
    (r, set_upserts (w_upserts w ++ [ids]) (set_vstore vs w)).

(** The body of the loop of [upsert_docs_to_chroma]. *)
Definition upsert_batch (ids : list string) (metadatas : list (gmap string cell))
    (contents : list string) (batch_size i count : nat) : Py nat :=
  do _ <- upsert_request (slice i (i + batch_size) ids)
                         (slice i (i + batch_size) metadatas)
                         (slice i (i + batch_size) contents);
  ret (count + length (slice i (i + batch_size) ids))%nat.

Definition upsert_docs_to_chroma (docs : list document) : Py nat :=
  do _ <- get_chroma_collection;
  let ids := map doc_id docs in
  let metadatas := map (fun d => default ∅ (doc_metadata d)) docs in
  let contents := map doc_text docs in
  let batch_size := 100%nat in
  for_each (py_range (length ids) batch_size) 0%nat
           (upsert_batch ids metadatas contents batch_size).

Definition retrieve_context_from_vector (question : string) (top_k : Z) : Py (list string) :=
  do _ <- get_chroma_collection;
  fun w =>
    let (r, vs) := collection_query question top_k (w_vstore w) in
    (r, set_vstore vs w).

(** [repr] of an attribute dictionary, as the f-string field [{props}]
    renders it. *)
Definition repr_dict (d : list (string * cell)) : string :=
  "{" +:+ join ", " (map (fun kv => str_repr (fst kv) +:+ ": " +:+ py_repr (snd kv)) d) +:+ "}".

(** [GraphDB()] starts from an empty graph and only reads the environment;
    [load_local] then reads the graph file. *)
Definition retrieve_from_graph (keyword : string) (max_results : Z) : Py (list string) :=
  do g <- load_local;
  do matches <- lift (search g keyword max_results);
  ret (map (fun m => "Graph match: " +:+ py_str (fst m) +:+ " props=" +:+ repr_dict (snd m))
           matches).

(** [llm_complete] under [@retry(stop=stop_after_attempt(3))] *)
Definition llm_complete (system_prompt user_prompt : string) : Py string :=
  retry 3 (fun w =>
    match chat_completions_create (openai_model app_config) system_prompt user_prompt
                                  (w_llm w) with
    | (Return content, l) => (Return (default EmptyString content), set_llm l w)
    | (Raise e, l) => (Raise e, set_llm l w)
    end).

Definition build_system_prompt : string :=
  "You are an expert data analyst working with a Snowflake data warehouse. "
  +:+ "Given database metadata context and a business question, produce: "
  +:+ "1) a concise business insight in simple English, 2) one Snowflake SQL query to answer it, "
  +:+ "3) suggested chart type. Only generate valid Snowflake SQL; NEVER drop or modify data.".

Definition build_user_prompt (question : string) (context_snippets : list string) : string :=
  let context_text := join (nl +:+ nl) (take 12 context_snippets) in
  "METADATA CONTEXT:" +:+ nl +:+ context_text +:+ nl +:+ nl
  +:+ "QUESTION:" +:+ nl +:+ question +:+ nl +:+ nl
  +:+ "Respond in JSON with keys: insight, sql, chart_type (one of line, bar, area, scatter, table).".

Definition pick_context (question : string) : Py (list string) :=
  do vctx <- retrieve_context_from_vector question (default_top_k app_config);
  if (Z.of_nat (length vctx) >=? 3) then ret vctx
  else
    do gctx <- retrieve_from_graph question (default_top_k app_config);
    ret (match gctx with [] => vctx | _ :: _ => gctx end).

(** [d[k] = v] on a dictionary kept in insertion order *)
Fixpoint dict_set (k : string) (v : json) (d : list (string * json)) : list (string * json) :=
  match d with
  | [] => [(k, v)]
  | (k', v') :: d' => if String.eqb k k' then (k, v) :: d' else (k', v') :: dict_set k v d'
  end.

(** The result [generate_sql_and_insight] degrades to when the response is
    not JSON. *)
Definition degraded (response : string) : json :=
  JDict [("insight", JStr response); ("sql", JNull); ("chart_type", JStr "table")].

(** The inner function [_compute] of [generate_sql_and_insight]. *)
Definition _compute (question : string) : Py (list (string * json)) :=
  do context_snippets <- pick_context question;
  do response <- llm_complete build_system_prompt (build_user_prompt question context_snippets);
  let data :=
    match json_loads response with
    | Return data => data
    | Raise _ => degraded response
    end in
  match data with
  | JDict d => ret (dict_set "context" (JList (map JStr context_snippets)) d)
  | _ => raise TypeError     (* [{**data}] on a value that is not a mapping *)
  end.

Definition generate_sql_and_insight (question : string) : Py (list (string * json)) :=
  cached_call ["qa"; question] (_compute question) 1800.

End Rag.

(** ** More of the sources *)

(** *** Strings, continued *)

(** [s[:n]] and [s[n:]] *)
Fixpoint str_take (n : nat) (s : string) : string :=
  match n, s with
  | S n', String c s' => String c (str_take n' s')
  | _, _ => EmptyString
  end.

Fixpoint str_drop (n : nat) (s : string) : string :=
  match n, s with
  | S n', String _ s' => str_drop n' s'
  | _, _ => s
  end.






(** *** metadata_extractor.py, continued *)

(** What [connection_test] returns: [{"ok": True, "info": ...}] or
    [{"ok": False, "error": str(e)}]. *)
Inductive test_report {rt : PyRuntime} : Type :=
  | Connected (info : list (gmap string cell))
  | NotConnected (error : exn).

(** What ./data/metadata_docs.json holds after a write: the documents, or
    the beginning of their text when the write failed. *)
Inductive docs_file {rt : PyRuntime} : Type :=
  | DocsWritten (docs : list document)
  | DocsTruncated.

Section ExtractorMore.
Context {rt : PyRuntime} {ext : Externals}.

Definition connection_test_sql : string :=
  "SELECT CURRENT_ACCOUNT() AS acct, CURRENT_ROLE() AS role, CURRENT_WAREHOUSE() AS wh, CURRENT_DATABASE() AS db, CURRENT_SCHEMA() AS sch".

Definition connection_test : Py test_report :=
  try_except
    (do _ <- get_sf_connection;
     try_finally
       (do _ <- apply_context;
        do df <- run_query connection_test_sql;
        ret (Connected df))
       conn_close)
    (fun e => ret (NotConnected e)).

(** The dotted path [f"{db}.{schema}.{table}"] and its extension by a column. *)
Definition dotted3 (db schema table : cell) : string :=
  py_str db +:+ "." +:+ py_str schema +:+ "." +:+ py_str table.

Definition dotted4 (db schema table col : cell) : string :=
  dotted3 db schema table +:+ "." +:+ py_str col.

(** The document of a table row. *)
Definition table_doc (t : gmap string cell) : document :=
  let db := get_or t "database_name" "DATABASE_NAME" in
  let schema := get_or t "schema_name" "SCHEMA_NAME" in
  let table := get_or t "table_name" "TABLE_NAME" in
  let text :=
    "Table " +:+ dotted3 db schema table
    +:+ " has row_count=" +:+ py_str (get_or t "row_count" "ROW_COUNT")
    +:+ " created=" +:+ py_str (get_or t "created" "CREATED")
    +:+ " last_altered=" +:+ py_str (get_or t "last_altered" "LAST_ALTERED") in
  {| doc_id := "table::" +:+ dotted3 db schema table; doc_text := text;
     doc_metadata := Some t |}.

(** The document of a column row. *)
Definition column_doc (c : gmap string cell) : document :=
  let db := get_or c "database_name" "DATABASE_NAME" in
  let schema := get_or c "schema_name" "SCHEMA_NAME" in
  let table := get_or c "table_name" "TABLE_NAME" in
  let col := get_or c "column_name" "COLUMN_NAME" in
  let dtype := get_or c "data_type" "DATA_TYPE" in
  let nullable := get_or c "is_nullable" "IS_NULLABLE" in
  let text :=
    "Column " +:+ dotted4 db schema table col
    +:+ " type=" +:+ py_str dtype +:+ " nullable=" +:+ py_str nullable in
  {| doc_id := "column::" +:+ dotted4 db schema table col; doc_text := text;
     doc_metadata := Some c |}.

Definition identification_fields : list string :=
  ["database_name"; "schema_name"; "table_name"; "column_name"].

(** The document of a statistics row; [items] lists the fields of the row
    in the order of the dictionary. *)
Definition stats_doc (items : gmap string cell -> list (string * cell))
    (s : gmap string cell) : document :=
  let db := row_get s "database_name" in
  let schema := row_get s "schema_name" in
  let table := row_get s "table_name" in
  let col := row_get s "column_name" in
  let shown :=
    List.filter (fun kv => negb (str_in (lower (fst kv)) identification_fields)) (items s) in
  let text :=
    "Stats for " +:+ dotted4 db schema table col +:+ ": "
    +:+ join ", " (map (fun kv => fst kv +:+ "=" +:+ py_str (_json_safe (snd kv))) shown) in
  {| doc_id := "colstats::" +:+ dotted4 db schema table col; doc_text := text;
     doc_metadata := Some s |}.

(** The document of a query-history row; [py_hash] is the builtin [hash]
    on strings. *)
Definition query_doc (py_hash : string -> Z) (q : gmap string cell) : document :=
  let db := get_or q "database_name" "DATABASE_NAME" in
  let schema := get_or q "schema_name" "SCHEMA_NAME" in
  let text :=
    "Query on " +:+ py_str db +:+ "." +:+ py_str schema
    +:+ " status=" +:+ py_str (get_or q "execution_status" "EXECUTION_STATUS")
    +:+ " elapsed_ms="
    +:+ py_str (_json_safe (get_or q "total_elapsed_time" "TOTAL_ELAPSED_TIME"))
    +:+ " text=" +:+ str_take 500 (py_str (get_or q "query_text" "QUERY_TEXT")) in
  {| doc_id := "query::" +:+ pretty (py_hash text); doc_text := text;
     doc_metadata := Some q |}.

(** The list [docs] that [save_metadata_docs] builds. *)
Definition metadata_docs (items : gmap string cell -> list (string * cell))
    (py_hash : string -> Z) (metadata : gmap string (list (gmap string cell)))
    : list document :=
  map table_doc (default [] (metadata !! "tables"))
  ++ map column_doc (default [] (metadata !! "columns"))
  ++ map (stats_doc items) (default [] (metadata !! "column_stats"))
  ++ map (query_doc py_hash) (default [] (metadata !! "query_history")).

(** A value [json.dump] can write, and a document whose metadata holds
    such values only. *)
Definition dumpable (v : cell) : bool :=
  match v with
  | VDecimal _ | VTemporal _ => false
  | _ => true
  end.

Definition dumpable_doc (d : document) : bool :=
  match doc_metadata d with
  | Some r => forallb (fun kv => dumpable (snd kv)) (map_to_list r)
  | None => true
  end.

(** [json.dump(docs, f, ...)] into ./data/metadata_docs.json, whose
    successive contents are [written]: the file is opened for writing, and a
    value that cannot be written raises TypeError and leaves it cut short. *)
Definition dump_docs (docs : list document) (written : list docs_file)
    : outcome unit * list docs_file :=
  if forallb dumpable_doc docs then (Return tt, written ++ [DocsWritten docs])
  else (Raise TypeError, written ++ [DocsTruncated]).

(** [save_metadata_docs]: the documents are written and returned. *)
Definition save_metadata_docs (items : gmap string cell -> list (string * cell))
    (py_hash : string -> Z) (metadata : gmap string (list (gmap string cell)))
    (written : list docs_file) : outcome (list document) * list docs_file :=
  let docs := metadata_docs items py_hash metadata in
  match dump_docs docs written with
  | (Return _, written1) => (Return docs, written1)
  | (Raise e, written1) => (Raise e, written1)
  end.

(** refresh_metadata.py: [run], which returns here the count it prints. *)
Definition run (items : gmap string cell -> list (string * cell)) (py_hash : string -> Z)
    (w : world) (written : list docs_file) : outcome nat * (world * list docs_file) :=
  match extract_metadata w with
  | (Raise e, w1) => (Raise e, (w1, written))
  | (Return md, w1) =>
      match save_metadata_docs items py_hash md written with
      | (Raise e, written1) => (Raise e, (w1, written1))
      | (Return docs, written1) =>
          match dump_docs docs written1 with
          | (Raise e, written2) => (Raise e, (w1, written2))
          | (Return _, written2) =>
              let (count, w2) := upsert_docs_to_chroma docs w1 in
              (count, (w2, written2))
          end
      end
  end.

(** *** rag_pipeline.py, continued *)

(** [run_sql]: the statement is executed once, without retry. *)
Definition run_sql (sql : string) : Py (list (gmap string cell)) :=
  do _ <- get_sf_connection;
  try_finally
    (do _ <- apply_context;
     run_query_attempt sql)
    conn_close.

End ExtractorMore.

(** What [render_chart] looks at in a data frame: the number of rows and,
    per column, its label and whether its dtype is numeric. *)
Record frame_column : Type := {
  column_label : string;
  is_numeric : bool;
}.

Record data_frame : Type := {
  n_rows : nat;
  frame_columns : list frame_column;
}.

(** The figure asked of plotly: its kind and the columns on its axes. *)
Inductive figure : Type :=
  | LineChart (x y : string)
  | AreaChart (x y : string)
  | BarChart (x y : string)
  | ScatterChart (x y : string).

(** [df.empty] *)
Definition df_empty (df : data_frame) : bool :=
  (n_rows df =? 0)%nat || (length (frame_columns df) =? 0)%nat.

(** [render_chart]; the column labels are distinct strings, and plotly
    builds the figure from the frame, sorted for a line or area chart, and
    the two labels. *)
Definition render_chart (df : data_frame) (chart_type : string) : option figure :=
  if df_empty df then None
  else
    let columns := map column_label (frame_columns df) in
    let time_cols :=
      List.filter (fun c => contains "date" (lower c) || contains "time" (lower c)) columns in
    let num_cols := map column_label (List.filter is_numeric (frame_columns df)) in
    let cat_cols :=
      map column_label (List.filter (fun c => negb (is_numeric c)) (frame_columns df)) in
    let line_or_area :=
      match time_cols, num_cols with
      | x_col :: _, y_col :: _ =>
          if str_in chart_type ["line"; "area"]
          then Some (if String.eqb chart_type "line" then LineChart x_col y_col
                     else AreaChart x_col y_col)
          else None
      | _, _ => None
      end in
    let bar :=
      match cat_cols, num_cols with
      | x_col :: _, y_col :: _ =>
          if String.eqb chart_type "bar" then Some (BarChart x_col y_col) else None
      | _, _ => None
      end in
    let scatter :=
      match num_cols with
      | x_col :: y_col :: _ =>
          if String.eqb chart_type "scatter" then Some (ScatterChart x_col y_col) else None
      | _ => None
      end in
    let fallback :=
      match columns, num_cols with
      | x_col :: _ :: _, y_col :: _ => Some (BarChart x_col y_col)
      | _, _ => None
      end in
    match line_or_area, bar, scatter with
    | Some fig, _, _ => Some fig
    | None, Some fig, _ => Some fig
    | None, None, Some fig => Some fig
    | None, None, None => fallback
    end.

(** *** auth.py *)


Section Auth.
Context {rt : PyRuntime} {ext : Externals}.

Definition _hash_password (password : string) : string := sha256_hexdigest password.



Definition verify_user (username password : string) (users : gmap string (string * string))
    : bool * option string :=
  match users !! username with
  | None => (false, None)
  | Some (stored_password, role) =>
      if startswith "{SHA256}" stored_password then
        let expected_hash := str_drop 8 stored_password in
        if String.eqb (_hash_password password) expected_hash then (true, Some role)
        else (false, None)
      else if String.eqb stored_password password then (true, Some role)
      else (false, None)
  end.

End Auth.

(** ** Scenarios *)

(** *** The one-table snapshot of the end-to-end scenarios *)

Section Scenario.
Context {rt : PyRuntime}.

Definition scenario_tables : list (gmap string cell) :=
  [ {[ "database_name" := VStr "DB"; "schema_name" := VStr "PUBLIC";
       "table_name" := VStr "ORDERS"; "row_count" := VInt 10 ]} ].

Definition scenario_columns : list (gmap string cell) :=
  [ {[ "database_name" := VStr "DB"; "schema_name" := VStr "PUBLIC";
       "table_name" := VStr "ORDERS"; "column_name" := VStr "ORDER_ID";
       "data_type" := VStr "NUMBER" ]} ].

Definition scenario_graph : DiGraph :=
  {| nodes :=
       [ (VStr "DB", [("label", VStr "Database"); ("name", VStr "DB")]);
         (VStr "DB.PUBLIC", [("label", VStr "Schema"); ("name", VStr "PUBLIC")]);
         (VStr "DB.PUBLIC.ORDERS",
            [("label", VStr "Table"); ("name", VStr "ORDERS"); ("row_count", VInt 10)]);
         (VStr "DB.PUBLIC.ORDERS.ORDER_ID",
            [("label", VStr "Column"); ("name", VStr "ORDER_ID");
             ("data_type", VStr "NUMBER")]) ];
     edges :=
       [ ((VStr "DB", VStr "DB.PUBLIC"), [("type", VStr "CONTAINS")]);
         ((VStr "DB.PUBLIC", VStr "DB.PUBLIC.ORDERS"), [("type", VStr "CONTAINS")]);
         ((VStr "DB.PUBLIC.ORDERS", VStr "DB.PUBLIC.ORDERS.ORDER_ID"),
            [("type", VStr "HAS_COLUMN")]) ] |}.

End Scenario.

(** *** A scripted environment

    Floats, decimals and timestamps are carried as their text; every service
    answers from its state: the warehouse from a table of scripted answers
    per statement, the vector store with the documents it holds, the model
    with a fixed reply. *)

Definition demo_runtime : PyRuntime :=
  {| pyfloat := string; decimal := string; temporal := string;
     pyfloat_eq_dec := _; decimal_eq_dec := _; temporal_eq_dec := _;
     float_of_decimal := fun d => d;
     isoformat := fun t => t;
     float_nonzero := fun f => negb (String.eqb f "0.0");
     decimal_nonzero := fun d => negb (String.eqb d "0");
     float_str := fun f => f;
     decimal_str := fun d => d;
     temporal_str := fun t => t;
     str_repr := fun s => "'" +:+ s +:+ "'";
     decimal_repr := fun d => d;
     temporal_repr := fun t => t |}.

(** The scripted answer to a statement; a statement the script does not
    list returns an empty frame. *)
Fixpoint scripted (sql : string) (script : list (string * @executed demo_runtime))
    : @executed demo_runtime :=
  match script with
  | [] => Fetched []
  | (statement, answer) :: rest =>
      if String.eqb statement sql then answer else scripted sql rest
  end.

Definition demo_services : @Externals demo_runtime :=
  {| snowflake_config :=
       {| account := "acme"; user := "svc"; password := "secret"; warehouse_name := "WH";
          database := "DB"; role := EmptyString; schema := None |};
     app_config :=
       {| graph_path := "./data/graphdb.json"; openai_model := "gpt-4o-mini";
          default_top_k := 8 |};
     warehouse := list (string * @executed demo_runtime);
     sf_connect := fun wh => (Return tt, wh);
     cur_execute := fun sql wh => (scripted sql wh, wh);
     sf_close := fun wh => wh;
     vstore := list string;
     get_or_create_collection := fun vs => (Return tt, vs);
     collection_upsert := fun ids metadatas documents vs => (Return tt, vs ++ documents);
     collection_query := fun question top_k vs => (Return (take (Z.to_nat top_k) vs), vs);
     llm := option string;
     chat_completions_create := fun model system_prompt user_prompt l => (Return l, l);
     json_loads := fun s => if String.eqb s "{}" then Return (JDict []) else Raise ValueError;
     sha256_hexdigest := fun s => s |}.

Definition demo_decimal (text : string) : @cell demo_runtime := @VDecimal demo_runtime text.
Definition demo_timestamp (text : string) : @cell demo_runtime := @VTemporal demo_runtime text.

(** The statement filed under [key] in a battery. *)
Fixpoint battery_sql (queries : list (string * string)) (key : string) : string :=
  match queries with
  | [] => EmptyString
  | (k, sql) :: rest => if String.eqb k key then sql else battery_sql rest key
  end.

Definition demo_column (name dtype : string) : gmap string (@cell demo_runtime) :=
  {[ "DATABASE_NAME" := VStr "DB"; "SCHEMA_NAME" := VStr "PUBLIC";
     "TABLE_NAME" := VStr "ORDERS"; "COLUMN_NAME" := VStr name;
     "DATA_TYPE" := VStr dtype ]}.

Definition demo_table_row : gmap string (@cell demo_runtime) :=
  {[ "DATABASE_NAME" := VStr "DB"; "SCHEMA_NAME" := VStr "PUBLIC";
     "TABLE_NAME" := VStr "ORDERS"; "ROW_COUNT" := demo_decimal "10";
     "CREATED" := demo_timestamp "2023-11-14T22:13:20" ]}.

Definition demo_stat_sql (name dtype : string) : string :=
  match @min_max_distinct_for_column demo_runtime
          (VStr "DB") (VStr "PUBLIC") (VStr "ORDERS") (VStr name) (VStr dtype) with
  | Return sql => sql
  | Raise _ => EmptyString
  end.

(** A warehouse that answers in upper-case field names, has one table of six
    columns, fails the "views" query and the statistics query of the column
    PLACED_AT on every attempt, and returns decimals and timestamps. *)
Definition demo_script : list (string * @executed demo_runtime) :=
  [ (battery_sql QUERIES "tables", Fetched [demo_table_row]);
    (battery_sql QUERIES "views", ExecRaised);
    (battery_sql QUERIES "columns",
       Fetched [ demo_column "ORDER_ID" "NUMBER"; demo_column "PLACED_AT" "TIMESTAMP_NTZ";
                 demo_column "STATUS" "VARCHAR"; demo_column "TOTAL" "NUMBER";
                 demo_column "CUSTOMER" "TEXT"; demo_column "NOTE" "TEXT" ]);
    (demo_stat_sql "ORDER_ID" "NUMBER",
       Fetched [ {[ "MIN_VALUE" := demo_decimal "1"; "MAX_VALUE" := demo_decimal "9";
                    "DISTINCT_COUNT" := VInt 9 ]} ]);
    (demo_stat_sql "PLACED_AT" "TIMESTAMP_NTZ", ExecRaised) ].

Definition demo_world (script : list (string * @executed demo_runtime))
    (graph : option (@DiGraph demo_runtime)) (stored : list string) (reply : option string)
    : @world demo_runtime demo_services :=
  @Build_world demo_runtime demo_services
    script [] [] graph stored [] reply ∅ 0.

(** The world before a refresh against the scripted warehouse. *)
Definition refresh_world : @world demo_runtime demo_services :=
  demo_world demo_script None [] None.

(** A battery of three short statements, and a warehouse on which the
    second one fails on every attempt. *)
Definition probe_queries : list (string * string) :=
  [("tables", "SELECT 1"); ("views", "SELECT 2"); ("columns", "SELECT 3")].

Definition flaky_world : @world demo_runtime demo_services :=
  demo_world [("SELECT 2", ExecRaised);
              ("SELECT 3", Fetched [demo_column "ORDER_ID" "NUMBER"])] None [] None.

(** A warehouse on which the statistics statement of PLACED_AT fails on
    every attempt. *)
Definition stat_failure_world : @world demo_runtime demo_services :=
  demo_world [(demo_stat_sql "PLACED_AT" "TIMESTAMP_NTZ", ExecRaised)] None [] None.

(** Vector indexes holding three and two documents, with and without a
    graph file; the model replies with text that is not JSON. *)
Definition warm_index_world : @world demo_runtime demo_services :=
  demo_world [] None ["doc one"; "doc two"; "doc three"] (Some "not json").

Definition sparse_index_world : @world demo_runtime demo_services :=
  demo_world [] (Some (@scenario_graph demo_runtime)) ["doc one"; "doc two"] None.

Definition cold_graph_world : @world demo_runtime demo_services :=
  demo_world [] None ["doc one"; "doc two"] None.

(** A corpus of 250 documents. *)
Definition demo_docs : list (@document demo_runtime) :=
  map (fun i => {| doc_id := "table::DB.PUBLIC.T" +:+ pretty i;
                   doc_text := "Table DB.PUBLIC.T" +:+ pretty i;
                   doc_metadata := None |})
      (seq 0 250).


(** Whether all field names of a snapshot are written in one casing. *)
Definition field_names {rt : PyRuntime} (results : gmap string (list (gmap string cell)))
    : list string :=
  flat_map (fun entry => flat_map (fun r => fst <$> map_to_list r) (snd entry))
           (map_to_list results).

Definition one_casing {rt : PyRuntime} (results : gmap string (list (gmap string cell)))
    : bool :=
  forallb (fun k => String.eqb k (lower k)) (field_names results)
  || forallb (fun k => String.eqb k (upper k)) (field_names results).

(** ** Vocabulary of the properties *)

Section Vocabulary.
Context {rt : PyRuntime}.

(** The row carries the field under neither spelling. *)
Definition lacks (r : gmap string cell) (field : string) : Prop :=
  r !! field = None /\ r !! upper field = None.

(** No character of the string is the separator of [cached_call]. *)
Fixpoint pipe_free (s : string) : bool :=
  match s with
  | EmptyString => true
  | String c s' => negb (Ascii.eqb c "|") && pipe_free s'
  end.

(** A value [json.dump] can write. *)
Definition json_safe_cell (v : cell) : bool :=
  match v with
  | VDecimal _ | VTemporal _ => false
  | _ => true
  end.

Definition safe_row (r : gmap string cell) : Prop :=
  map_Forall (fun _ v => json_safe_cell v = true) r.

Definition safe_snapshot (results : gmap string (list (gmap string cell))) : Prop :=
  map_Forall (fun _ rows => Forall safe_row rows) results.

(** A group of the statistics phase whose key and rows are JSON-safe. *)
Definition safe_group (group : cell * cell * cell * list (gmap string cell)) : Prop :=
  json_safe_cell group.1.1.1 = true /\ json_safe_cell group.1.1.2 = true
  /\ json_safe_cell group.1.2 = true /\ Forall safe_row group.2.

(** The column rows of a table for which the statistics phase asks the
    warehouse: those of the first five that carry a name and a type. *)
Definition has_name_and_type (c : gmap string cell) : bool :=
  truthy (get_or c "column_name" "COLUMN_NAME") && truthy (get_or c "data_type" "DATA_TYPE").

Definition sampled (cols : list (gmap string cell)) : list (gmap string cell) :=
  List.filter has_name_and_type (take 5 cols).

(** The table a column row belongs to, as the grouping loop reads it. *)
Definition table_key (c : gmap string cell) : cell * cell * cell :=
  (get_or c "database_name" "DATABASE_NAME", get_or c "schema_name" "SCHEMA_NAME",
   get_or c "table_name" "TABLE_NAME").

(** The column rows of the table [tkey], in the order of the result set. *)
Definition columns_of (tkey : cell * cell * cell) (columns : list (gmap string cell))
    : list (gmap string cell) :=
  List.filter (fun c => truthy (table_key c).2 && bool_decide (table_key c = tkey)) columns.

(** [per_table.get(tkey)] *)
Fixpoint group_of (tkey : cell * cell * cell)
    (per_table : list (cell * cell * cell * list (gmap string cell)))
    : option (list (gmap string cell)) :=
  match per_table with
  | [] => None
  | (k, cols) :: rest => if decide (tkey = k) then Some cols else group_of tkey rest
  end.

(** The statistics statement of a column of the table [tkey]. *)
Definition stat_sql (tkey : cell * cell * cell) (c : gmap string cell) : outcome string :=
  min_max_distinct_for_column tkey.1.1 tkey.1.2 tkey.2
    (get_or c "column_name" "COLUMN_NAME") (get_or c "data_type" "DATA_TYPE").

(** The dictionary [generate_sql_and_insight] returns when the response of
    the model is not JSON. *)
Definition degraded_result (response : string) (context_snippets : list string)
    : list (string * json) :=
  [ ("insight", JStr response); ("sql", JNull); ("chart_type", JStr "table");
    ("context", JList (map JStr context_snippets)) ].

End Vocabulary.

(** Computations that leave a component [f] of the world as it was. *)
Definition keeps {rt : PyRuntime} {ext : Externals} {X A}
    (f : world -> X) (m : Py A) : Prop :=
  forall w, f (snd (m w)) = f w.

(** ** Vocabulary of the further properties *)

Section VocabularyMore.
Context {rt : PyRuntime}.

Definition node_ids (g : DiGraph) : list cell := map fst (nodes g).
Definition edge_keys (g : DiGraph) : list (cell * cell) := map fst (edges g).

(** No identifier is stored twice and every edge joins two nodes. *)
Definition well_formed (g : DiGraph) : Prop :=
  NoDup (node_ids g) /\ NoDup (edge_keys g)
  /\ forall u v, (u, v) ∈ edge_keys g -> u ∈ node_ids g /\ v ∈ node_ids g.

(** The identifiers a table row and a column row stand for. *)
Definition table_row_ids (t : gmap string cell) : cell * cell * cell :=
  let db := _get t "database_name" in
  let schema := _get t "schema_name" in
  let table := _get t "table_name" in
  (db, VStr (py_str db +:+ "." +:+ py_str schema),
   VStr (py_str db +:+ "." +:+ py_str schema +:+ "." +:+ py_str table)).

Definition table_row_complete (t : gmap string cell) : bool :=
  truthy (_get t "database_name") && truthy (_get t "schema_name")
  && truthy (_get t "table_name").

Definition table_row_nodes (t : gmap string cell) : list cell :=
  if table_row_complete t
  then [(table_row_ids t).1.1; (table_row_ids t).1.2; (table_row_ids t).2]
  else [].

Definition table_row_edges (t : gmap string cell) : list (cell * cell) :=
  if table_row_complete t
  then [((table_row_ids t).1.1, (table_row_ids t).1.2);
        ((table_row_ids t).1.2, (table_row_ids t).2)]
  else [].

Definition column_row_ids (c : gmap string cell) : cell * cell :=
  let table_id :=
    py_str (_get c "database_name") +:+ "." +:+ py_str (_get c "schema_name")
    +:+ "." +:+ py_str (_get c "table_name") in
  (VStr table_id, VStr (table_id +:+ "." +:+ py_str (_get c "column_name"))).

Definition column_row_complete (c : gmap string cell) : bool :=
  truthy (_get c "database_name") && truthy (_get c "schema_name")
  && truthy (_get c "table_name") && truthy (_get c "column_name").

Definition column_row_nodes (c : gmap string cell) : list cell :=
  if column_row_complete c then [(column_row_ids c).2; (column_row_ids c).1] else [].

Definition column_row_edges (c : gmap string cell) : list (cell * cell) :=
  if column_row_complete c then [column_row_ids c] else [].

Definition is_str (v : cell) : bool :=
  match v with VStr _ => true | _ => false end.


(** [d.get(k)] on a parsed JSON object *)
Fixpoint dict_get (d : list (string * json)) (k : string) : option json :=
  match d with
  | [] => None
  | (k', v) :: d' => if String.eqb k k' then Some v else dict_get d' k
  end.

(** Every character of the string is an ASCII character; on such a string
    [upper] and [lower] are Python's [str.upper] and [str.lower]. *)
Fixpoint is_ascii (s : string) : bool :=
  match s with
  | EmptyString => true
  | String c s' => (nat_of_ascii c <? 128)%nat && is_ascii s'
  end.


End VocabularyMore.

(** The same world at clock time [t]. *)
Definition at_time {rt : PyRuntime} {ext : Externals} (t : Z) (w : world) : world :=
  {| w_warehouse := w_warehouse w; w_issued := w_issued w; w_written := w_written w;
     w_graph_file := w_graph_file w; w_vstore := w_vstore w; w_upserts := w_upserts w;
     w_llm := w_llm w; w_cache := w_cache w; w_now := t |}.

(** What an operation on the graph adds: the identifiers of [g'] are those
    of [g] and [new_nodes], its edges those of [g] and [new_edges], and it
    stores nothing twice if [g] did not. *)
Definition grows {rt : PyRuntime} (g g' : DiGraph) (new_nodes : list cell)
    (new_edges : list (cell * cell)) : Prop :=
  (forall x, x ∈ node_ids g' <-> x ∈ node_ids g \/ x ∈ new_nodes)
  /\ (forall k, k ∈ edge_keys g' <-> k ∈ edge_keys g \/ k ∈ new_edges)
  /\ (NoDup (node_ids g) -> NoDup (node_ids g'))
  /\ (NoDup (edge_keys g) -> NoDup (edge_keys g')).


(** Every complete table row names its database by a string. *)
Definition string_databases {rt : PyRuntime} (tables : list (gmap string cell)) : bool :=
  forallb (fun t => negb (table_row_complete t) || is_str (_get t "database_name")) tables.
(** A value [quote_ident] accepts: a string, or a value that is false. *)
Definition quotable {rt : PyRuntime} (v : cell) : bool := is_str v || negb (truthy v).

(** The keys of both batteries. *)
Definition battery_keys : gset string :=
  list_to_set ["tables"; "views"; "columns"; "foreign_keys"; "indexes"; "query_history"].

(** The battery [extract_metadata] selects. *)
Definition selected_battery {rt : PyRuntime} {ext : Externals} : list (string * string) :=
  if String.eqb (database snowflake_config) EmptyString then QUERIES_ACCOUNT else QUERIES.

(** The columns on the axes of a figure. *)
Definition figure_x (fig : figure) : string :=
  match fig with
  | LineChart x _ | AreaChart x _ | BarChart x _ | ScatterChart x _ => x
  end.

Definition figure_y (fig : figure) : string :=
  match fig with
  | LineChart _ y | AreaChart _ y | BarChart _ y | ScatterChart _ y => y
  end.

(** The labels of the numeric columns of a frame. *)
Definition numeric_labels (df : data_frame) : list string :=
  map column_label (List.filter is_numeric (frame_columns df)).




(** ** Scenarios of the further properties *)

(** The scripted services with another JSON parser. *)
Definition parsing_services (loads : string -> outcome (@json demo_runtime))
    : @Externals demo_runtime :=
  {| snowflake_config := @snowflake_config demo_runtime demo_services;
     app_config := @app_config demo_runtime demo_services;
     warehouse := list (string * @executed demo_runtime);
     sf_connect := fun wh => (Return tt, wh);
     cur_execute := fun sql wh => (scripted sql wh, wh);
     sf_close := fun wh => wh;
     vstore := list string;
     get_or_create_collection := fun vs => (Return tt, vs);
     collection_upsert := fun ids metadatas documents vs => (Return tt, vs ++ documents);
     collection_query := fun question top_k vs => (Return (take (Z.to_nat top_k) vs), vs);
     llm := option string;
     chat_completions_create := fun model system_prompt user_prompt l => (Return l, l);
     json_loads := loads;
     sha256_hexdigest := fun s => s |}.

(** A parser that knows the empty list and null. *)
Definition list_or_null (s : string) : outcome (@json demo_runtime) :=
  if String.eqb s "[]" then Return (JList [])
  else if String.eqb s "null" then Return JNull
  else Raise ValueError.

(** A warm index and a model that replies with a JSON list. *)
Definition list_reply_world : @world demo_runtime (parsing_services list_or_null) :=
  @Build_world demo_runtime (parsing_services list_or_null)
    [] [] [] None ["doc one"; "doc two"; "doc three"] [] (Some "[]") ∅ 0.

(** A warm index and a model that replies with the empty JSON object. *)
Definition object_reply_world : @world demo_runtime demo_services :=
  demo_world [] None ["doc one"; "doc two"; "doc three"] (Some "{}").

(** A frame of three rows with a date column and a numeric column. *)
Definition demo_frame : data_frame :=
  {| n_rows := 3;
     frame_columns := [ {| column_label := "order_date"; is_numeric := false |};
                        {| column_label := "total"; is_numeric := true |} ] |}.


(** The scripted services during an outage of the warehouse: the session
    statements pass and every other statement fails. *)
Definition outage_services : @Externals demo_runtime :=
  {| snowflake_config := @snowflake_config demo_runtime demo_services;
     app_config := @app_config demo_runtime demo_services;
     warehouse := unit;
     sf_connect := fun wh => (Return tt, wh);
     cur_execute := fun sql wh => (if startswith "USE " sql then Fetched [] else ExecRaised, wh);
     sf_close := fun wh => wh;
     vstore := list string;
     get_or_create_collection := fun vs => (Return tt, vs);
     collection_upsert := fun ids metadatas documents vs => (Return tt, vs ++ documents);
     collection_query := fun question top_k vs => (Return (take (Z.to_nat top_k) vs), vs);
     llm := option string;
     chat_completions_create := fun model system_prompt user_prompt l => (Return l, l);
     json_loads := fun s => Raise ValueError;
     sha256_hexdigest := fun s => s |}.

Definition outage_world : @world demo_runtime outage_services :=
  @Build_world demo_runtime outage_services tt [] [] None [] [] None ∅ 0.

(** Two column rows of the scripted table. *)
Definition demo_columns : list (gmap string (@cell demo_runtime)) :=
  [demo_column "ORDER_ID" "NUMBER"; demo_column "PLACED_AT" "TIMESTAMP_NTZ"].

(** * Properties *)

(** ** The knowledge graph *)

Section GraphProperties.
Context {rt : PyRuntime}.

Lemma truthy_not_None (v : cell) : truthy v = true -> v <> VNone.
Proof. intros H ->. discriminate H. Qed.

Lemma add_node_returns (n : cell) attr (g : DiGraph) :
  n <> VNone -> exists g', add_node n attr g = Return g'.
Proof.
  intros Hn. unfold add_node.
  destruct (has_key n (nodes g)); [eauto|].
  destruct n; try congruence; eauto.
Qed.

Lemma touch_node_returns (n : cell) (g : DiGraph) :
  n <> VNone -> exists g', touch_node n g = Return g'.
Proof.
  intros Hn. unfold touch_node.
  destruct (has_key n (nodes g)); [eauto|].
  destruct n; try congruence; eauto.
Qed.

Lemma add_edge_returns (u v : cell) attr (g : DiGraph) :
  u <> VNone -> v <> VNone -> exists g', add_edge u v attr g = Return g'.
Proof.
  intros Hu Hv. unfold add_edge.
  destruct (touch_node_returns u g Hu) as [g1 ->]. simpl.
  destruct (touch_node_returns v g1 Hv) as [g2 ->]. simpl. eauto.
Qed.

Lemma add_table_row_returns (t : gmap string cell) (g : DiGraph) :
  exists g', add_table_row t g = Return g'.
Proof.
  unfold add_table_row.
  destruct (truthy (_get t "database_name")) eqn:Hdb; simpl; [|eauto].
  destruct (truthy (_get t "schema_name")); simpl; [|eauto].
  destruct (truthy (_get t "table_name")); simpl; [|eauto].
  apply truthy_not_None in Hdb.
  edestruct add_node_returns as [g1 ->]; [exact Hdb|]. simpl.
  edestruct add_node_returns as [g2 ->]; [discriminate|]. simpl.
  edestruct add_node_returns as [g3 ->]; [discriminate|]. simpl.
  edestruct add_edge_returns as [g4 ->]; [exact Hdb|discriminate|]. simpl.
  apply add_edge_returns; discriminate.
Qed.

Lemma add_column_row_returns (c : gmap string cell) (g : DiGraph) :
  exists g', add_column_row c g = Return g'.
Proof.
  unfold add_column_row.
  destruct (truthy (_get c "database_name")); simpl; [|eauto].
  destruct (truthy (_get c "schema_name")); simpl; [|eauto].
  destruct (truthy (_get c "table_name")); simpl; [|eauto].
  destruct (truthy (_get c "column_name")); simpl; [|eauto].
  edestruct add_node_returns as [g1 ->]; [discriminate|]. simpl.
  apply add_edge_returns; discriminate.
Qed.

Lemma for_rows_returns body xs (g : DiGraph) :
  (forall x g0, exists g', body x g0 = Return g') ->
  exists g', for_rows body xs g = Return g'.
Proof.
  intros Hbody. revert g.
  induction xs as [|x xs IH]; intros g; simpl; [eauto|].
  destruct (Hbody x g) as [g1 ->]. simpl. apply IH.
Qed.






(** C5. On the snapshot with the single table DB.PUBLIC.ORDERS (row_count 10)
    and its single column ORDER_ID of type NUMBER, the build returns the
    graph with exactly the four nodes DB, DB.PUBLIC, DB.PUBLIC.ORDERS and
    DB.PUBLIC.ORDERS.ORDER_ID, labelled Database, Schema, Table (row_count
    10) and Column (data_type NUMBER), and exactly the three edges
    DB -> DB.PUBLIC (CONTAINS), DB.PUBLIC -> DB.PUBLIC.ORDERS (CONTAINS) and
    DB.PUBLIC.ORDERS -> DB.PUBLIC.ORDERS.ORDER_ID (HAS_COLUMN), whatever graph
    was there before. *)
Theorem build_from_metadata_scenario (g : DiGraph) :
  build_from_metadata g scenario_tables scenario_columns = Return scenario_graph.
Proof. vm_compute. reflexivity. Qed.

End GraphProperties.

(** ** Computations *)

Section MonadLemmas.
Context {rt : PyRuntime} {ext : Externals}.

Lemma for_each_app {A B} (xs ys : list A) (acc : B) (body : A -> B -> Py B) (w : world) :
  for_each (xs ++ ys) acc body w
  = bind (for_each xs acc body) (fun acc' => for_each ys acc' body) w.
Proof.
  revert acc w. induction xs as [|x xs IH]; intros acc w; simpl.
  - reflexivity.
  - unfold bind in *. destruct (body x acc w) as [[acc'|e] w']; [|reflexivity].
    apply IH.
Qed.

Lemma for_each_returns {A B} (xs : list A) (acc : B) (body : A -> B -> Py B) (w : world) :
  (forall x acc0 w0, exists acc' w', body x acc0 w0 = (Return acc', w')) ->
  exists acc' w', for_each xs acc body w = (Return acc', w').
Proof.
  intros Hbody. revert acc w.
  induction xs as [|x xs IH]; intros acc w; simpl.
  - unfold ret. eauto.
  - unfold bind. destruct (Hbody x acc w) as (acc1 & w1 & ->). apply IH.
Qed.

(** An invariant of the loop variable and the world is kept by a loop whose
    body keeps it, also when the body raises. *)
Lemma for_each_invariant {A B} (P : A -> Prop) (I : B -> world -> Prop) (J : world -> Prop)
    (xs : list A) (body : A -> B -> Py B) :
  Forall P xs ->
  (forall x acc w, P x -> I acc w ->
     match body x acc w with
     | (Return acc', w') => I acc' w'
     | (Raise _, w') => J w'
     end) ->
  forall acc w, I acc w ->
    match for_each xs acc body w with
    | (Return acc', w') => I acc' w'
    | (Raise _, w') => J w'
    end.
Proof.
  intros HP Hbody. induction HP as [|x xs Hx HP IH]; intros acc w HI; simpl.
  - exact HI.
  - unfold bind. specialize (Hbody x acc w Hx HI).
    destruct (body x acc w) as [[acc'|e] w']; [apply IH; exact Hbody | exact Hbody].
Qed.

Lemma keeps_ret {X A} (f : world -> X) (a : A) : keeps f (ret a).
Proof. intros w. reflexivity. Qed.

Lemma keeps_lift {X A} (f : world -> X) (o : outcome A) : keeps f (lift o).
Proof. intros w. reflexivity. Qed.

Lemma keeps_bind {X A B} (f : world -> X) (m : Py A) (k : A -> Py B) :
  keeps f m -> (forall a, keeps f (k a)) -> keeps f (bind m k).
Proof.
  intros Hm Hk w. unfold bind. specialize (Hm w).
  destruct (m w) as [[a|e] w']; simpl in *; [rewrite Hk|]; exact Hm.
Qed.

Lemma keeps_try_except {X A} (f : world -> X) (m : Py A) (handler : exn -> Py A) :
  keeps f m -> (forall e, keeps f (handler e)) -> keeps f (try_except m handler).
Proof.
  intros Hm Hh w. unfold try_except. specialize (Hm w).
  destruct (m w) as [[a|e] w']; simpl in *; [|rewrite Hh]; exact Hm.
Qed.

Lemma keeps_retry {X A} (f : world -> X) (m : Py A) (attempts : nat) :
  keeps f m -> keeps f (retry attempts m).
Proof.
  intros Hm. induction attempts as [|n IH]; intros w; simpl.
  - reflexivity.
  - specialize (Hm w). destruct (m w) as [[a|e] w']; simpl in *; [|rewrite IH]; exact Hm.
Qed.

Lemma keeps_for_each {X A B} (f : world -> X) (xs : list A) (acc : B) (body : A -> B -> Py B) :
  (forall x acc0, keeps f (body x acc0)) -> keeps f (for_each xs acc body).
Proof.
  intros Hbody. revert acc. induction xs as [|x xs IH]; intros acc; simpl.
  - apply keeps_ret.
  - apply keeps_bind; [apply Hbody | intros a; apply IH].
Qed.

End MonadLemmas.

(** ** The vector index and the context selector *)

Section RagProperties.
Context {rt : PyRuntime} {ext : Externals}.

(** C1. The context selector returns the results of the vector query as they
    are when there are at least 3 of them; with fewer than 3 it returns the
    results of the graph keyword search for the question (asked for up to
    top_k matches) when that list is not empty, and the vector results it
    had when the graph search returns the empty list. *)
Theorem pick_context_policy (question : string) (w : world) :
  (forall vctx w1,
      retrieve_context_from_vector question (default_top_k app_config) w = (Return vctx, w1) ->
      (3 <= length vctx)%nat ->
      pick_context question w = (Return vctx, w1))
  /\ (forall vctx w1 gctx w2,
      retrieve_context_from_vector question (default_top_k app_config) w = (Return vctx, w1) ->
      (length vctx < 3)%nat ->
      retrieve_from_graph question (default_top_k app_config) w1 = (Return gctx, w2) ->
      gctx <> [] ->
      pick_context question w = (Return gctx, w2))
  /\ (forall vctx w1 w2,
      retrieve_context_from_vector question (default_top_k app_config) w = (Return vctx, w1) ->
      (length vctx < 3)%nat ->
      retrieve_from_graph question (default_top_k app_config) w1 = (Return [], w2) ->
      pick_context question w = (Return vctx, w2)).
Proof.
  repeat split.
  - intros vctx w1 Hv Hlen. unfold pick_context, bind. rewrite Hv.
    destruct (Z.geb_spec (Z.of_nat (length vctx)) 3); [reflexivity | lia].
  - intros vctx w1 gctx w2 Hv Hlen Hg Hne. unfold pick_context, bind. rewrite Hv.
    destruct (Z.geb_spec (Z.of_nat (length vctx)) 3); [lia|].
    rewrite Hg. destruct gctx; [congruence | reflexivity].
  - intros vctx w1 w2 Hv Hlen Hg. unfold pick_context, bind. rewrite Hv.
    destruct (Z.geb_spec (Z.of_nat (length vctx)) 3); [lia|].
    rewrite Hg. reflexivity.
Qed.

(** C6. When the cache holds nothing for the question and the response of
    the generation call does not parse as JSON, [generate_sql_and_insight]
    returns, without raising, the dictionary with the raw response as
    insight, a null sql, chart_type "table" and the context that was used;
    that result is what the cache then holds for 1800 seconds. *)
Theorem generate_sql_and_insight_degrades (question : string) (w : world)
    (context_snippets : list string) (w1 : world) (response : string) (w2 : world) (e : exn) :
  cache_get (cache_key ["qa"; question]) w = None ->
  pick_context question w = (Return context_snippets, w1) ->
  llm_complete build_system_prompt (build_user_prompt question context_snippets) w1
    = (Return response, w2) ->
  json_loads response = Raise e ->
  generate_sql_and_insight question w
  = (Return (degraded_result response context_snippets),
     set_cache (<[cache_key ["qa"; question] :=
                    (degraded_result response context_snippets, w_now w2 + 1800)]>
                  (w_cache w2)) w2).
Proof.
  intros Hmiss Hctx Hllm Hparse.
  unfold generate_sql_and_insight, cached_call. rewrite Hmiss.
  unfold bind at 1. unfold _compute, bind at 1. rewrite Hctx.
  unfold bind at 1. rewrite Hllm. rewrite Hparse. reflexivity.
Qed.

Lemma slice_step {A} (i step : nat) (l : list A) :
  slice i (i + step) l = take step (drop i l).
Proof. unfold slice. f_equal. lia. Qed.

(** The slices taken at the multiples of [step] below [m * step] are the
    consecutive pieces of the first [m * step] elements. *)
Lemma batches_concat {A} (step : nat) (l : list A) (m : nat) :
  concat (map (fun i => slice i (i + step) l) (map (fun k => (k * step)%nat) (seq 0 m)))
  = take (m * step) l.
Proof.
  induction m as [|m IH].
  - reflexivity.
  - rewrite seq_S, !map_app, concat_app, IH. simpl.
    rewrite app_nil_r, slice_step, take_take_drop. f_equal. lia.
Qed.

Lemma py_range_covers (n step : nat) :
  (0 < step)%nat -> (n <= (n + step - 1) / step * step)%nat.
Proof.
  intros Hstep.
  pose proof (Nat.div_mod_eq (n + step - 1) step) as Hdm.
  pose proof (Nat.mod_upper_bound (n + step - 1) step) as Hub.
  lia.
Qed.

Lemma batches_cover {A} (step : nat) (l : list A) :
  (0 < step)%nat ->
  concat (map (fun i => slice i (i + step) l) (py_range (length l) step)) = l.
Proof.
  intros Hstep. unfold py_range. rewrite batches_concat.
  apply take_ge, py_range_covers, Hstep.
Qed.

Lemma get_chroma_collection_upserts (w : world) r w' :
  get_chroma_collection w = (r, w') -> w_upserts w' = w_upserts w.
Proof.
  unfold get_chroma_collection.
  destruct (get_or_create_collection (w_vstore w)) as [r0 vs].
  intros [= <- <-]. reflexivity.
Qed.

Lemma upsert_loop_spec ids metadatas contents (idxs : list nat) (count : nat)
    (w : world) (n : nat) (w' : world) :
  for_each idxs count (upsert_batch ids metadatas contents 100) w = (Return n, w') ->
  n = (count + length (concat (map (fun i => slice i (i + 100) ids) idxs)))%nat
  /\ w_upserts w' = w_upserts w ++ map (fun i => slice i (i + 100) ids) idxs.
Proof.
  revert count w. induction idxs as [|i idxs IH]; intros count w; simpl.
  - intros [= <- <-]. rewrite app_nil_r. split; [lia | reflexivity].
  - unfold bind at 1. unfold upsert_batch at 1. unfold bind at 1, upsert_request at 1.
    destruct (collection_upsert _ _ _ (w_vstore w)) as [[[]|e] vs]; [|discriminate].
    unfold ret at 1. intros Hrest. apply IH in Hrest as [-> ->]. simpl.
    rewrite length_app, <- app_assoc. split; [lia | reflexivity].
Qed.

Lemma upsert_loop_returns ids metadatas contents (idxs : list nat) (count : nat) (w : world) :
  (forall ids metadatas documents vs,
      exists vs', collection_upsert ids metadatas documents vs = (Return tt, vs')) ->
  exists n w', for_each idxs count (upsert_batch ids metadatas contents 100) w = (Return n, w').
Proof.
  intros Haccept. apply for_each_returns. intros i c w0.
  unfold upsert_batch, bind, upsert_request, ret.
  destruct (Haccept (slice i (i + 100) ids) (slice i (i + 100) metadatas)
                    (slice i (i + 100) contents) (w_vstore w0)) as [vs' ->].
  eauto.
Qed.

(** C10. When [upsert_docs_to_chroma] returns, the count it returns is the
    number of documents it was given: the upsert requests it issued carry,
    in order, batches of at most 100 ids whose concatenation is the list of
    all ids.  On the empty list it returns 0 and issues no upsert request.
    With a store that accepts every request it does return. *)
Theorem upsert_docs_to_chroma_count (docs : list document) (w : world) :
  (forall n w',
      upsert_docs_to_chroma docs w = (Return n, w') ->
      n = length docs
      /\ exists batches,
           w_upserts w' = w_upserts w ++ batches
           /\ concat batches = map doc_id docs
           /\ Forall (fun b => (length b <= 100)%nat) batches)
  /\ (forall w1,
      get_chroma_collection w = (Return tt, w1) ->
      upsert_docs_to_chroma [] w = (Return 0%nat, w1) /\ w_upserts w1 = w_upserts w)
  /\ ((forall ids metadatas documents vs,
         exists vs', collection_upsert ids metadatas documents vs = (Return tt, vs')) ->
      forall w1,
        get_chroma_collection w = (Return tt, w1) ->
        exists w', upsert_docs_to_chroma docs w = (Return (length docs), w')).
Proof.
  assert (Hcount : forall n w',
      upsert_docs_to_chroma docs w = (Return n, w') ->
      n = length docs
      /\ exists batches,
           w_upserts w' = w_upserts w ++ batches
           /\ concat batches = map doc_id docs
           /\ Forall (fun b => (length b <= 100)%nat) batches).
  { intros n w'. unfold upsert_docs_to_chroma, bind at 1.
    destruct (get_chroma_collection w) as [[[]|e] w1] eqn:Hopen; [|discriminate].
    intros Hloop. apply upsert_loop_spec in Hloop as [-> Htrace].
    rewrite batches_cover in * by lia. rewrite !length_map. split; [lia|].
    eexists. rewrite Htrace, (get_chroma_collection_upserts _ _ _ Hopen).
    split; [reflexivity|]. split; [apply batches_cover; lia|].
    apply Forall_forall. intros b Hb. apply list_elem_of_In, in_map_iff in Hb as (i & <- & _).
    rewrite slice_step, length_take. lia. }
  split; [exact Hcount|]. split.
  - intros w1 Hopen. unfold upsert_docs_to_chroma, bind. rewrite Hopen. simpl.
    split; [reflexivity | eapply get_chroma_collection_upserts; exact Hopen].
  - intros Haccept w1 Hopen.
    destruct (upsert_loop_returns (map doc_id docs)
                (map (fun d => default ∅ (doc_metadata d)) docs) (map doc_text docs)
                (py_range (length (map doc_id docs)) 100) 0%nat w1 Haccept) as (n & w' & Hloop).
    assert (Hrun : upsert_docs_to_chroma docs w = (Return n, w')).
    { unfold upsert_docs_to_chroma, bind at 1. rewrite Hopen. exact Hloop. }
    destruct (Hcount n w' Hrun) as [<- _]. eauto.
Qed.

End RagProperties.

(** ** The cache key *)

Section CacheProperties.
Context {rt : PyRuntime} {ext : Externals}.

Lemma pipe_free_no_split (p q r : string) :
  pipe_free p = true -> p <> q +:+ "|" +:+ r.
Proof.
  revert p. induction q as [|c q IH]; intros p Hp Heq; subst p; simpl in Hp.
  - discriminate Hp.
  - apply andb_true_iff in Hp as [_ Hp]. exact (IH _ Hp eq_refl).
Qed.

Lemma pipe_free_split_unique (p1 p2 r1 r2 : string) :
  pipe_free p1 = true -> pipe_free p2 = true ->
  p1 +:+ "|" +:+ r1 = p2 +:+ "|" +:+ r2 -> p1 = p2 /\ r1 = r2.
Proof.
  revert p2. induction p1 as [|c1 p1 IH]; intros [|c2 p2] H1 H2 Heq; cbn in *.
  - injection Heq as Heq. split; [reflexivity | exact Heq].
  - injection Heq as <- _. discriminate H2.
  - injection Heq as -> _. discriminate H1.
  - injection Heq as -> Heq.
    apply andb_true_iff in H1 as [_ H1]. apply andb_true_iff in H2 as [_ H2].
    destruct (IH p2 H1 H2 Heq) as [-> ->]. split; reflexivity.
Qed.

(** Joining with the separator loses nothing on non-empty tuples whose
    components do not contain it. *)
Lemma join_pipe_inj (k1 k2 : list string) :
  k1 <> [] -> k2 <> [] ->
  Forall (fun s => pipe_free s = true) k1 ->
  Forall (fun s => pipe_free s = true) k2 ->
  join "|" k1 = join "|" k2 -> k1 = k2.
Proof.
  revert k2. induction k1 as [|p1 k1 IH]; intros k2 Hne1 Hne2 Hf1 Hf2 Heq;
    [congruence|].
  destruct k2 as [|p2 k2]; [congruence|].
  apply Forall_cons in Hf1 as [Hp1 Hf1]. apply Forall_cons in Hf2 as [Hp2 Hf2].
  destruct k1 as [|q1 k1], k2 as [|q2 k2].
  - simpl in Heq. congruence.
  - exfalso. exact (pipe_free_no_split _ _ _ Hp1 Heq).
  - exfalso. symmetry in Heq. exact (pipe_free_no_split _ _ _ Hp2 Heq).
  - change (p1 +:+ "|" +:+ join "|" (q1 :: k1) = p2 +:+ "|" +:+ join "|" (q2 :: k2)) in Heq.
    apply pipe_free_split_unique in Heq as [-> Heq]; [|assumption..].
    f_equal. apply IH; [discriminate | discriminate | assumption..].
Qed.

(** C2, as the code has it. Equal key tuples give the same cache key.  With
    a collision-free digest, two different tuples give different cache keys
    when both are non-empty and no component contains the separator "|"
    that joins them; and the keys [("qa", question)] that
    [generate_sql_and_insight] uses differ for different questions. *)
Theorem cache_key_separates (k1 k2 : list string) :
  (k1 = k2 -> cache_key k1 = cache_key k2)
  /\ ((forall a b, sha256_hexdigest a = sha256_hexdigest b -> a = b) ->
      k1 <> [] -> k2 <> [] ->
      Forall (fun s => pipe_free s = true) k1 ->
      Forall (fun s => pipe_free s = true) k2 ->
      k1 <> k2 -> cache_key k1 <> cache_key k2)
  /\ ((forall a b, sha256_hexdigest a = sha256_hexdigest b -> a = b) ->
      forall q1 q2, q1 <> q2 -> cache_key ["qa"; q1] <> cache_key ["qa"; q2]).
Proof.
  repeat split.
  - intros ->. reflexivity.
  - intros Hinj Hne1 Hne2 Hf1 Hf2 Hdiff Hkey. apply Hdiff.
    apply join_pipe_inj; try assumption. apply Hinj. exact Hkey.
  - intros Hinj q1 q2 Hdiff Hkey. apply Hdiff.
    apply Hinj in Hkey. cbn in Hkey. injection Hkey as Hkey. exact Hkey.
Qed.

End CacheProperties.

(** ** The metadata extraction *)

Section ExtractorProperties.
Context {rt : PyRuntime} {ext : Externals}.

(** *** Which parts of the world each step touches *)

Lemma run_query_attempt_issued sql : keeps w_issued (run_query_attempt sql).
Proof.
  intros w. unfold run_query_attempt.
  destruct (cur_execute sql (w_warehouse w)) as [[| |frame] wh]; reflexivity.
Qed.

Lemma run_query_attempt_written sql : keeps w_written (run_query_attempt sql).
Proof.
  intros w. unfold run_query_attempt.
  destruct (cur_execute sql (w_warehouse w)) as [[| |frame] wh]; reflexivity.
Qed.

Lemma run_query_issued sql (w : world) :
  w_issued (snd (run_query sql w)) = w_issued w ++ [sql].
Proof.
  unfold run_query. rewrite (keeps_retry w_issued _ 3 (run_query_attempt_issued sql)).
  reflexivity.
Qed.

Lemma run_query_written sql : keeps w_written (run_query sql).
Proof.
  intros w. unfold run_query.
  rewrite (keeps_retry w_written _ 3 (run_query_attempt_written sql)). reflexivity.
Qed.

Lemma run_query_or_empty_written sql : keeps w_written (run_query_or_empty sql).
Proof.
  apply keeps_try_except; [apply run_query_written | intros e; apply keeps_ret].
Qed.

Lemma run_query_or_empty_issued sql (w : world) :
  w_issued (snd (run_query_or_empty sql w)) = w_issued w ++ [sql].
Proof.
  unfold run_query_or_empty, try_except.
  pose proof (run_query_issued sql w) as H.
  destruct (run_query sql w) as [[df|e] w']; exact H.
Qed.

Lemma run_query_or_empty_returns sql (w : world) :
  exists df w', run_query_or_empty sql w = (Return df, w').
Proof.
  unfold run_query_or_empty, try_except.
  destruct (run_query sql w) as [[df|e] w']; unfold ret; eauto.
Qed.

Lemma run_query_or_empty_failed sql (w : world) e w' :
  run_query sql w = (Raise e, w') -> run_query_or_empty sql w = (Return [], w').
Proof. intros H. unfold run_query_or_empty, try_except. rewrite H. reflexivity. Qed.

Lemma execute_only_written sql : keeps w_written (execute_only sql).
Proof.
  intros w. unfold execute_only.
  destruct (cur_execute sql (w_warehouse w)) as [[| |frame] wh]; reflexivity.
Qed.

Lemma apply_context_written : keeps w_written apply_context.
Proof.
  unfold apply_context.
  repeat (apply keeps_bind; [|intros _]);
    repeat match goal with
           | |- keeps _ (if ?b then _ else _) => destruct b
           | |- keeps _ (match ?o with Some _ => _ | None => _ end) => destruct o
           end;
    first [apply keeps_ret | apply execute_only_written].
Qed.

Lemma get_sf_connection_written : keeps w_written get_sf_connection.
Proof.
  intros w. unfold get_sf_connection.
  destruct (sf_connect (w_warehouse w)) as [r wh]. reflexivity.
Qed.

Lemma run_battery_written queries results : keeps w_written (run_battery queries results).
Proof.
  apply keeps_for_each. intros q acc.
  apply keeps_bind; [apply run_query_or_empty_written | intros df; apply keeps_ret].
Qed.

Lemma build_graph_written results : keeps w_written (build_graph results).
Proof.
  apply keeps_try_except; [|intros e; apply keeps_ret].
  apply keeps_bind; [intros w; reflexivity | intros g].
  apply keeps_bind; [apply keeps_lift | intros g' w; reflexivity].
Qed.

Lemma build_graph_returns results (w : world) :
  exists w', build_graph results w = (Return tt, w').
Proof.
  unfold build_graph, try_except.
  match goal with |- context [match ?m w with _ => _ end] => destruct (m w) as [[[]|e] w'] end;
    unfold ret; eauto.
Qed.

(** *** The battery *)

Lemma run_battery_returns queries results (w : world) :
  exists results' w', run_battery queries results w = (Return results', w').
Proof.
  apply for_each_returns. intros q acc w0. unfold bind.
  destruct (run_query_or_empty_returns (snd q) w0) as (df & w' & ->).
  unfold ret. eauto.
Qed.

(** The loop only writes the keys of the queries it runs. *)
Lemma run_battery_other_key queries results (w : world) results' w' key :
  run_battery queries results w = (Return results', w') ->
  key ∉ map fst queries ->
  results' !! key = results !! key.
Proof.
  revert results w. induction queries as [|[k sql] queries IH]; intros results w; simpl.
  - intros [= <- <-] _. reflexivity.
  - unfold run_battery. simpl. unfold bind at 1 2. simpl.
    destruct (run_query_or_empty_returns sql w) as (df & w1 & ->).
    unfold ret at 1. intros Hrest Hnotin.
    apply not_elem_of_cons in Hnotin as [Hne Hnotin].
    rewrite (IH _ _ Hrest Hnotin). apply lookup_insert_ne. congruence.
Qed.

Lemma derive_stats_returns results (w : world) :
  exists results' w', derive_stats results w = (Return results', w').
Proof.
  unfold derive_stats, try_except.
  match goal with |- context [match ?m w with _ => _ end] => destruct (m w) as [[r|e] w'] end;
    unfold ret; eauto.
Qed.

Lemma run_battery_issued queries results (w : world) :
  w_issued (snd (run_battery queries results w)) = w_issued w ++ map snd queries.
Proof.
  revert results w. induction queries as [|[k sql] queries IH]; intros results w; simpl.
  - rewrite app_nil_r. reflexivity.
  - unfold run_battery. simpl. unfold bind at 1 2. simpl.
    pose proof (run_query_or_empty_issued sql w) as Hq.
    destruct (run_query_or_empty_returns sql w) as (df & w1 & Heq).
    rewrite Heq in *. simpl in Hq. unfold ret at 1.
    fold (run_battery queries (<[k := _json_safe_records df]> results) w1).
    rewrite IH, Hq, <- app_assoc. reflexivity.
Qed.

Lemma execute_only_issued sql : keeps w_issued (execute_only sql).
Proof.
  intros w. unfold execute_only.
  destruct (cur_execute sql (w_warehouse w)) as [[| |frame] wh]; reflexivity.
Qed.

Lemma apply_context_issued : keeps w_issued apply_context.
Proof.
  unfold apply_context.
  repeat (apply keeps_bind; [|intros _]);
    repeat match goal with
           | |- keeps _ (if ?b then _ else _) => destruct b
           | |- keeps _ (match ?o with Some _ => _ | None => _ end) => destruct o
           end;
    first [apply keeps_ret | apply execute_only_issued].
Qed.

Lemma get_sf_connection_issued : keeps w_issued get_sf_connection.
Proof.
  intros w. unfold get_sf_connection.
  destruct (sf_connect (w_warehouse w)) as [r wh]. reflexivity.
Qed.

Lemma build_graph_issued results : keeps w_issued (build_graph results).
Proof.
  apply keeps_try_except; [|intros e; apply keeps_ret].
  apply keeps_bind; [intros w; reflexivity | intros g].
  apply keeps_bind; [apply keeps_lift | intros g' w; reflexivity].
Qed.

(** The statistics phase only adds to the statements issued. *)
Lemma derive_stats_issued results (w : world) :
  exists sqls, w_issued (snd (derive_stats results w)) = w_issued w ++ sqls.
Proof.
  unfold derive_stats, try_except, bind.
  pose proof (for_each_invariant (fun _ => True)
                (fun (_ : list (gmap string cell)) w' =>
                   exists sqls, w_issued w' = w_issued w ++ sqls)
                (fun w' => exists sqls, w_issued w' = w_issued w ++ sqls)
                (group_columns (default [] (results !! "columns"))) sample_table) as Hinv.
  match type of Hinv with ?A -> ?B -> _ =>
    assert (HA : A) by (apply Forall_forall; intros; exact I);
    assert (HB : B) end.
  { intros group acc w0 _ (sqls & Hw0). unfold sample_table.
    apply (for_each_invariant (fun _ => True)
             (fun (_ : list (gmap string cell)) w' =>
                exists sqls, w_issued w' = w_issued w ++ sqls)
             (fun w' => exists sqls, w_issued w' = w_issued w ++ sqls));
      [apply Forall_forall; intros; exact I | | eauto].
    intros c acc0 w2 _ (sqls2 & Hw2). unfold sample_column.
    destruct (negb _ || negb _); [simpl; eauto|].
    unfold bind at 1, lift.
    destruct (min_max_distinct_for_column _ _ _ _ _) as [sql|e]; [|eauto].
    unfold bind.
    pose proof (run_query_or_empty_issued sql w2) as Hq.
    destruct (run_query_or_empty_returns sql w2) as (df & w3 & Heq).
    rewrite Heq in *. simpl in *. exists (sqls2 ++ [sql]).
    rewrite Hq, Hw2, <- app_assoc. reflexivity. }
  specialize (Hinv HA HB [] w (ex_intro _ [] (eq_sym (app_nil_r _)))).
  destruct (for_each _ [] sample_table w) as [[stats|e] w1]; simpl; exact Hinv.
Qed.

Lemma derive_stats_other_key results (w : world) results' w' key :
  derive_stats results w = (Return results', w') ->
  key <> "column_stats" ->
  results' !! key = results !! key.
Proof.
  unfold derive_stats, try_except, bind.
  destruct (for_each _ [] sample_table w) as [[stats|e] w1]; intros [= <- <-] Hkey.
  - apply lookup_insert_ne. congruence.
  - reflexivity.
Qed.

Lemma selected_battery_keys :
  NoDup (map fst selected_battery)
  /\ forall key, key ∈ map fst selected_battery -> key <> "column_stats".
Proof.
  assert (Hq : NoDup (map fst QUERIES)
               /\ forallb (fun k => negb (String.eqb k "column_stats")) (map fst QUERIES) = true).
  { split; [apply (bool_decide_unpack _); vm_compute; reflexivity | vm_compute; reflexivity]. }
  assert (Ha : NoDup (map fst QUERIES_ACCOUNT)
               /\ forallb (fun k => negb (String.eqb k "column_stats"))
                    (map fst QUERIES_ACCOUNT) = true).
  { split; [apply (bool_decide_unpack _); vm_compute; reflexivity | vm_compute; reflexivity]. }
  unfold selected_battery.
  destruct (String.eqb (database snowflake_config) EmptyString);
    [destruct Ha as [Hnd Hall] | destruct Hq as [Hnd Hall]];
    (split; [exact Hnd|]; intros key Hin -> ;
     rewrite forallb_forall in Hall;
     apply list_elem_of_In, Hall in Hin; discriminate Hin).
Qed.

(** The battery loop at one of its queries: the key holds the records of
    its own query, run after the queries before it. *)
Lemma run_battery_key pre key sql post results (w : world) res_pre w_pre results' w' :
  run_battery pre results w = (Return res_pre, w_pre) ->
  run_battery (pre ++ (key, sql) :: post) results w = (Return results', w') ->
  key ∉ map fst post ->
  results' !! key = Some (_json_safe_records (match fst (run_query sql w_pre) with
                                              | Return df => df
                                              | Raise _ => []
                                              end)).
Proof.
  intros Hpre Hrun Hnotin. revert Hrun.
  unfold run_battery in *. rewrite for_each_app. unfold bind at 1. rewrite Hpre.
  simpl. unfold bind at 1 2. unfold run_query_or_empty, try_except.
  destruct (run_query sql w_pre) as [[df|e] w2]; simpl; unfold ret at 1; intros Hrest.
  - fold (run_battery post (<[key := _json_safe_records df]> res_pre) w2) in Hrest.
    rewrite (run_battery_other_key _ _ _ _ _ key Hrest Hnotin). apply lookup_insert_eq.
  - fold (run_battery post (<[key := _json_safe_records []]> res_pre) w2) in Hrest.
    rewrite (run_battery_other_key _ _ _ _ _ key Hrest Hnotin). apply lookup_insert_eq.
Qed.

(** The course of an extraction that got its connection and its session
    context: the battery, the statistics phase on the snapshot of the
    battery, the graph phase; it returns the snapshot of the statistics
    phase. *)
Lemma extract_metadata_course (w w0 w1 : world) :
  get_sf_connection w = (Return tt, w0) ->
  apply_context w0 = (Return tt, w1) ->
  exists res1 w2 results w3 w4,
    run_battery selected_battery initial_results w1 = (Return res1, w2)
    /\ derive_stats res1 (set_written (w_written w2 ++ [res1]) w2) = (Return results, w3)
    /\ build_graph results (set_written (w_written w3 ++ [results]) w3) = (Return tt, w4)
    /\ extract_metadata w = (Return results, conn_close w4).
Proof.
  intros Hconn Hctx.
  destruct (run_battery_returns selected_battery initial_results w1) as (res1 & w2 & H1).
  destruct (derive_stats_returns res1 (set_written (w_written w2 ++ [res1]) w2))
    as (res2 & w3 & H2).
  destruct (build_graph_returns res2 (set_written (w_written w3 ++ [res2]) w3)) as (w4 & H3).
  exists res1, w2, res2, w3, w4. repeat split; try assumption.
  unfold extract_metadata, bind at 1. rewrite Hconn.
  unfold try_finally, bind at 1. rewrite Hctx.
  fold selected_battery. unfold bind at 1. rewrite H1.
  unfold bind at 1, write_snapshot at 1. unfold bind at 1. rewrite H2.
  unfold bind at 1, write_snapshot at 1. unfold bind at 1. rewrite H3.
  reflexivity.
Qed.

(** C7. The loop over the battery never raises.  When the query of a key
    fails on all its attempts, the loop stores the empty list under that key
    and goes on with the remaining queries from there; the key still holds
    the empty list at the end if no later query has the same key, which is
    so in both batteries, whose keys are distinct.  Once the connection is
    obtained and the session context applied, the extraction itself returns
    a snapshot whatever the sub-queries do: every statement of the selected
    battery has been handed to [run_query], in order, and under the key of
    each sub-query the snapshot holds the empty list if that sub-query
    failed, where the queries before it left the warehouse, and its own
    records otherwise, whatever the other sub-queries did. *)
Theorem sub_query_failure_is_isolated :
  (forall queries results (w : world),
      exists results' w', run_battery queries results w = (Return results', w'))
  /\ (forall pre key sql post results (w : world) results1 w1 e w2,
      run_battery pre results w = (Return results1, w1) ->
      run_query sql w1 = (Raise e, w2) ->
      run_battery (pre ++ (key, sql) :: post) results w
      = run_battery post (<[key := []]> results1) w2
      /\ (key ∉ map fst post ->
          forall results' w',
            run_battery (pre ++ (key, sql) :: post) results w = (Return results', w') ->
            results' !! key = Some []))
  /\ (forall (w w0 w1 : world),
      get_sf_connection w = (Return tt, w0) ->
      apply_context w0 = (Return tt, w1) ->
      exists results w',
        extract_metadata w = (Return results, w')
        /\ (exists stat_sqls,
              w_issued w' = w_issued w ++ map snd selected_battery ++ stat_sqls)
        /\ forall pre key sql post,
             selected_battery = pre ++ (key, sql) :: post ->
             exists res_pre w_pre,
               run_battery pre initial_results w1 = (Return res_pre, w_pre)
               /\ (forall e w2, run_query sql w_pre = (Raise e, w2) ->
                                results !! key = Some [])
               /\ (forall df w2, run_query sql w_pre = (Return df, w2) ->
                                 results !! key = Some (_json_safe_records df)))
  /\ NoDup (map fst QUERIES) /\ NoDup (map fst QUERIES_ACCOUNT).
Proof.
  split; [exact run_battery_returns|]. split; [|split; [|split]].
  4: apply (bool_decide_unpack _); vm_compute; reflexivity.
  3: apply (bool_decide_unpack _); vm_compute; reflexivity.
  - intros pre key sql post results w results1 w1 e w2 Hpre Hfail.
    assert (Hstep : run_battery (pre ++ (key, sql) :: post) results w
                    = run_battery post (<[key := []]> results1) w2).
    { unfold run_battery in *. rewrite for_each_app. unfold bind at 1. rewrite Hpre.
      simpl. unfold bind at 1 2. simpl.
      rewrite (run_query_or_empty_failed _ _ _ _ Hfail). reflexivity. }
    split; [exact Hstep|].
    intros Hnotin results' w' Hrun. rewrite Hstep in Hrun.
    rewrite (run_battery_other_key _ _ _ _ _ key Hrun Hnotin).
    apply lookup_insert_eq.
  - intros w w0 w1 Hconn Hctx.
    destruct (extract_metadata_course w w0 w1 Hconn Hctx)
      as (res1 & w2 & results & w3 & w4 & H1 & H2 & H3 & Hrun).
    exists results, (conn_close w4). split; [exact Hrun|]. split.
    + pose proof (get_sf_connection_issued w) as Ia. rewrite Hconn in Ia. simpl in Ia.
      pose proof (apply_context_issued w0) as Ib. rewrite Hctx in Ib. simpl in Ib.
      pose proof (run_battery_issued selected_battery initial_results w1) as I1.
      rewrite H1 in I1. simpl in I1.
      destruct (derive_stats_issued res1 (set_written (w_written w2 ++ [res1]) w2))
        as (sqls & I2).
      rewrite H2 in I2. simpl in I2.
      pose proof (build_graph_issued results (set_written (w_written w3 ++ [results]) w3))
        as I3.
      rewrite H3 in I3. simpl in I3.
      exists sqls. simpl. rewrite I3, I2, I1, Ib, Ia, <- app_assoc. reflexivity.
    + intros pre key sql post Hsplit.
      destruct (run_battery_returns pre initial_results w1) as (res_pre & w_pre & Hpre).
      exists res_pre, w_pre. split; [exact Hpre|].
      destruct selected_battery_keys as [Hnd Hstats].
      assert (Hnotin : key ∉ map fst post).
      { rewrite Hsplit, map_app in Hnd. apply NoDup_app in Hnd as (_ & _ & Hnd).
        simpl in Hnd. apply NoDup_cons in Hnd as [Hnd _]. exact Hnd. }
      assert (Hkey : key <> "column_stats").
      { apply Hstats. rewrite Hsplit, map_app. apply elem_of_app. right. simpl.
        apply list_elem_of_here. }
      rewrite Hsplit in H1.
      pose proof (run_battery_key _ _ _ _ _ _ _ _ _ _ Hpre H1 Hnotin) as Hval.
      rewrite (derive_stats_other_key _ _ _ _ key H2 Hkey), Hval.
      split.
      * intros e w5 ->. reflexivity.
      * intros df w5 ->. reflexivity.
Qed.

(** *** JSON safety of what is written *)

Lemma json_safe_cell_json_safe (v : cell) : json_safe_cell (_json_safe v) = true.
Proof. destruct v; reflexivity. Qed.

Lemma json_safe_row_safe (r : gmap string cell) : safe_row (json_safe_row r).
Proof.
  unfold safe_row, json_safe_row. apply map_Forall_fmap.
  intros k v _. apply json_safe_cell_json_safe.
Qed.

Lemma json_safe_records_safe (rows : list (gmap string cell)) :
  Forall safe_row (_json_safe_records rows).
Proof.
  unfold _json_safe_records. induction rows as [|r rows IH]; simpl; constructor;
    [apply json_safe_row_safe | exact IH].
Qed.

Lemma initial_results_safe : safe_snapshot initial_results.
Proof.
  unfold initial_results, safe_snapshot.
  repeat (apply map_Forall_insert_2; [constructor|]).
  apply map_Forall_empty.
Qed.

Lemma run_battery_safe queries results (w : world) results' w' :
  run_battery queries results w = (Return results', w') ->
  safe_snapshot results -> safe_snapshot results'.
Proof.
  revert results w. induction queries as [|[k sql] queries IH]; intros results w; simpl.
  - intros [= <- <-] Hsafe. exact Hsafe.
  - unfold run_battery. simpl. unfold bind at 1 2. simpl.
    destruct (run_query_or_empty_returns sql w) as (df & w1 & ->).
    unfold ret at 1. intros Hrest Hsafe. apply (IH _ _ Hrest).
    apply map_Forall_insert_2; [apply json_safe_records_safe | exact Hsafe].
Qed.

Lemma row_get_safe (c : gmap string cell) k :
  safe_row c -> json_safe_cell (row_get c k) = true.
Proof.
  intros Hc. unfold row_get. destruct (c !! k) as [v|] eqn:Hk; simpl; [|reflexivity].
  exact (map_Forall_lookup_1 _ _ _ _ Hc Hk).
Qed.

Lemma get_or_safe (c : gmap string cell) k K :
  safe_row c -> json_safe_cell (get_or c k K) = true.
Proof.
  intros Hc. unfold get_or, py_or.
  destruct (truthy (row_get c k)); apply row_get_safe, Hc.
Qed.

Lemma setdefault_append_safe tkey (c : gmap string cell) per_table :
  safe_group (tkey, [c]) -> Forall safe_group per_table ->
  Forall safe_group (setdefault_append tkey c per_table).
Proof.
  intros Hnew Hpt. induction Hpt as [|[k cols] rest Hg Hrest IH]; simpl.
  - constructor; [exact Hnew | constructor].
  - destruct (decide (tkey = k)) as [->|_]; constructor; try assumption.
    destruct Hg as (H1 & H2 & H3 & H4), Hnew as (_ & _ & _ & Hc).
    repeat split; try assumption. simpl in *. apply Forall_app. split; assumption.
Qed.

Lemma group_column_safe per_table (c : gmap string cell) :
  safe_row c -> Forall safe_group per_table -> Forall safe_group (group_column per_table c).
Proof.
  intros Hc Hacc. unfold group_column.
  destruct (truthy (get_or c "table_name" "TABLE_NAME")); simpl; [|exact Hacc].
  apply setdefault_append_safe; [|exact Hacc].
  repeat split; simpl; try (apply get_or_safe; exact Hc).
  constructor; [exact Hc | constructor].
Qed.

Lemma group_columns_safe (columns : list (gmap string cell)) :
  Forall safe_row columns -> Forall safe_group (group_columns columns).
Proof.
  unfold group_columns. intros Hcols.
  assert (Hacc : Forall safe_group []) by constructor.
  revert Hacc. generalize (@nil (cell * cell * cell * list (gmap string cell))).
  induction Hcols as [|c cs Hc Hcs IH]; intros acc Hacc; simpl; [exact Hacc|].
  apply IH. apply group_column_safe; assumption.
Qed.

Lemma stat_row_safe tkey (col dtype : cell) df :
  json_safe_cell tkey.1.1 = true -> json_safe_cell tkey.1.2 = true ->
  json_safe_cell tkey.2 = true -> json_safe_cell col = true -> json_safe_cell dtype = true ->
  safe_row (stat_row tkey col dtype df).
Proof.
  intros H1 H2 H3 H4 H5. unfold stat_row. apply map_Forall_union_2.
  - apply json_safe_row_safe.
  - repeat (apply map_Forall_insert_2; [assumption|]).
    apply map_Forall_empty.
Qed.

Lemma sample_column_safe tkey (c : gmap string cell) stats (w : world) :
  json_safe_cell tkey.1.1 = true -> json_safe_cell tkey.1.2 = true ->
  json_safe_cell tkey.2 = true -> safe_row c -> Forall safe_row stats ->
  match sample_column tkey c stats w with
  | (Return stats', _) => Forall safe_row stats'
  | (Raise _, _) => True
  end.
Proof.
  intros H1 H2 H3 Hc Hstats. unfold sample_column.
  destruct (negb _ || negb _); [exact Hstats|].
  unfold bind at 1, lift.
  destruct (min_max_distinct_for_column _ _ _ _ _) as [sql|e]; [|exact I].
  unfold bind.
  destruct (run_query_or_empty_returns sql w) as (df & w1 & ->). simpl.
  apply Forall_app. split; [exact Hstats|]. constructor; [|constructor].
  apply stat_row_safe; try assumption; apply get_or_safe; exact Hc.
Qed.

Lemma sample_table_safe group stats (w : world) :
  safe_group group -> Forall safe_row stats ->
  match sample_table group stats w with
  | (Return stats', _) => Forall safe_row stats'
  | (Raise _, _) => True
  end.
Proof.
  intros (H1 & H2 & H3 & Hcols) Hstats. unfold sample_table.
  apply (for_each_invariant safe_row (fun acc _ => Forall safe_row acc) (fun _ => True));
    [apply Forall_take; exact Hcols | | exact Hstats].
  intros c acc w0 Hc Hacc. apply sample_column_safe; assumption.
Qed.

Lemma derive_stats_safe results (w : world) results' w' :
  derive_stats results w = (Return results', w') ->
  safe_snapshot results -> safe_snapshot results'.
Proof.
  unfold derive_stats, try_except, bind. intros Hrun Hsafe.
  assert (Hcols : Forall safe_row (default [] (results !! "columns"))).
  { destruct (results !! "columns") as [cols|] eqn:Hk; simpl; [|constructor].
    exact (map_Forall_lookup_1 _ _ _ _ Hsafe Hk). }
  pose proof (for_each_invariant safe_group (fun acc _ => Forall safe_row acc)
                (fun _ => True) _ sample_table (group_columns_safe _ Hcols)
                (fun g acc w0 Hg Hacc => sample_table_safe g acc w0 Hg Hacc)
                [] w (List.Forall_nil _)) as Hstats.
  destruct (for_each (group_columns _) [] sample_table w) as [[stats|e] w1].
  - injection Hrun as <- <-. apply map_Forall_insert_2; assumption.
  - injection Hrun as <- <-. exact Hsafe.
Qed.

Lemma derive_stats_written results : keeps w_written (derive_stats results).
Proof.
  apply keeps_try_except; [|intros e; apply keeps_ret].
  apply keeps_bind; [|intros stats; apply keeps_ret].
  apply keeps_for_each. intros group acc. apply keeps_for_each. intros c acc0.
  unfold sample_column. destruct (negb _ || negb _); [apply keeps_ret|].
  apply keeps_bind; [apply keeps_lift | intros sql].
  apply keeps_bind; [apply run_query_or_empty_written | intros df; apply keeps_ret].
Qed.

(** What the extraction writes once the session context is applied. *)
Lemma snapshots_written queries (w : world) :
  exists results1 results2 w',
    (do results <- run_battery queries initial_results;
     do _ <- write_snapshot results;
     do results <- derive_stats results;
     do _ <- write_snapshot results;
     do _ <- build_graph results;
     ret results) w = (Return results2, w')
    /\ w_written w' = w_written w ++ [results1; results2]
    /\ safe_snapshot results1 /\ safe_snapshot results2.
Proof.
  destruct (run_battery_returns queries initial_results w) as (res1 & w1 & H1).
  destruct (derive_stats_returns res1 (set_written (w_written w1 ++ [res1]) w1))
    as (res2 & w2 & H2).
  destruct (build_graph_returns res2 (set_written (w_written w2 ++ [res2]) w2))
    as (w3 & H3).
  exists res1, res2, w3.
  pose proof (run_battery_safe _ _ _ _ _ H1 initial_results_safe) as Hs1.
  pose proof (derive_stats_safe _ _ _ _ H2 Hs1) as Hs2.
  pose proof (run_battery_written queries initial_results w) as Hw1.
  pose proof (derive_stats_written res1 (set_written (w_written w1 ++ [res1]) w1)) as Hw2.
  pose proof (build_graph_written res2 (set_written (w_written w2 ++ [res2]) w2)) as Hw3.
  rewrite H1 in Hw1. rewrite H2 in Hw2. rewrite H3 in Hw3. simpl in Hw1, Hw2, Hw3.
  repeat split; try assumption.
  - unfold bind at 1. rewrite H1. unfold bind at 1, write_snapshot at 1.
    unfold bind at 1. rewrite H2. unfold bind at 1, write_snapshot at 1.
    unfold bind at 1. rewrite H3. reflexivity.
  - rewrite Hw3, Hw2, Hw1, <- app_assoc. reflexivity.
Qed.

(** C8. [_json_safe] turns a decimal into the float [float(d)] and a
    date or timestamp into the string [t.isoformat()], and what it returns
    can always be written as JSON; [_json_safe_records] applies it to the
    value of every field of every row, and the rows the battery stores under
    a key are the rows of the warehouse so converted.  Every snapshot the
    extraction writes to disk holds JSON-safe values only; an extraction that
    returns has written two snapshots, the second being the one returned. *)
Theorem snapshot_writes_are_json_safe :
  (forall v : cell, json_safe_cell (_json_safe v) = true)
  /\ (forall d, _json_safe (VDecimal d) = VFloat (float_of_decimal d))
  /\ (forall t, _json_safe (VTemporal t) = VStr (isoformat t))
  /\ (forall (frame : list (gmap string cell)) i r k,
        frame !! i = Some r ->
        exists r', _json_safe_records frame !! i = Some r'
                   /\ r' !! k = _json_safe <$> (r !! k))
  /\ (forall key sql results (w : world) df w',
        run_query_or_empty sql w = (Return df, w') ->
        run_battery [(key, sql)] results w
        = (Return (<[key := _json_safe_records df]> results), w'))
  /\ (forall w : world,
        exists new,
          w_written (snd (extract_metadata w)) = w_written w ++ new
          /\ Forall safe_snapshot new
          /\ (forall results,
                fst (extract_metadata w) = Return results ->
                exists early, new = [early; results])).
Proof.
  split; [exact json_safe_cell_json_safe|].
  split; [reflexivity|]. split; [reflexivity|]. split; [|split].
  - intros frame i r k Hi. exists (json_safe_row r). split.
    + unfold _json_safe_records.
      change (map json_safe_row frame) with (json_safe_row <$> frame).
      rewrite list_lookup_fmap, Hi. reflexivity.
    + unfold json_safe_row. apply lookup_fmap.
  - intros key sql results w df w' Hrun.
    unfold run_battery. simpl. unfold bind. simpl. rewrite Hrun. reflexivity.
  - intros w. destruct (extract_metadata w) as [r wf] eqn:Hrun. simpl.
    revert Hrun. unfold extract_metadata, bind at 1.
    pose proof (get_sf_connection_written w) as Hw0.
    destruct (get_sf_connection w) as [[[]|e] w0]; simpl in Hw0.
    2:{ intros [= <- <-]. exists []. rewrite app_nil_r.
        repeat split; [exact Hw0 | constructor | intros results [=]]. }
    unfold try_finally, bind at 1.
    pose proof (apply_context_written w0) as Hw1.
    destruct (apply_context w0) as [[[]|e] w1]; simpl in Hw1.
    2:{ intros [= <- <-]. exists []. simpl. rewrite app_nil_r.
        repeat split; [congruence | constructor | intros results [=]]. }
    match goal with |- context [run_battery ?q initial_results] =>
      destruct (snapshots_written q w1) as (res1 & res2 & w' & -> & Hw & Hs1 & Hs2) end.
    intros [= <- <-]. exists [res1; res2]. simpl. repeat split.
    + rewrite Hw. congruence.
    + repeat constructor; assumption.
    + intros results [= <-]. eauto.
Qed.

(** *** The statistics phase *)

Lemma group_of_setdefault_append k' k (c : gmap string cell) per_table :
  group_of k' (setdefault_append k c per_table)
  = if decide (k' = k) then Some (default [] (group_of k per_table) ++ [c])
    else group_of k' per_table.
Proof.
  induction per_table as [|[k0 cols] rest IH]; simpl.
  - destruct (decide (k' = k)); reflexivity.
  - destruct (decide (k = k0)) as [->|Hne]; simpl.
    + destruct (decide (k' = k0)); reflexivity.
    + destruct (decide (k' = k0)) as [->|Hne'].
      * destruct (decide (k0 = k)); [congruence | reflexivity].
      * exact IH.
Qed.

Lemma group_of_None k (per_table : list (cell * cell * cell * list (gmap string cell))) :
  group_of k per_table = None <-> k ∉ map fst per_table.
Proof.
  induction per_table as [|[k0 cols] rest IH]; simpl.
  - split; [intros _; apply not_elem_of_nil | reflexivity].
  - rewrite not_elem_of_cons. destruct (decide (k = k0)) as [->|Hne].
    + split; [discriminate | intros [H _]; congruence].
    + rewrite IH. tauto.
Qed.

Lemma setdefault_append_keys k (c : gmap string cell) per_table :
  map fst (setdefault_append k c per_table)
  = if decide (k ∈ map fst per_table) then map fst per_table else map fst per_table ++ [k].
Proof.
  induction per_table as [|[k0 cols] rest IH]; simpl.
  - destruct (decide (k ∈ [])) as [Hin|_]; [inversion Hin | reflexivity].
  - destruct (decide (k = k0)) as [->|Hne]; simpl.
    + destruct (decide (k0 ∈ k0 :: map fst rest)) as [_|Hout]; [reflexivity|].
      exfalso. apply Hout. left.
    + rewrite IH. destruct (decide (k ∈ map fst rest)) as [Hin|Hout];
        destruct (decide (k ∈ k0 :: map fst rest)) as [Hin'|Hout']; try reflexivity.
      * exfalso. apply Hout'. right. exact Hin.
      * exfalso. apply elem_of_cons in Hin' as [?|?]; congruence.
Qed.

Lemma setdefault_append_NoDup k (c : gmap string cell) per_table :
  NoDup (map fst per_table) -> NoDup (map fst (setdefault_append k c per_table)).
Proof.
  intros Hnd. rewrite setdefault_append_keys.
  destruct (decide (k ∈ map fst per_table)) as [Hin|Hout]; [exact Hnd|].
  apply NoDup_app. split; [exact Hnd|]. split; [|apply NoDup_singleton].
  intros x Hx Hx'. apply list_elem_of_singleton in Hx'. subst x. contradiction.
Qed.

Lemma elem_of_group_of k cols (per_table : list (cell * cell * cell * list (gmap string cell))) :
  NoDup (map fst per_table) -> (k, cols) ∈ per_table -> group_of k per_table = Some cols.
Proof.
  induction per_table as [|[k0 cols0] rest IH]; simpl; intros Hnd Hin.
  - inversion Hin.
  - apply NoDup_cons in Hnd as [Hk0 Hnd].
    apply elem_of_cons in Hin as [[= -> ->]|Hin].
    + destruct (decide (k0 = k0)); [reflexivity | congruence].
    + destruct (decide (k = k0)) as [->|_]; [|exact (IH Hnd Hin)].
      exfalso. apply Hk0. apply list_elem_of_fmap_2' with (k0, cols); [exact Hin | reflexivity].
Qed.

Lemma columns_of_snoc k (cs : list (gmap string cell)) c :
  columns_of k (cs ++ [c])
  = columns_of k cs
    ++ (if truthy (table_key c).2 && bool_decide (table_key c = k) then [c] else []).
Proof. unfold columns_of. rewrite List.filter_app. reflexivity. Qed.

(** After the grouping loop every key holds the column rows of its table. *)
Lemma group_columns_spec (columns : list (gmap string cell)) :
  NoDup (map fst (group_columns columns))
  /\ forall k, group_of k (group_columns columns)
               = match columns_of k columns with [] => None | _ :: _ => Some (columns_of k columns) end.
Proof.
  unfold group_columns. induction columns as [|c cs IH] using rev_ind.
  - split; [constructor | reflexivity].
  - rewrite fold_left_app. simpl. destruct IH as [Hnd Hgroups].
    set (groups := fold_left group_column cs []) in *.
    unfold group_column. fold (table_key c).
    change (get_or c "table_name" "TABLE_NAME") with (table_key c).2.
    destruct (truthy (table_key c).2) eqn:Htable; simpl.
    + split; [apply setdefault_append_NoDup, Hnd|].
      intros k. rewrite group_of_setdefault_append, columns_of_snoc, Htable. simpl.
      destruct (decide (k = table_key c)) as [->|Hne].
      * rewrite bool_decide_eq_true_2 by reflexivity. rewrite Hgroups.
        destruct (columns_of (table_key c) cs); reflexivity.
      * rewrite bool_decide_eq_false_2 by congruence. rewrite app_nil_r. apply Hgroups.
    + split; [exact Hnd|]. intros k. rewrite columns_of_snoc, Htable. simpl.
      rewrite app_nil_r. apply Hgroups.
Qed.

Lemma sample_column_skipped tkey (c : gmap string cell) stats :
  has_name_and_type c = false -> sample_column tkey c stats = ret stats.
Proof.
  unfold has_name_and_type, sample_column. intros H.
  destruct (truthy (get_or c "column_name" "COLUMN_NAME")),
           (truthy (get_or c "data_type" "DATA_TYPE")); try discriminate H; reflexivity.
Qed.

Lemma sample_column_sampled tkey (c : gmap string cell) stats :
  has_name_and_type c = true ->
  sample_column tkey c stats
  = (do sql <- lift (stat_sql tkey c);
     do df <- run_query_or_empty sql;
     ret (stats ++ [stat_row tkey (get_or c "column_name" "COLUMN_NAME")
                             (get_or c "data_type" "DATA_TYPE") df])).
Proof.
  unfold has_name_and_type, sample_column. intros H.
  destruct (truthy (get_or c "column_name" "COLUMN_NAME")),
           (truthy (get_or c "data_type" "DATA_TYPE")); try discriminate H; reflexivity.
Qed.

Lemma sample_columns_spec tkey (cs : list (gmap string cell)) stats (w : world) stats' w' :
  for_each cs stats (sample_column tkey) w = (Return stats', w') ->
  exists sqls,
    w_issued w' = w_issued w ++ sqls
    /\ Forall2 (fun c sql => stat_sql tkey c = Return sql) (List.filter has_name_and_type cs) sqls
    /\ length stats' = (length stats + length sqls)%nat.
Proof.
  revert stats w. induction cs as [|c cs IH]; intros stats w; simpl.
  - intros [= <- <-]. exists []. rewrite app_nil_r. repeat split; [constructor | simpl; lia].
  - unfold bind at 1. destruct (has_name_and_type c) eqn:Hc.
    + rewrite (sample_column_sampled _ _ _ Hc). unfold bind at 1, lift.
      destruct (stat_sql tkey c) as [sql|e] eqn:Hsql; [|discriminate].
      unfold bind at 1.
      pose proof (run_query_or_empty_issued sql w) as Hissued.
      destruct (run_query_or_empty_returns sql w) as (df & w1 & Hq).
      rewrite Hq in *. simpl in Hissued. unfold ret at 1.
      intros Hrest. apply IH in Hrest as (sqls & Htrace & Hsqls & Hlen).
      exists (sql :: sqls). rewrite Htrace, Hissued, <- app_assoc.
      split; [reflexivity|]. split; [constructor; assumption|].
      rewrite Hlen, length_app. simpl. lia.
    + rewrite (sample_column_skipped _ _ _ Hc). unfold ret at 1. apply IH.
Qed.

Lemma sample_tables_spec groups stats (w : world) stats' w' :
  for_each groups stats sample_table w = (Return stats', w') ->
  exists sqlss,
    w_issued w' = w_issued w ++ concat sqlss
    /\ Forall2 (fun group sqls =>
                  Forall2 (fun c sql => stat_sql group.1 c = Return sql) (sampled group.2) sqls)
               groups sqlss
    /\ length stats' = (length stats + length (concat sqlss))%nat.
Proof.
  revert stats w. induction groups as [|group groups IH]; intros stats w; simpl.
  - intros [= <- <-]. exists []. simpl. rewrite app_nil_r.
    repeat split; [constructor | simpl; lia].
  - unfold bind at 1. unfold sample_table at 1.
    destruct (for_each (take 5 group.2) stats (sample_column group.1) w)
      as [[stats1|e] w1] eqn:Hgroup; [|discriminate].
    apply sample_columns_spec in Hgroup as (sqls & Htrace & Hsqls & Hlen).
    intros Hrest. apply IH in Hrest as (sqlss & Htrace' & Hsqlss & Hlen').
    exists (sqls :: sqlss). simpl. rewrite Htrace', Htrace, <- app_assoc.
    repeat split; [constructor; assumption|].
    rewrite Hlen', Hlen, length_app. lia.
Qed.

Lemma group_of_elem k cols (per_table : list (cell * cell * cell * list (gmap string cell))) :
  group_of k per_table = Some cols -> (k, cols) ∈ per_table.
Proof.
  induction per_table as [|[k0 cols0] rest IH]; simpl; [discriminate|].
  destruct (decide (k = k0)) as [->|_].
  - intros [= ->]. apply list_elem_of_here.
  - intros Hrest. apply list_elem_of_further, IH, Hrest.
Qed.

(** The loop over the first columns of a table when every statement can be
    built: it returns, issues one statement per column that has a name and a
    type, in order, and appends one stat row for each. *)
Lemma sample_columns_full tkey (cs : list (gmap string cell)) stats (w : world) :
  (forall c, c ∈ List.filter has_name_and_type cs -> exists sql, stat_sql tkey c = Return sql) ->
  exists stats' w' sqls rows,
    for_each cs stats (sample_column tkey) w = (Return stats', w')
    /\ w_issued w' = w_issued w ++ sqls
    /\ Forall2 (fun c sql => stat_sql tkey c = Return sql) (List.filter has_name_and_type cs) sqls
    /\ stats' = stats ++ rows
    /\ Forall2 (fun c row => exists df,
                  row = stat_row tkey (get_or c "column_name" "COLUMN_NAME")
                                 (get_or c "data_type" "DATA_TYPE") df)
               (List.filter has_name_and_type cs) rows.
Proof.
  revert stats w. induction cs as [|c cs IH]; intros stats w Hbuild; simpl.
  - exists stats, w, [], []. rewrite !app_nil_r. repeat split; constructor.
  - simpl in Hbuild. unfold bind at 1. destruct (has_name_and_type c) eqn:Hc.
    + destruct (Hbuild c (list_elem_of_here _ _)) as [sql Hsql].
      rewrite (sample_column_sampled _ _ _ Hc). unfold bind at 1, lift. rewrite Hsql.
      unfold bind at 1.
      pose proof (run_query_or_empty_issued sql w) as Hissued.
      destruct (run_query_or_empty_returns sql w) as (df & w1 & Hq).
      rewrite Hq in *. simpl in Hissued. unfold ret at 1.
      destruct (IH (stats ++ [stat_row tkey (get_or c "column_name" "COLUMN_NAME")
                                       (get_or c "data_type" "DATA_TYPE") df]) w1)
        as (stats' & w' & sqls & rows & Hrun & Htrace & Hsqls & Hstats & Hrows).
      { intros c' Hc'. apply Hbuild, list_elem_of_further, Hc'. }
      exists stats', w', (sql :: sqls), (stat_row tkey (get_or c "column_name" "COLUMN_NAME")
                                           (get_or c "data_type" "DATA_TYPE") df :: rows).
      split; [exact Hrun|]. split; [rewrite Htrace, Hissued, <- app_assoc; reflexivity|].
      split; [constructor; assumption|].
      split; [rewrite Hstats, <- app_assoc; reflexivity|].
      constructor; [eauto | exact Hrows].
    + rewrite (sample_column_skipped _ _ _ Hc). unfold ret at 1. apply IH, Hbuild.
Qed.

Lemma sample_tables_full groups stats (w : world) :
  (forall group c, group ∈ groups -> c ∈ sampled group.2 ->
                   exists sql, stat_sql group.1 c = Return sql) ->
  exists stats' w' sqlss rows,
    for_each groups stats sample_table w = (Return stats', w')
    /\ w_issued w' = w_issued w ++ concat sqlss
    /\ Forall2 (fun group sqls =>
                  Forall2 (fun c sql => stat_sql group.1 c = Return sql) (sampled group.2) sqls)
               groups sqlss
    /\ stats' = stats ++ rows
    /\ Forall2 (fun (gc : cell * cell * cell * gmap string cell) row => exists df,
                  row = stat_row gc.1 (get_or gc.2 "column_name" "COLUMN_NAME")
                                 (get_or gc.2 "data_type" "DATA_TYPE") df)
               (flat_map (fun group => map (pair group.1) (sampled group.2)) groups) rows.
Proof.
  revert stats w. induction groups as [|group groups IH]; intros stats w Hbuild; simpl.
  - exists stats, w, [], []. simpl. rewrite !app_nil_r. repeat split; constructor.
  - unfold bind at 1. unfold sample_table at 1.
    destruct (sample_columns_full group.1 (take 5 group.2) stats w)
      as (stats1 & w1 & sqls & rows & Hrun & Htrace & Hsqls & Hstats & Hrows).
    { intros c Hc. apply (Hbuild group c (list_elem_of_here _ _) Hc). }
    rewrite Hrun.
    destruct (IH stats1 w1) as (stats' & w' & sqlss & rows' & Hrun' & Htrace' & Hsqlss & Hstats'
                                & Hrows').
    { intros g c Hg Hc. apply (Hbuild g c (list_elem_of_further _ _ _ Hg) Hc). }
    exists stats', w', (sqls :: sqlss), (rows ++ rows').
    split; [exact Hrun'|]. split; [simpl; rewrite Htrace', Htrace, <- app_assoc; reflexivity|].
    split; [constructor; assumption|].
    split; [rewrite Hstats', Hstats, <- app_assoc; reflexivity|].
    apply Forall2_app; [|exact Hrows'].
    unfold sampled. clear -Hrows. induction Hrows; simpl; constructor; assumption.
Qed.

Lemma sampled_bound (cols : list (gmap string cell)) : (length (sampled cols) <= 5)%nat.
Proof.
  unfold sampled. etransitivity; [apply List.filter_length_le|]. rewrite length_take. lia.
Qed.

(** C9. The statistics phase groups the column rows by (database, schema,
    table): the groups are exactly the tables that have a column row, each
    once, with the column rows of the table in order.  Of each group only
    rows among its first 5 are sampled, so at most 5; the statements handed
    to [run_query] during the phase are, group after group, exactly one per
    sampled column, and one stat row is appended for each.  When the
    statement of a sampled column fails on all its attempts the column gets
    the stat row with its identification fields only and the loop goes on.
    The phase itself, [derive_stats], never raises and leaves the results of
    the battery as they are; whenever the statement of every sampled column
    can be built it stores under column_stats one stat row per sampled
    column, whatever the warehouse answers, having issued at most 5
    statements per table, one per sampled column.  An extraction that got
    its connection and session context runs this phase on the snapshot of
    the battery and returns what it gives. *)
Theorem statistics_sampling :
  (forall columns : list (gmap string cell),
      NoDup (map fst (group_columns columns))
      /\ forall tkey cols, (tkey, cols) ∈ group_columns columns <->
                           cols = columns_of tkey columns /\ cols <> [])
  /\ (forall cols : list (gmap string cell),
        (length (sampled cols) <= 5)%nat
        /\ forall c, c ∈ sampled cols -> c ∈ take 5 cols)
  /\ (forall groups stats (w : world) stats' w',
        for_each groups stats sample_table w = (Return stats', w') ->
        exists sqlss,
          w_issued w' = w_issued w ++ concat sqlss
          /\ Forall2 (fun group sqls =>
                Forall2 (fun c sql => stat_sql group.1 c = Return sql) (sampled group.2) sqls)
              groups sqlss
          /\ length stats' = (length stats + length (concat sqlss))%nat)
  /\ (forall tkey (c : gmap string cell) stats (w : world) sql e w1,
        has_name_and_type c = true ->
        stat_sql tkey c = Return sql ->
        run_query sql w = (Raise e, w1) ->
        sample_column tkey c stats w
        = (Return (stats ++ [ {[ "database_name" := tkey.1.1; "schema_name" := tkey.1.2;
                                 "table_name" := tkey.2;
                                 "column_name" := get_or c "column_name" "COLUMN_NAME";
                                 "data_type" := get_or c "data_type" "DATA_TYPE" ]} ]), w1))
  /\ (forall results (w : world),
        exists results' w',
          derive_stats results w = (Return results', w')
          /\ (forall key, key <> "column_stats" -> results' !! key = results !! key)
          /\ ((forall tkey cols c,
                 (tkey, cols) ∈ group_columns (default [] (results !! "columns")) ->
                 c ∈ sampled cols -> exists sql, stat_sql tkey c = Return sql) ->
              exists stats sqlss,
                results' !! "column_stats" = Some stats
                /\ w_issued w' = w_issued w ++ concat sqlss
                /\ Forall2 (fun group sqls =>
                      Forall2 (fun c sql => stat_sql group.1 c = Return sql)
                              (sampled group.2) sqls)
                    (group_columns (default [] (results !! "columns"))) sqlss
                /\ Forall (fun sqls => (length sqls <= 5)%nat) sqlss
                /\ Forall2 (fun (gc : cell * cell * cell * gmap string cell) row => exists df,
                      row = stat_row gc.1 (get_or gc.2 "column_name" "COLUMN_NAME")
                                     (get_or gc.2 "data_type" "DATA_TYPE") df)
                    (flat_map (fun group => map (pair group.1) (sampled group.2))
                              (group_columns (default [] (results !! "columns"))))
                    stats))
  /\ (forall (w w0 w1 : world),
        get_sf_connection w = (Return tt, w0) ->
        apply_context w0 = (Return tt, w1) ->
        exists res1 w2 results w3 w',
          run_battery selected_battery initial_results w1 = (Return res1, w2)
          /\ derive_stats res1 (set_written (w_written w2 ++ [res1]) w2) = (Return results, w3)
          /\ extract_metadata w = (Return results, w')).
Proof.
  split; [|split; [|split; [|split; [|split]]]].
  - intros columns. destruct (group_columns_spec columns) as [Hnd Hgroups].
    split; [exact Hnd|]. intros tkey cols. split.
    + intros Hin. apply (elem_of_group_of _ _ _ Hnd) in Hin. rewrite Hgroups in Hin.
      destruct (columns_of tkey columns); [discriminate|].
      injection Hin as <-. split; [reflexivity | discriminate].
    + intros [-> Hne]. apply group_of_elem. rewrite Hgroups.
      destruct (columns_of tkey columns); [contradiction | reflexivity].
  - intros cols. split; [apply sampled_bound|].
    intros c Hc. unfold sampled in Hc. apply list_elem_of_In, List.filter_In in Hc as [Hc _].
    apply list_elem_of_In. exact Hc.
  - exact sample_tables_spec.
  - intros tkey c stats w sql e w1 Hc Hsql Hfail.
    rewrite (sample_column_sampled _ _ _ Hc). unfold bind at 1, lift. rewrite Hsql.
    unfold bind. rewrite (run_query_or_empty_failed _ _ _ _ Hfail). unfold ret.
    unfold stat_row, json_safe_row. rewrite fmap_empty, (left_id_L ∅ (∪)). reflexivity.
  - intros results w.
    destruct (derive_stats_returns results w) as (results' & w' & Hrun).
    exists results', w'. split; [exact Hrun|].
    split; [intros key Hkey; exact (derive_stats_other_key _ _ _ _ _ Hrun Hkey)|].
    intros Hbuild.
    destruct (sample_tables_full (group_columns (default [] (results !! "columns"))) [] w)
      as (stats & w1 & sqlss & rows & Hloop & Htrace & Hsqlss & Hstats & Hrows).
    { intros [tkey cols] c Hg Hc. exact (Hbuild tkey cols c Hg Hc). }
    revert Hrun. unfold derive_stats, try_except, bind. rewrite Hloop. intros [= <- <-].
    exists stats, sqlss. split; [apply lookup_insert_eq|]. split; [exact Htrace|].
    split; [exact Hsqlss|]. split.
    + clear -Hsqlss. induction Hsqlss as [|group sqls groups sqlss Hg _ IH]; constructor;
        [|exact IH].
      rewrite <- (Forall2_length _ _ _ Hg). apply sampled_bound.
    + rewrite Hstats. exact Hrows.
  - intros w w0 w1 Hconn Hctx.
    destruct (extract_metadata_course w w0 w1 Hconn Hctx)
      as (res1 & w2 & results & w3 & w4 & H1 & H2 & _ & Hrun).
    exists res1, w2, results, w3, (conn_close w4). auto.
Qed.

(** C4, as the code has it. The snapshot keeps the field names of the
    warehouse: converting a frame changes no field name of any row.  The
    casing is dealt with where a field is read: [_get] returns the value
    under the name as given (the lower-case one at every call), falls back to
    the value under the upper-case name when the first is not a field of the
    row, and reads [None] when neither is. *)
Theorem field_names_are_kept (frame : list (gmap string cell)) :
  map dom (_json_safe_records frame) = map dom frame
  /\ (forall (r : gmap string cell) field v, r !! field = Some v -> _get r field = v)
  /\ (forall (r : gmap string cell) field v,
        r !! field = None -> r !! upper field = Some v -> _get r field = v)
  /\ (forall (r : gmap string cell) field, lacks r field -> _get r field = VNone).
Proof.
  repeat split.
  - unfold _json_safe_records. induction frame as [|r frame IH]; simpl; [reflexivity|].
    rewrite IH. unfold json_safe_row. rewrite dom_fmap_L. reflexivity.
  - intros r field v H. unfold _get. rewrite H. reflexivity.
  - intros r field v H1 H2. unfold _get, row_get. rewrite H1, H2. reflexivity.
  - intros r field [H1 H2]. unfold _get, row_get. rewrite H1, H2. reflexivity.
Qed.

End ExtractorProperties.

(** ** Worked instances *)

Lemma pick_context_policy_witness :
  @pick_context demo_runtime demo_services "orders" warm_index_world
  = (Return ["doc one"; "doc two"; "doc three"], warm_index_world)
  /\ @pick_context demo_runtime demo_services "orders" sparse_index_world
    = (Return
         [ "Graph match: DB.PUBLIC.ORDERS props={'label': 'Table', 'name': 'ORDERS', 'row_count': 10}";
           "Graph match: DB.PUBLIC.ORDERS.ORDER_ID props={'label': 'Column', 'name': 'ORDER_ID', 'data_type': 'NUMBER'}" ],
       sparse_index_world)
  /\ @pick_context demo_runtime demo_services "revenue" cold_graph_world
    = (Return ["doc one"; "doc two"], cold_graph_world).
Proof.
  split; [|split].
  - assert (Hv : @retrieve_context_from_vector demo_runtime demo_services "orders"
                   (default_top_k (@app_config demo_runtime demo_services)) warm_index_world
                 = (Return ["doc one"; "doc two"; "doc three"], warm_index_world))
      by reflexivity.
    assert (Hlen : (3 <= length ["doc one"; "doc two"; "doc three"])%nat) by (simpl; lia).
    exact (proj1 (@pick_context_policy demo_runtime demo_services "orders" warm_index_world)
             _ _ Hv Hlen).
  - assert (Hv : @retrieve_context_from_vector demo_runtime demo_services "orders"
                   (default_top_k (@app_config demo_runtime demo_services)) sparse_index_world
                 = (Return ["doc one"; "doc two"], sparse_index_world))
      by reflexivity.
    assert (Hlen : (length ["doc one"; "doc two"] < 3)%nat) by (simpl; lia).
    assert (Hg : @retrieve_from_graph demo_runtime demo_services "orders"
                   (default_top_k (@app_config demo_runtime demo_services)) sparse_index_world
                 = (Return
                      [ "Graph match: DB.PUBLIC.ORDERS props={'label': 'Table', 'name': 'ORDERS', 'row_count': 10}";
                        "Graph match: DB.PUBLIC.ORDERS.ORDER_ID props={'label': 'Column', 'name': 'ORDER_ID', 'data_type': 'NUMBER'}" ],
                    sparse_index_world))
      by reflexivity.
    refine (proj1 (proj2 (@pick_context_policy demo_runtime demo_services "orders"
                            sparse_index_world)) _ _ _ _ Hv Hlen Hg _).
    discriminate.
  - assert (Hv : @retrieve_context_from_vector demo_runtime demo_services "revenue"
                   (default_top_k (@app_config demo_runtime demo_services)) cold_graph_world
                 = (Return ["doc one"; "doc two"], cold_graph_world))
      by reflexivity.
    assert (Hlen : (length ["doc one"; "doc two"] < 3)%nat) by (simpl; lia).
    assert (Hg : @retrieve_from_graph demo_runtime demo_services "revenue"
                   (default_top_k (@app_config demo_runtime demo_services)) cold_graph_world
                 = (Return [], cold_graph_world))
      by reflexivity.
    exact (proj2 (proj2 (@pick_context_policy demo_runtime demo_services "revenue"
                           cold_graph_world)) _ _ _ Hv Hlen Hg).
Defined.

(** The claim C2 as the specification words it fails: the one-component
    tuple ("a|b",) and the tuple ("a", "b") are different and are joined to
    the same string, so they get the same key whatever the digest is. *)
Lemma cache_key_collision :
  ~ (forall (rt : PyRuntime) (ext : Externals),
        (forall a b, sha256_hexdigest a = sha256_hexdigest b -> a = b) ->
        forall k1 k2 : list string, k1 <> k2 -> cache_key k1 <> cache_key k2).
Proof.
  intros H.
  apply (H demo_runtime demo_services (fun a b Heq => Heq) ["a|b"] ["a"; "b"]);
    [discriminate | reflexivity].
Qed.

Lemma cache_key_separates_witness :
  @cache_key demo_runtime demo_services ["qa"; "orders by month"]
  <> @cache_key demo_runtime demo_services ["qa"; "orders by week"].
Proof.
  apply (proj1 (proj2 (@cache_key_separates demo_runtime demo_services
                         ["qa"; "orders by month"] ["qa"; "orders by week"])));
    [intros a b Heq; exact Heq | discriminate | discriminate
    | repeat constructor | repeat constructor | discriminate].
Defined.


(** The claim C4 as the specification words it fails: after a refresh
    against a warehouse that answers in upper-case field names the snapshot
    holds both TABLE_NAME (in the table rows) and table_name (in the
    statistics rows). *)
Lemma snapshot_field_names_not_normalized :
  match fst (@extract_metadata demo_runtime demo_services refresh_world) with
  | Return results => one_casing results = false
  | Raise _ => False
  end.
Proof. vm_compute. reflexivity. Qed.

Lemma field_names_are_kept_witness :
  @_get demo_runtime (demo_column "ORDER_ID" "NUMBER") "table_name" = VStr "ORDERS".
Proof.
  apply (proj1 (proj2 (proj2 (@field_names_are_kept demo_runtime
                                [demo_column "ORDER_ID" "NUMBER"]))));
    reflexivity.
Defined.

Lemma generate_sql_and_insight_degrades_witness :
  exists w',
    @generate_sql_and_insight demo_runtime demo_services "top orders?" warm_index_world
    = (Return [ ("insight", JStr "not json"); ("sql", JNull); ("chart_type", JStr "table");
                ("context", JList [JStr "doc one"; JStr "doc two"; JStr "doc three"]) ],
       w').
Proof.
  eexists.
  apply (@generate_sql_and_insight_degrades demo_runtime demo_services "top orders?"
           warm_index_world ["doc one"; "doc two"; "doc three"] warm_index_world
           "not json" warm_index_world ValueError);
    reflexivity.
Defined.

Lemma sub_query_failure_is_isolated_witness :
  (exists results w',
    @run_battery demo_runtime demo_services probe_queries initial_results flaky_world
    = (Return results, w')
    /\ results !! "views" = Some [])
  /\ (exists results w',
    @extract_metadata demo_runtime outage_services outage_world = (Return results, w')
    /\ results !! "tables" = Some []
    /\ exists stat_sqls, w_issued w' = map snd QUERIES ++ stat_sqls).
Proof.
  split.
  - pose (after_tables := @run_battery demo_runtime demo_services [("tables", "SELECT 1")]
                            initial_results flaky_world).
    pose (res1 := match fst after_tables with Return r => r | Raise _ => ∅ end).
    pose (failed := @run_query demo_runtime demo_services "SELECT 2" (snd after_tables)).
    assert (H1 : @run_battery demo_runtime demo_services [("tables", "SELECT 1")]
                   initial_results flaky_world = (Return res1, snd after_tables))
      by reflexivity.
    assert (H2 : @run_query demo_runtime demo_services "SELECT 2" (snd after_tables)
                 = (Raise RetryError, snd failed))
      by reflexivity.
    destruct (proj1 (proj2 (@sub_query_failure_is_isolated demo_runtime demo_services))
                [("tables", "SELECT 1")] "views" "SELECT 2" [("columns", "SELECT 3")]
                initial_results flaky_world res1 (snd after_tables) RetryError (snd failed)
                H1 H2) as [_ Hkey].
    destruct (proj1 (@sub_query_failure_is_isolated demo_runtime demo_services)
                probe_queries initial_results flaky_world) as (results & w' & Hrun).
    exists results, w'. split; [exact Hrun|].
    assert (Hnotin : "views" ∉ map fst [("columns", "SELECT 3")]).
    { intros Hin. simpl in Hin. apply list_elem_of_singleton in Hin. discriminate Hin. }
    exact (Hkey Hnotin results w' Hrun).
  - pose (w1 := snd (@apply_context demo_runtime outage_services outage_world)).
    assert (Hconn : @get_sf_connection demo_runtime outage_services outage_world
                    = (Return tt, outage_world)) by reflexivity.
    assert (Hctx : @apply_context demo_runtime outage_services outage_world = (Return tt, w1))
      by reflexivity.
    destruct (proj1 (proj2 (proj2 (@sub_query_failure_is_isolated demo_runtime outage_services)))
                outage_world outage_world w1 Hconn Hctx)
      as (results & w' & Hrun & Htrace & Hkeys).
    exists results, w'. split; [exact Hrun|]. split; [|exact Htrace].
    assert (Hsplit : @selected_battery demo_runtime outage_services
                     = [] ++ ("tables", battery_sql QUERIES "tables") :: drop 1 QUERIES)
      by reflexivity.
    destruct (Hkeys _ _ _ _ Hsplit) as (res_pre & w_pre & Hpre & Hfail & _).
    assert (Hw : w_pre = w1) by (injection Hpre as _ Hw; symmetry; exact Hw).
    pose (failed := @run_query demo_runtime outage_services (battery_sql QUERIES "tables") w1).
    assert (Hq : @run_query demo_runtime outage_services (battery_sql QUERIES "tables") w1
                 = (Raise RetryError, snd failed)) by reflexivity.
    rewrite <- Hw in Hq.
    exact (Hfail _ _ Hq).
Defined.

Lemma snapshot_writes_are_json_safe_witness :
  exists r',
    @_json_safe_records demo_runtime [demo_table_row] !! 0%nat = Some r'
    /\ r' !! "ROW_COUNT" = Some (@VFloat demo_runtime "10").
Proof.
  destruct (proj1 (proj2 (proj2 (proj2 (@snapshot_writes_are_json_safe demo_runtime
                                          demo_services))))
              [demo_table_row] 0%nat demo_table_row "ROW_COUNT" eq_refl)
    as (r' & Hrow & Hcell).
  exists r'. split; [exact Hrow|]. rewrite Hcell. reflexivity.
Defined.

Lemma statistics_sampling_witness :
  (exists w1,
    @sample_column demo_runtime demo_services (VStr "DB", VStr "PUBLIC", VStr "ORDERS")
      (demo_column "PLACED_AT" "TIMESTAMP_NTZ") [] stat_failure_world
    = (Return [ {[ "database_name" := VStr "DB"; "schema_name" := VStr "PUBLIC";
                   "table_name" := VStr "ORDERS"; "column_name" := VStr "PLACED_AT";
                   "data_type" := VStr "TIMESTAMP_NTZ" ]} ], w1))
  /\ (exists results' w' stats,
    @derive_stats demo_runtime demo_services {[ "columns" := demo_columns ]} stat_failure_world
    = (Return results', w')
    /\ results' !! "column_stats" = Some stats
    /\ length stats = 2%nat
    /\ w_issued w' = [demo_stat_sql "ORDER_ID" "NUMBER"; demo_stat_sql "PLACED_AT" "TIMESTAMP_NTZ"]).
Proof.
  split.
  - pose (failed := @run_query demo_runtime demo_services
                      (demo_stat_sql "PLACED_AT" "TIMESTAMP_NTZ") stat_failure_world).
    assert (Hfail : @run_query demo_runtime demo_services
                      (demo_stat_sql "PLACED_AT" "TIMESTAMP_NTZ") stat_failure_world
                    = (Raise RetryError, snd failed))
      by reflexivity.
    assert (Hc : @has_name_and_type demo_runtime (demo_column "PLACED_AT" "TIMESTAMP_NTZ") = true)
      by reflexivity.
    assert (Hsql : @stat_sql demo_runtime (VStr "DB", VStr "PUBLIC", VStr "ORDERS")
                     (demo_column "PLACED_AT" "TIMESTAMP_NTZ")
                   = Return (demo_stat_sql "PLACED_AT" "TIMESTAMP_NTZ"))
      by reflexivity.
    exists (snd failed).
    pose proof (proj1 (proj2 (proj2 (proj2 (@statistics_sampling demo_runtime demo_services))))
                  (VStr "DB", VStr "PUBLIC", VStr "ORDERS")
                  (demo_column "PLACED_AT" "TIMESTAMP_NTZ")
                  [] stat_failure_world _ RetryError (snd failed) Hc Hsql Hfail) as Hrow.
    rewrite Hrow. reflexivity.
  - assert (Hgroups : @group_columns demo_runtime
                        (default [] (({[ "columns" := demo_columns ]}
                                      : gmap string (list (gmap string cell))) !! "columns"))
                      = [((VStr "DB", VStr "PUBLIC", VStr "ORDERS"), demo_columns)])
      by reflexivity.
    assert (Hsampled : @sampled demo_runtime demo_columns = demo_columns) by reflexivity.
    destruct (proj1 (proj2 (proj2 (proj2 (proj2 (@statistics_sampling demo_runtime
                                                    demo_services)))))
                {[ "columns" := demo_columns ]} stat_failure_world)
      as (results' & w' & Hrun & _ & Hstats).
    destruct Hstats as (stats & sqlss & Hkey & Htrace & Hsqlss & _ & Hrows).
    { rewrite Hgroups. intros tkey cols c Hg Hc.
      apply list_elem_of_singleton in Hg.
      pose proof (f_equal fst Hg) as Hk. pose proof (f_equal snd Hg) as Hcols.
      simpl in Hk, Hcols. subst tkey cols. rewrite Hsampled in Hc.
      apply elem_of_cons in Hc as [->|Hc]; [eexists; reflexivity|].
      apply list_elem_of_singleton in Hc as ->. eexists; reflexivity. }
    exists results', w', stats. split; [exact Hrun|]. split; [exact Hkey|].
    rewrite Hgroups in Hsqlss, Hrows.
    split.
    + apply Forall2_length in Hrows. rewrite <- Hrows. reflexivity.
    + rewrite Htrace.
      inversion Hsqlss as [|g sqls gs rest Hg Hrest]; subst.
      inversion Hrest; subst. simpl in Hg. rewrite Hsampled in Hg.
      inversion Hg as [|c1 s1 cs1 ss1 H1 Hg1]; subst.
      inversion Hg1 as [|c2 s2 cs2 ss2 H2 Hg2]; subst.
      inversion Hg2; subst.
      injection H1 as <-. injection H2 as <-. reflexivity.
Defined.

Lemma upsert_docs_to_chroma_count_witness :
  exists w',
    @upsert_docs_to_chroma demo_runtime demo_services demo_docs cold_graph_world
    = (Return 250%nat, w')
    /\ Forall (fun b => (length b <= 100)%nat) (w_upserts w').
Proof.
  destruct (proj2 (proj2 (@upsert_docs_to_chroma_count demo_runtime demo_services
                            demo_docs cold_graph_world))
              (fun ids metadatas documents vs => ex_intro _ (vs ++ documents) eq_refl)
              cold_graph_world eq_refl) as [w' Hrun].
  exists w'. split; [exact Hrun|].
  destruct (proj1 (@upsert_docs_to_chroma_count demo_runtime demo_services
                     demo_docs cold_graph_world) _ _ Hrun)
    as (_ & batches & Htrace & _ & Hsizes).
  rewrite Htrace. exact Hsizes.
Defined.

(** * Further properties *)

(** ** The knowledge graph, continued *)

Section GraphMore.
Context {rt : PyRuntime}.

Lemma has_key_elem_of {K V} `{EqDecision K} (k : K) (l : list (K * V)) :
  has_key k l = true <-> k ∈ map fst l.
Proof.
  induction l as [|[k0 v] l IH]; simpl.
  - split; [discriminate | intros H0; inversion H0].
  - rewrite elem_of_cons. destruct (decide (k = k0)) as [->|Hne].
    + split; [auto | reflexivity].
    + rewrite IH. split; [auto | intros [?|?]; [congruence | assumption]].
Qed.

Lemma alter_key_keys {K V} `{EqDecision K} (f : V -> V) (k : K) (l : list (K * V)) :
  map fst (alter_key f k l) = map fst l.
Proof.
  induction l as [|[k0 v] l IH]; simpl; [reflexivity|].
  destruct (decide (k = k0)); simpl; [reflexivity | rewrite IH; reflexivity].
Qed.

Lemma grows_refl (g : DiGraph) : grows g g [] [].
Proof.
  repeat split; auto; intros [?|H0]; auto; inversion H0.
Qed.

Lemma grows_trans (g1 g2 g3 : DiGraph) n1 e1 n2 e2 :
  grows g1 g2 n1 e1 -> grows g2 g3 n2 e2 -> grows g1 g3 (n1 ++ n2) (e1 ++ e2).
Proof.
  intros (Hn1 & He1 & Hd1 & Hk1) (Hn2 & He2 & Hd2 & Hk2). repeat split; auto.
  - rewrite Hn2, Hn1, elem_of_app. tauto.
  - rewrite Hn2, Hn1, elem_of_app. tauto.
  - rewrite He2, He1, elem_of_app. tauto.
  - rewrite He2, He1, elem_of_app. tauto.
Qed.

Lemma grows_equiv (g g' : DiGraph) n e n' e' :
  grows g g' n e ->
  (forall x, x ∈ n <-> x ∈ n') -> (forall k, k ∈ e <-> k ∈ e') ->
  grows g g' n' e'.
Proof.
  intros (Hn & He & Hd & Hk) Hn' He'. repeat split; auto.
  - rewrite Hn, Hn'. tauto.
  - rewrite Hn, Hn'. tauto.
  - rewrite He, He'. tauto.
  - rewrite He, He'. tauto.
Qed.

Lemma snoc_NoDup {A} (l : list A) (x : A) : NoDup l -> x ∉ l -> NoDup (l ++ [x]).
Proof.
  intros Hl Hx. apply NoDup_app. split; [exact Hl|]. split; [|apply NoDup_singleton].
  intros y Hy Hy'. apply list_elem_of_singleton in Hy'. subst y. contradiction.
Qed.

Lemma add_node_grows (n : cell) attr (g g' : DiGraph) :
  add_node n attr g = Return g' -> grows g g' [n] [].
Proof.
  unfold add_node, grows, node_ids, edge_keys.
  destruct (has_key n (nodes g)) eqn:Hk.
  - intros [= <-]. simpl. rewrite alter_key_keys. apply has_key_elem_of in Hk.
    repeat split; auto.
    + intros [?|Hx]; [assumption|]. apply list_elem_of_singleton in Hx. subst. exact Hk.
    + intros [?|Hx]; [assumption | inversion Hx].
  - assert (Hout : n ∉ map fst (nodes g)).
    { intros Hin. apply has_key_elem_of in Hin. congruence. }
    destruct n; try discriminate; intros [= <-]; simpl; rewrite map_app; simpl;
      (repeat split; auto;
       [ rewrite elem_of_app; tauto | rewrite elem_of_app; tauto
       | intros [?|Hx]; [assumption | inversion Hx]
       | intros Hnd; apply snoc_NoDup; assumption ]).
Qed.

Lemma touch_node_grows (n : cell) (g g' : DiGraph) :
  touch_node n g = Return g' -> grows g g' [n] [].
Proof.
  unfold touch_node, grows, node_ids, edge_keys.
  destruct (has_key n (nodes g)) eqn:Hk.
  - intros [= <-]. apply has_key_elem_of in Hk. repeat split; auto.
    + intros [?|Hx]; [assumption|]. apply list_elem_of_singleton in Hx. subst. exact Hk.
    + intros [?|Hx]; [assumption | inversion Hx].
  - assert (Hout : n ∉ map fst (nodes g)).
    { intros Hin. apply has_key_elem_of in Hin. congruence. }
    destruct n; try discriminate; intros [= <-]; simpl; rewrite map_app; simpl;
      (repeat split; auto;
       [ rewrite elem_of_app; tauto | rewrite elem_of_app; tauto
       | intros [?|Hx]; [assumption | inversion Hx]
       | intros Hnd; apply snoc_NoDup; assumption ]).
Qed.

Lemma add_edge_grows (u v : cell) attr (g g' : DiGraph) :
  add_edge u v attr g = Return g' -> grows g g' [u; v] [(u, v)].
Proof.
  unfold add_edge.
  destruct (touch_node u g) as [g1|e] eqn:Hu; [|discriminate]. simpl.
  destruct (touch_node v g1) as [g2|e] eqn:Hv; [|discriminate]. simpl.
  intros [= <-].
  apply touch_node_grows in Hu. apply touch_node_grows in Hv.
  pose proof (grows_trans _ _ _ _ _ _ _ Hu Hv) as (Hn & He & Hd & Hk). simpl in *.
  unfold grows, node_ids, edge_keys in *. simpl.
  repeat split; auto.
  - apply Hn.
  - apply Hn.
  - destruct (has_key (u, v) (edges g2)) eqn:Hhas.
    + rewrite alter_key_keys. intros Hin. left. apply He in Hin as [?|Hin]; [assumption | inversion Hin].
    + rewrite map_app, elem_of_app. simpl. intros [Hin|Hin]; [|right; exact Hin].
      left. apply He in Hin as [?|Hin]; [assumption | inversion Hin].
  - destruct (has_key (u, v) (edges g2)) eqn:Hhas.
    + rewrite alter_key_keys. apply has_key_elem_of in Hhas.
      intros [Hin|Hin]; [apply He; left; exact Hin|].
      apply list_elem_of_singleton in Hin. subst. exact Hhas.
    + rewrite map_app, elem_of_app. simpl.
      intros [Hin|Hin]; [left; apply He; left; exact Hin | right; exact Hin].
  - intros Hnd. specialize (Hk Hnd). destruct (has_key (u, v) (edges g2)) eqn:Hhas.
    + rewrite alter_key_keys. exact Hk.
    + rewrite map_app. simpl. apply snoc_NoDup; [exact Hk|].
      intros Hin. apply has_key_elem_of in Hin. congruence.
Qed.

Lemma add_table_row_grows (t : gmap string cell) (g g' : DiGraph) :
  add_table_row t g = Return g' -> grows g g' (table_row_nodes t) (table_row_edges t).
Proof.
  unfold add_table_row, table_row_nodes, table_row_edges, table_row_complete, table_row_ids.
  destruct (truthy (_get t "database_name")); simpl;
    [|intros [= <-]; apply grows_refl].
  destruct (truthy (_get t "schema_name")); simpl;
    [|intros [= <-]; apply grows_refl].
  destruct (truthy (_get t "table_name")); simpl;
    [|intros [= <-]; apply grows_refl].
  destruct (add_node _ _ g) as [g1|e] eqn:H1; [|discriminate]. simpl.
  destruct (add_node _ _ g1) as [g2|e] eqn:H2; [|discriminate]. simpl.
  destruct (add_node _ _ g2) as [g3|e] eqn:H3; [|discriminate]. simpl.
  destruct (add_edge _ _ _ g3) as [g4|e] eqn:H4; [|discriminate]. simpl.
  intros H5.
  apply add_node_grows in H1, H2, H3. apply add_edge_grows in H4, H5.
  pose proof (grows_trans _ _ _ _ _ _ _ H1
               (grows_trans _ _ _ _ _ _ _ H2
                 (grows_trans _ _ _ _ _ _ _ H3
                   (grows_trans _ _ _ _ _ _ _ H4 H5)))) as Hall.
  eapply grows_equiv; [exact Hall | |]; intros x; simpl;
    rewrite ?elem_of_cons, ?elem_of_nil; tauto.
Qed.

Lemma add_column_row_grows (c : gmap string cell) (g g' : DiGraph) :
  add_column_row c g = Return g' -> grows g g' (column_row_nodes c) (column_row_edges c).
Proof.
  unfold add_column_row, column_row_nodes, column_row_edges, column_row_complete,
    column_row_ids.
  destruct (truthy (_get c "database_name")); simpl;
    [|intros [= <-]; apply grows_refl].
  destruct (truthy (_get c "schema_name")); simpl;
    [|intros [= <-]; apply grows_refl].
  destruct (truthy (_get c "table_name")); simpl;
    [|intros [= <-]; apply grows_refl].
  destruct (truthy (_get c "column_name")); simpl;
    [|intros [= <-]; apply grows_refl].
  destruct (add_node _ _ g) as [g1|e] eqn:H1; [|discriminate]. simpl.
  intros H2.
  apply add_node_grows in H1. apply add_edge_grows in H2.
  pose proof (grows_trans _ _ _ _ _ _ _ H1 H2) as Hall.
  eapply grows_equiv; [exact Hall | |]; intros x; simpl;
    rewrite ?elem_of_cons, ?elem_of_nil; tauto.
Qed.

Lemma for_rows_grows body (new_nodes : gmap string cell -> list cell)
    (new_edges : gmap string cell -> list (cell * cell)) xs (g g' : DiGraph) :
  (forall x g0 g1, body x g0 = Return g1 -> grows g0 g1 (new_nodes x) (new_edges x)) ->
  for_rows body xs g = Return g' ->
  grows g g' (flat_map new_nodes xs) (flat_map new_edges xs).
Proof.
  intros Hbody. revert g. induction xs as [|x xs IH]; intros g; simpl.
  - intros [= <-]. apply grows_refl.
  - destruct (body x g) as [g1|e] eqn:Hx; [|discriminate]. simpl. intros Hrest.
    eapply grows_trans; [apply Hbody; exact Hx | apply IH; exact Hrest].
Qed.

Lemma build_from_metadata_grows (g : DiGraph) tables columns g1 :
  build_from_metadata g tables columns = Return g1 ->
  grows empty_graph g1
    (flat_map table_row_nodes tables ++ flat_map column_row_nodes columns)
    (flat_map table_row_edges tables ++ flat_map column_row_edges columns).
Proof.
  unfold build_from_metadata.
  destruct (for_rows add_table_row tables empty_graph) as [gt|e] eqn:Ht; [|discriminate].
  simpl. intros Hc.
  eapply grows_trans.
  - eapply for_rows_grows; [apply add_table_row_grows | exact Ht].
  - eapply for_rows_grows; [apply add_column_row_grows | exact Hc].
Qed.

Lemma build_from_metadata_returns (g : DiGraph) tables columns :
  exists g1, build_from_metadata g tables columns = Return g1.
Proof.
  unfold build_from_metadata.
  destruct (for_rows_returns add_table_row tables empty_graph add_table_row_returns)
    as [gt ->]. simpl.
  exact (for_rows_returns add_column_row columns gt add_column_row_returns).
Qed.


(** X2. The graph [build_from_metadata] returns stores no node identifier
    twice and no edge twice, and both end points of every edge are nodes of
    the graph. *)
Theorem build_from_metadata_well_formed (g : DiGraph) (tables columns : list (gmap string cell)) :
  exists g1, build_from_metadata g tables columns = Return g1 /\ well_formed g1.
Proof.
  destruct (build_from_metadata_returns g tables columns) as (g1 & Hbuild).
  exists g1. split; [exact Hbuild|].
  destruct (build_from_metadata_grows _ _ _ _ Hbuild) as (Hn & He & Hd & Hk).
  split; [apply Hd; constructor|]. split; [apply Hk; constructor|].
  intros u v Hin. apply He in Hin as [Hin|Hin]; [inversion Hin|].
  rewrite !Hn. apply elem_of_app in Hin as [Hin|Hin].
  - change (flat_map table_row_edges tables) with (tables ≫= table_row_edges) in Hin.
    apply list_elem_of_bind in Hin as (t & Hedge & Ht).
    assert (Hends : u ∈ table_row_nodes t /\ v ∈ table_row_nodes t).
    { unfold table_row_edges, table_row_nodes in *.
      destruct (table_row_complete t); [|inversion Hedge].
      repeat (apply elem_of_cons in Hedge as [[= -> ->]|Hedge];
              [rewrite !elem_of_cons; tauto|]).
      inversion Hedge. }
    destruct Hends as [Hu Hv].
    split; right; apply elem_of_app; left;
      change (flat_map table_row_nodes tables) with (tables ≫= table_row_nodes);
      apply list_elem_of_bind; eauto.
  - change (flat_map column_row_edges columns) with (columns ≫= column_row_edges) in Hin.
    apply list_elem_of_bind in Hin as (c & Hedge & Hc).
    assert (Hends : u ∈ column_row_nodes c /\ v ∈ column_row_nodes c).
    { unfold column_row_edges, column_row_nodes in *.
      destruct (column_row_complete c); [|inversion Hedge].
      apply list_elem_of_singleton in Hedge.
      assert (Huv : u = (column_row_ids c).1 /\ v = (column_row_ids c).2)
        by (rewrite <- Hedge; split; reflexivity).
      destruct Huv as [-> ->]. rewrite !elem_of_cons. tauto. }
    destruct Hends as [Hu Hv].
    split; right; apply elem_of_app; right;
      change (flat_map column_row_nodes columns) with (columns ≫= column_row_nodes);
      apply list_elem_of_bind; eauto.
Qed.

(** *** Keyword search *)

Lemma lower_upper_ascii (c : ascii) : lower_ascii (upper_ascii c) = lower_ascii c.
Proof. destruct c as [[] [] [] [] [] [] [] []]; reflexivity. Qed.

Lemma lower_lower_ascii (c : ascii) : lower_ascii (lower_ascii c) = lower_ascii c.
Proof. destruct c as [[] [] [] [] [] [] [] []]; reflexivity. Qed.

Lemma lower_upper (s : string) : lower (upper s) = lower s.
Proof.
  unfold lower, upper. induction s as [|c s IH]; simpl; [reflexivity|].
  rewrite lower_upper_ascii, IH. reflexivity.
Qed.

Lemma lower_lower (s : string) : lower (lower s) = lower s.
Proof.
  unfold lower. induction s as [|c s IH]; simpl; [reflexivity|].
  rewrite lower_lower_ascii, IH. reflexivity.
Qed.




Lemma search_loop_returns keyword (max_results : Z) ns matches :
  Forall (fun node => is_str (fst node) = true) ns ->
  exists ms, search_loop keyword max_results ns matches = Return ms.
Proof.
  intros Hstr. revert matches.
  induction Hstr as [|[node_id data] ns Hid Hns IH]; intros matches; simpl; [eauto|].
  destruct node_id; try discriminate Hid.
  destruct (contains keyword _); simpl;
    repeat match goal with
           | |- context [if ?b then _ else _] => destruct b
           end; eauto.
Qed.


(** X4. For a keyword of ASCII characters the search does not depend on
    the letter case of the keyword: the keyword, its upper-case form and its
    lower-case form give the same result. *)
Theorem search_ignores_keyword_case (g : DiGraph) (keyword : string) (max_results : Z) :
  is_ascii keyword = true ->
  search g (upper keyword) max_results = search g keyword max_results
  /\ search g (lower keyword) max_results = search g keyword max_results.
Proof.
  intros _. unfold search. rewrite lower_upper, lower_lower. split; reflexivity.
Qed.

(** X5. On the graph built from table rows whose database names are
    strings, a search never raises, whatever the other fields hold: every
    other identifier of the graph is a dotted path made by the build. *)
Theorem search_on_built_graph (g : DiGraph) (tables columns : list (gmap string cell))
    (keyword : string) (max_results : Z) :
  string_databases tables = true ->
  exists g1 ms,
    build_from_metadata g tables columns = Return g1
    /\ search g1 keyword max_results = Return ms.
Proof.
  intros Hdb.
  destruct (build_from_metadata_returns g tables columns) as (g1 & Hbuild).
  destruct (build_from_metadata_grows _ _ _ _ Hbuild) as (Hn & _).
  assert (Hstr : Forall (fun node => is_str (fst node) = true) (nodes g1)).
  { apply Forall_forall. intros node Hnode.
    assert (Hid : fst node ∈ node_ids g1) by (apply list_elem_of_In, in_map, list_elem_of_In; exact Hnode).
    apply Hn in Hid as [Hid|Hid]; [inversion Hid|].
    apply elem_of_app in Hid as [Hid|Hid].
    - change (flat_map table_row_nodes tables) with (tables ≫= table_row_nodes) in Hid.
      apply list_elem_of_bind in Hid as (t & Hid & Ht).
      unfold string_databases in Hdb. rewrite forallb_forall in Hdb.
      apply list_elem_of_In, Hdb in Ht.
      unfold table_row_nodes in Hid. destruct (table_row_complete t); [|inversion Hid].
      simpl in Ht.
      repeat (apply elem_of_cons in Hid as [->|Hid]; [first [exact Ht | reflexivity]|]).
      inversion Hid.
    - change (flat_map column_row_nodes columns) with (columns ≫= column_row_nodes) in Hid.
      apply list_elem_of_bind in Hid as (c & Hid & _).
      unfold column_row_nodes in Hid. destruct (column_row_complete c); [|inversion Hid].
      repeat (apply elem_of_cons in Hid as [->|Hid]; [reflexivity|]).
      inversion Hid. }
  destruct (search_loop_returns (lower keyword) max_results (nodes g1) [] Hstr) as [ms Hms].
  exists g1, ms. split; [exact Hbuild | exact Hms].
Qed.

End GraphMore.

(** ** The cache and the synthesizer, continued *)

Section CacheMore.
Context {rt : PyRuntime} {ext : Externals}.

(** X6. [cached_call] on a key the cache holds returns the stored value
    and neither runs the computation nor changes anything.  On a key it does
    not hold it runs the computation: if that raises, the exception goes
    through and nothing is stored by [cached_call]; if it returns, the value
    is returned and, from then on, any call with the same key parts gets it
    back without running its computation while the clock is before the
    expiry time, and finds the key absent again from the expiry time on. *)
Theorem cached_call_contract (key_parts : list string) (fn : Py (list (string * json)))
    (expire : Z) (w : world) :
  (forall value,
      cache_get (cache_key key_parts) w = Some value ->
      cached_call key_parts fn expire w = (Return value, w))
  /\ (forall e w',
      cache_get (cache_key key_parts) w = None ->
      fn w = (Raise e, w') ->
      cached_call key_parts fn expire w = (Raise e, w'))
  /\ (forall value w',
      cache_get (cache_key key_parts) w = None ->
      fn w = (Return value, w') ->
      exists w1,
        cached_call key_parts fn expire w = (Return value, w1)
        /\ (forall t fn' expire',
              t < w_now w' + expire ->
              cached_call key_parts fn' expire' (at_time t w1) = (Return value, at_time t w1))
        /\ (forall t,
              w_now w' + expire <= t ->
              cache_get (cache_key key_parts) (at_time t w1) = None)).
Proof.
  split; [|split].
  - intros value Hhit. unfold cached_call. rewrite Hhit. reflexivity.
  - intros e w' Hmiss Hfn. unfold cached_call. rewrite Hmiss. unfold bind. rewrite Hfn.
    reflexivity.
  - intros value w' Hmiss Hfn. eexists. split.
    + unfold cached_call. rewrite Hmiss. unfold bind. rewrite Hfn. reflexivity.
    + split.
      * intros t fn' expire' Ht. unfold cached_call, cache_get. simpl.
        rewrite lookup_insert_eq. destruct (Z.ltb_spec t (w_now w' + expire)); [reflexivity | lia].
      * intros t Ht. unfold cache_get. simpl.
        rewrite lookup_insert_eq. destruct (Z.ltb_spec t (w_now w' + expire)); [lia | reflexivity].
Qed.

Lemma dict_get_set_eq (k : string) (v : json) (d : list (string * json)) :
  dict_get (dict_set k v d) k = Some v.
Proof.
  induction d as [|[k' v'] d IH]; simpl.
  - rewrite String.eqb_refl. reflexivity.
  - destruct (String.eqb k k') eqn:Hk; simpl; rewrite ?String.eqb_refl, ?Hk; auto.
Qed.

Lemma dict_get_set_ne (k k0 : string) (v : json) (d : list (string * json)) :
  k0 <> k -> dict_get (dict_set k v d) k0 = dict_get d k0.
Proof.
  intros Hne. induction d as [|[k' v'] d IH]; simpl.
  - destruct (String.eqb_spec k0 k); [congruence | reflexivity].
  - destruct (String.eqb_spec k k') as [->|Hk]; simpl.
    + destruct (String.eqb_spec k0 k'); [congruence | reflexivity].
    + destruct (String.eqb_spec k0 k'); [reflexivity | exact IH].
Qed.

Lemma compute_parsed (question : string) (w : world) context_snippets w1 response w2 data :
  pick_context question w = (Return context_snippets, w1) ->
  llm_complete build_system_prompt (build_user_prompt question context_snippets) w1
    = (Return response, w2) ->
  json_loads response = Return data ->
  _compute question w
  = match data with
    | JDict d => (Return (dict_set "context" (JList (map JStr context_snippets)) d), w2)
    | _ => (Raise TypeError, w2)
    end.
Proof.
  intros Hctx Hllm Hparse. unfold _compute, bind at 1. rewrite Hctx.
  unfold bind at 1. rewrite Hllm, Hparse. destruct data; reflexivity.
Qed.

(** X7. When the response of the model parses as JSON but not as an
    object (a list, a number, a string, null), [generate_sql_and_insight]
    raises TypeError and stores nothing in the cache. *)
Theorem generate_sql_and_insight_rejects_non_objects (question : string) (w : world)
    (context_snippets : list string) (w1 : world) (response : string) (w2 : world)
    (data : json) :
  cache_get (cache_key ["qa"; question]) w = None ->
  pick_context question w = (Return context_snippets, w1) ->
  llm_complete build_system_prompt (build_user_prompt question context_snippets) w1
    = (Return response, w2) ->
  json_loads response = Return data ->
  (forall d, data <> JDict d) ->
  generate_sql_and_insight question w = (Raise TypeError, w2).
Proof.
  intros Hmiss Hctx Hllm Hparse Hshape.
  unfold generate_sql_and_insight, cached_call. rewrite Hmiss. unfold bind at 1.
  rewrite (compute_parsed _ _ _ _ _ _ _ Hctx Hllm Hparse).
  destruct data; try reflexivity. exfalso. exact (Hshape _ eq_refl).
Qed.

(** X8. When the response parses as a JSON object, the result is that
    object with the snippets handed to the model under "context": a
    "context" entry of the response is replaced, every other entry is
    returned as parsed, and none is added or checked. *)
Theorem generate_sql_and_insight_keeps_object (question : string) (w : world)
    (context_snippets : list string) (w1 : world) (response : string) (w2 : world)
    (d : list (string * json)) :
  cache_get (cache_key ["qa"; question]) w = None ->
  pick_context question w = (Return context_snippets, w1) ->
  llm_complete build_system_prompt (build_user_prompt question context_snippets) w1
    = (Return response, w2) ->
  json_loads response = Return (JDict d) ->
  exists result w3,
    generate_sql_and_insight question w = (Return result, w3)
    /\ dict_get result "context" = Some (JList (map JStr context_snippets))
    /\ (forall k, k <> "context" -> dict_get result k = dict_get d k).
Proof.
  intros Hmiss Hctx Hllm Hparse.
  unfold generate_sql_and_insight, cached_call. rewrite Hmiss. unfold bind at 1.
  rewrite (compute_parsed _ _ _ _ _ _ _ Hctx Hllm Hparse).
  eexists _, _. split; [reflexivity|]. split.
  - apply dict_get_set_eq.
  - intros k Hk. apply dict_get_set_ne. exact Hk.
Qed.

Lemma get_chroma_collection_graph_file : keeps w_graph_file get_chroma_collection.
Proof.
  intros w. unfold get_chroma_collection.
  destruct (get_or_create_collection (w_vstore w)) as [r vs]. reflexivity.
Qed.

Lemma retrieve_context_from_vector_graph_file question top_k :
  keeps w_graph_file (retrieve_context_from_vector question top_k).
Proof.
  apply keeps_bind; [apply get_chroma_collection_graph_file | intros _ w].
  destruct (collection_query question top_k (w_vstore w)) as [r vs]. reflexivity.
Qed.

(** X9. Without a graph file (absent or unreadable) the graph retrieval
    returns no snippet and raises nothing, so [pick_context] returns the
    results of the vector query whatever their number. *)
Theorem pick_context_without_graph_file (question : string) (w : world)
    (vctx : list string) (w1 : world) :
  w_graph_file w = None ->
  retrieve_context_from_vector question (default_top_k app_config) w = (Return vctx, w1) ->
  (forall keyword max_results, retrieve_from_graph keyword max_results w1 = (Return [], w1))
  /\ pick_context question w = (Return vctx, w1).
Proof.
  intros Hfile Hv.
  pose proof (retrieve_context_from_vector_graph_file question (default_top_k app_config) w)
    as Hkeep.
  rewrite Hv in Hkeep. simpl in Hkeep. rewrite Hfile in Hkeep.
  assert (Hg : forall keyword max_results,
             retrieve_from_graph keyword max_results w1 = (Return [], w1)).
  { intros keyword max_results. unfold retrieve_from_graph, bind, load_local. rewrite Hkeep.
    reflexivity. }
  split; [exact Hg|].
  unfold pick_context, bind at 1. rewrite Hv.
  destruct (Z.of_nat (length vctx) >=? 3); [reflexivity|].
  unfold bind. rewrite Hg. reflexivity.
Qed.

End CacheMore.

(** ** The statistics statements *)

Section QueriesMore.
Context {rt : PyRuntime}.

Lemma upper_lower_ascii (c : ascii) : upper_ascii (lower_ascii c) = upper_ascii c.
Proof. destruct c as [[] [] [] [] [] [] [] []]; reflexivity. Qed.

Lemma upper_upper_ascii (c : ascii) : upper_ascii (upper_ascii c) = upper_ascii c.
Proof. destruct c as [[] [] [] [] [] [] [] []]; reflexivity. Qed.

Lemma upper_lower (s : string) : upper (lower s) = upper s.
Proof.
  unfold lower, upper. induction s as [|c s IH]; simpl; [reflexivity|].
  rewrite upper_lower_ascii, IH. reflexivity.
Qed.

Lemma upper_upper (s : string) : upper (upper s) = upper s.
Proof.
  unfold upper. induction s as [|c s IH]; simpl; [reflexivity|].
  rewrite upper_upper_ascii, IH. reflexivity.
Qed.

Lemma truthy_nonempty (c : ascii) (s : string) : truthy (VStr (String c s)) = true.
Proof. reflexivity. Qed.

Lemma startswith_dquote (r : string) : startswith dquote (String (ascii_of_nat 34) r) = true.
Proof. reflexivity. Qed.

Lemma quote_ident_str (s : string) :
  exists q, quote_ident (VStr s) = Return (VStr q) /\ quote_ident (VStr q) = Return (VStr q).
Proof.
  destruct s as [|c s].
  - exists EmptyString. split; reflexivity.
  - unfold quote_ident. rewrite truthy_nonempty. cbn [cell_startswith obind py_str].
    destruct (startswith dquote (String c s)) eqn:Hq.
    + exists (String c s). rewrite truthy_nonempty. cbn [cell_startswith obind].
      rewrite Hq. split; reflexivity.
    + exists (dquote +:+ String c s +:+ dquote). split; [reflexivity|].
      change (dquote +:+ String c s +:+ dquote)
        with (String (ascii_of_nat 34) (String c s +:+ dquote)).
      rewrite truthy_nonempty. cbn [cell_startswith obind].
      rewrite startswith_dquote. reflexivity.
Qed.

Lemma quote_ident_quotable (name : cell) :
  quotable name = true ->
  exists q, quote_ident name = Return q /\ quote_ident q = Return q /\ quotable q = true.
Proof.
  unfold quotable. destruct (is_str name) eqn:Hstr; simpl.
  - intros _. destruct name; try discriminate Hstr.
    destruct (quote_ident_str s) as (q & H1 & H2). exists (VStr q). auto.
  - intros Hfalse. apply negb_true_iff in Hfalse. exists name.
    unfold quote_ident. rewrite Hfalse, Hstr. auto.
Qed.

(** X10. [quote_ident] is idempotent where it is defined: on a string, and
    on any value that is false (None, the empty string, 0), quoting the
    result again changes nothing.  On a true value that is not a string it
    raises AttributeError. *)
Theorem quote_ident_idempotent (name : cell) :
  (quotable name = true ->
   exists q, quote_ident name = Return q /\ quote_ident q = Return q)
  /\ (quotable name = false -> quote_ident name = Raise AttributeError).
Proof.
  split.
  - intros Hq. destruct (quote_ident_quotable name Hq) as (q & H1 & H2 & _). eauto.
  - unfold quotable, quote_ident. destruct name; simpl; try discriminate;
      intros Hq; try (apply negb_false_iff in Hq; rewrite Hq); reflexivity.
Qed.

Lemma fq_table_returns (database schema table : cell) :
  quotable database = true -> quotable schema = true -> quotable table = true ->
  exists q, fq_table database schema table = Return q.
Proof.
  intros Hd Hs Ht. unfold fq_table.
  destruct (quote_ident_quotable _ Hd) as (d & -> & _).
  destruct (quote_ident_quotable _ Hs) as (s & -> & _).
  destruct (quote_ident_quotable _ Ht) as (t & -> & _).
  destruct (truthy database && truthy schema); simpl; [eauto|].
  destruct (truthy schema); simpl; eauto.
Qed.

(** The statement built once the parts are quoted and the type is in upper
    case. *)
Lemma min_max_returns (database schema table column : cell) (dt : string) :
  quotable database = true -> quotable schema = true ->
  quotable table = true -> quotable column = true ->
  exists sql, min_max_distinct_for_column database schema table column (VStr dt) = Return sql.
Proof.
  intros Hd Hs Ht Hc. unfold min_max_distinct_for_column.
  destruct (fq_table_returns _ _ _ Hd Hs Ht) as (fq & ->).
  destruct (quote_ident_quotable _ Hc) as (c & -> & _). simpl.
  repeat match goal with |- context [if ?b then _ else _] => destruct b end; eauto.
Qed.

(** X11. The statistics statement depends on the declared type only
    through its class and not on its letter case: a type outside the numeric
    and date lists, listed as text or not, gets the statement of TEXT.  The
    database is left out of the statement when the schema is missing.  The
    statement is built whenever the type is a string and the database,
    schema, table and column are strings or false values. *)
Theorem min_max_distinct_for_column_dispatch (database schema table column : cell)
    (dt : string) :
  min_max_distinct_for_column database schema table column (VStr (lower dt))
  = min_max_distinct_for_column database schema table column (VStr dt)
  /\ (str_in (upper dt) numeric_types = false ->
      str_in (upper dt) date_types = false ->
      min_max_distinct_for_column database schema table column (VStr dt)
      = min_max_distinct_for_column database schema table column (VStr "TEXT"))
  /\ (truthy schema = false ->
      min_max_distinct_for_column database schema table column (VStr dt)
      = min_max_distinct_for_column VNone schema table column (VStr dt))
  /\ (quotable database = true -> quotable schema = true ->
      quotable table = true -> quotable column = true ->
      exists sql,
        min_max_distinct_for_column database schema table column (VStr dt) = Return sql).
Proof.
  split; [|split; [|split]].
  - unfold min_max_distinct_for_column, cell_upper. rewrite upper_lower. reflexivity.
  - intros Hnum Hdate. unfold min_max_distinct_for_column, cell_upper.
    destruct (fq_table database schema table) as [fq|e]; [|reflexivity]. cbn [obind].
    destruct (quote_ident column) as [c|e]; [|reflexivity]. cbn [obind].
    rewrite Hnum, Hdate. change (upper "TEXT") with "TEXT".
    change (str_in "TEXT" numeric_types) with false.
    change (str_in "TEXT" date_types) with false.
    change (str_in "TEXT" text_types) with true.
    destruct (str_in (upper dt) text_types); reflexivity.
  - intros Hs. unfold min_max_distinct_for_column, fq_table. rewrite Hs.
    rewrite andb_false_r. reflexivity.
  - apply min_max_returns.
Qed.

End QueriesMore.

(** ** The metadata extraction, continued *)

Section ExtractorFurther.
Context {rt : PyRuntime} {ext : Externals}.

(** X12. The battery loop hands every statement of the battery to
    [run_query] exactly once and in order, whether or not earlier ones
    fail.  In an extraction that got its connection and session context,
    the statements handed to [run_query] start with those of the selected
    battery, in its order. *)
Theorem battery_statements_are_all_issued :
  (forall queries results (w : world),
      w_issued (snd (run_battery queries results w)) = w_issued w ++ map snd queries)
  /\ (forall (w w0 w1 : world),
      get_sf_connection w = (Return tt, w0) ->
      apply_context w0 = (Return tt, w1) ->
      exists stat_sqls,
        w_issued (snd (extract_metadata w))
        = w_issued w ++ map snd selected_battery ++ stat_sqls).
Proof.
  split; [exact run_battery_issued|].
  intros w w0 w1 Hconn Hctx.
  pose proof (get_sf_connection_issued w) as H0. rewrite Hconn in H0. simpl in H0.
  pose proof (apply_context_issued w0) as H1. rewrite Hctx in H1. simpl in H1.
  unfold extract_metadata, bind at 1. rewrite Hconn.
  unfold try_finally, bind at 1. rewrite Hctx.
  fold selected_battery.
  unfold bind at 1.
  pose proof (run_battery_issued selected_battery initial_results w1) as H2.
  destruct (run_battery_returns selected_battery initial_results w1) as (res1 & w2 & Heq2).
  rewrite Heq2 in *. simpl in H2.
  unfold bind at 1, write_snapshot at 1. unfold bind at 1.
  destruct (derive_stats_issued res1 (set_written (w_written w2 ++ [res1]) w2))
    as (sqls & H3).
  destruct (derive_stats_returns res1 (set_written (w_written w2 ++ [res1]) w2))
    as (res2 & w3 & Heq3).
  rewrite Heq3 in *. simpl in H3.
  unfold bind at 1, write_snapshot at 1. unfold bind at 1.
  pose proof (build_graph_issued res2 (set_written (w_written w3 ++ [res2]) w3)) as H4.
  destruct (build_graph_returns res2 (set_written (w_written w3 ++ [res2]) w3))
    as (w4 & Heq4).
  rewrite Heq4 in *. simpl in H4. simpl.
  exists sqls. rewrite H4, H3, H2, H1, H0, <- app_assoc. reflexivity.
Qed.

(** X13. A connection that was obtained is closed when [extract_metadata],
    [run_sql] or [connection_test] end, whether they return or raise; when
    the connection cannot be obtained, [extract_metadata] and [run_sql]
    raise that error and do nothing else. *)
Theorem connection_is_closed (w : world) :
  (forall e w0,
      get_sf_connection w = (Raise e, w0) ->
      extract_metadata w = (Raise e, w0)
      /\ forall sql, run_sql sql w = (Raise e, w0))
  /\ (forall w0,
      get_sf_connection w = (Return tt, w0) ->
      (exists wh, w_warehouse (snd (extract_metadata w)) = sf_close wh)
      /\ (forall sql, exists wh, w_warehouse (snd (run_sql sql w)) = sf_close wh)
      /\ (exists wh, w_warehouse (snd (connection_test w)) = sf_close wh)).
Proof.
  split.
  - intros e w0 Hconn. split; [|intros sql];
      [unfold extract_metadata | unfold run_sql]; unfold bind at 1; rewrite Hconn; reflexivity.
  - intros w0 Hconn. split; [|split; [intros sql|]].
    + unfold extract_metadata, bind at 1. rewrite Hconn. unfold try_finally.
      match goal with |- context [let (r, w') := ?m w0 in _] => destruct (m w0) as [r w'] end.
      eexists. reflexivity.
    + unfold run_sql, bind at 1. rewrite Hconn. unfold try_finally.
      match goal with |- context [let (r, w') := ?m w0 in _] => destruct (m w0) as [r w'] end.
      eexists. reflexivity.
    + unfold connection_test, try_except, bind at 1. rewrite Hconn. unfold try_finally.
      match goal with |- context [let (r, w') := ?m w0 in _] =>
        destruct (m w0) as [[r|e] w'] end; eexists; reflexivity.
Qed.



(** X15. [connection_test] never raises.  It reports success, with the
    rows of its statement, exactly when the connection, the session context
    and the statement (within its three attempts) all succeed, and reports
    the failure otherwise. *)
Theorem connection_test_reports (w : world) :
  exists report w',
    connection_test w = (Return report, w')
    /\ forall info,
         report = Connected info <->
         exists w0 w1 w2,
           get_sf_connection w = (Return tt, w0)
           /\ apply_context w0 = (Return tt, w1)
           /\ run_query connection_test_sql w1 = (Return info, w2).
Proof.
  unfold connection_test, try_except, bind at 1.
  destruct (get_sf_connection w) as [[[]|e] w0] eqn:Hconn.
  2:{ eexists _, _. split; [reflexivity|]. intros info. split; [discriminate|].
      intros (? & ? & ? & [=] & _). }
  unfold try_finally, bind at 1.
  destruct (apply_context w0) as [[[]|e] w1] eqn:Hctx.
  2:{ eexists _, _. split; [reflexivity|]. intros info. split; [discriminate|].
      intros (? & ? & ? & [= <-] & Hc & _). rewrite Hctx in Hc. discriminate Hc. }
  unfold bind at 1.
  destruct (run_query connection_test_sql w1) as [[df|e] w2] eqn:Hq.
  - eexists _, _. split; [reflexivity|]. intros info. split.
    + intros [= <-]. eauto 10.
    + intros (? & ? & ? & [= <-] & Hc & Hq'). rewrite Hctx in Hc. injection Hc as <-.
      rewrite Hq in Hq'. injection Hq' as <- _. reflexivity.
  - eexists _, _. split; [reflexivity|]. intros info. split; [discriminate|].
    intros (? & ? & ? & [= <-] & Hc & Hq'). rewrite Hctx in Hc. injection Hc as <-.
    rewrite Hq in Hq'. discriminate Hq'.
Qed.

Lemma run_battery_dom queries results (w : world) results' w' :
  run_battery queries results w = (Return results', w') ->
  dom results' = dom results ∪ list_to_set (map fst queries).
Proof.
  revert results w. induction queries as [|[k sql] queries IH]; intros results w; simpl.
  - intros [= <- <-]. cbn [list_to_set]. rewrite (right_id_L _ _). reflexivity.
  - unfold run_battery. simpl. unfold bind at 1 2. simpl.
    destruct (run_query_or_empty_returns sql w) as (df & w1 & ->).
    unfold ret at 1. intros Hrest. apply IH in Hrest. rewrite Hrest, dom_insert_L.
    cbn [list_to_set]. rewrite (assoc_L _ _ _ _), (comm_L _ (dom results)). reflexivity.
Qed.

Lemma derive_stats_dom results (w : world) results' w' :
  derive_stats results w = (Return results', w') ->
  dom results' = dom results \/ dom results' = {["column_stats"]} ∪ dom results.
Proof.
  unfold derive_stats, try_except, bind.
  destruct (for_each _ [] sample_table w) as [[stats|e] w1]; intros [= <- <-].
  - right. apply dom_insert_L.
  - left. reflexivity.
Qed.

Lemma battery_dom :
  dom initial_results ∪ list_to_set (map fst selected_battery) = battery_keys.
Proof.
  unfold selected_battery, initial_results, battery_keys.
  rewrite !dom_insert_L, dom_singleton_L.
  destruct (String.eqb _ _); cbn [map fst QUERIES QUERIES_ACCOUNT list_to_set];
    set_solver.
Qed.

(** X16. The snapshot [extract_metadata] returns has a list under each of
    tables, views, columns, foreign_keys, indexes and query_history,
    whatever failed, under column_stats when the statistics phase went
    through, and under no other key. *)
Theorem snapshot_keys (w : world) results w' :
  extract_metadata w = (Return results, w') ->
  dom results = battery_keys \/ dom results = {["column_stats"]} ∪ battery_keys.
Proof.
  unfold extract_metadata, bind at 1.
  destruct (get_sf_connection w) as [[[]|e] w0]; [|discriminate].
  unfold try_finally, bind at 1.
  destruct (apply_context w0) as [[[]|e] w1]; [|discriminate].
  fold selected_battery. unfold bind at 1.
  destruct (run_battery selected_battery initial_results w1) as [[res1|e] w2] eqn:H1;
    [|discriminate].
  unfold bind at 1, write_snapshot at 1. unfold bind at 1.
  destruct (derive_stats res1 _) as [[res2|e] w3] eqn:H2; [|discriminate].
  unfold bind at 1, write_snapshot at 1. unfold bind at 1.
  destruct (build_graph res2 _) as [[[]|e] w4]; [|discriminate].
  intros [= <- <-].
  apply run_battery_dom in H1. rewrite battery_dom in H1.
  apply derive_stats_dom in H2. rewrite H1 in H2. exact H2.
Qed.

(** An extraction that gets its connection and its session context returns. *)
Lemma extract_metadata_returns (w w0 w1 : world) :
  get_sf_connection w = (Return tt, w0) ->
  apply_context w0 = (Return tt, w1) ->
  exists results w', extract_metadata w = (Return results, w').
Proof.
  intros Hconn Hctx. unfold extract_metadata, bind at 1. rewrite Hconn.
  unfold try_finally, bind at 1. rewrite Hctx.
  unfold bind at 1.
  destruct (run_battery_returns
              (if String.eqb (database snowflake_config) EmptyString
               then QUERIES_ACCOUNT else QUERIES) initial_results w1) as (res1 & w2 & ->).
  unfold bind at 1, write_snapshot at 1. unfold bind at 1.
  destruct (derive_stats_returns res1 (set_written (w_written w2 ++ [res1]) w2))
    as (res2 & w3 & ->).
  unfold bind at 1, write_snapshot at 1. unfold bind at 1.
  destruct (build_graph_returns res2 (set_written (w_written w3 ++ [res2]) w3)) as (w4 & ->).
  eauto.
Qed.

End ExtractorFurther.

(** ** The documents of the corpus *)

Section DocumentProperties.
Context {rt : PyRuntime} {ext : Externals}.

Lemma get_or_of_get (r : gmap string cell) (k : string) :
  truthy (_get r k) = true -> get_or r k (upper k) = _get r k.
Proof.
  unfold get_or, py_or, _get, row_get. destruct (r !! k) as [v|]; simpl.
  - intros ->. reflexivity.
  - intros _. reflexivity.
Qed.

(** X17. For a table row and a column row the graph takes up, the
    identifier of its document is the identifier of its graph node behind
    the prefix of its kind, so a graph match and a document of the corpus
    name the same object by the same path. *)
Theorem document_ids_agree_with_graph :
  (forall t : gmap string cell,
      table_row_complete t = true ->
      exists s, (table_row_ids t).2 = VStr s /\ doc_id (table_doc t) = "table::" +:+ s)
  /\ (forall c : gmap string cell,
      column_row_complete c = true ->
      exists s, (column_row_ids c).2 = VStr s /\ doc_id (column_doc c) = "column::" +:+ s).
Proof.
  split.
  - intros t Hc. unfold table_row_complete in Hc.
    apply andb_prop in Hc as [Hc Ht]. apply andb_prop in Hc as [Hd Hs].
    eexists. split; [reflexivity|].
    unfold table_doc, dotted3; cbn [doc_id].
    change "DATABASE_NAME" with (upper "database_name").
    change "SCHEMA_NAME" with (upper "schema_name").
    change "TABLE_NAME" with (upper "table_name").
    rewrite !get_or_of_get by assumption. reflexivity.
  - intros c Hc. unfold column_row_complete in Hc.
    apply andb_prop in Hc as [Hc Hcol]. apply andb_prop in Hc as [Hc Ht].
    apply andb_prop in Hc as [Hd Hs].
    eexists. split; [reflexivity|].
    unfold column_doc, dotted4, dotted3; cbn [doc_id].
    change "DATABASE_NAME" with (upper "database_name").
    change "SCHEMA_NAME" with (upper "schema_name").
    change "TABLE_NAME" with (upper "table_name").
    change "COLUMN_NAME" with (upper "column_name").
    rewrite !get_or_of_get by assumption. reflexivity.
Qed.

(** X18. [save_metadata_docs] makes one document per row of tables,
    columns, column_stats and query_history, in this order and whatever the
    row holds, with the row as its metadata; a missing list counts as
    empty.  Documents of different kinds never share an identifier. *)
Theorem metadata_docs_one_per_row (items : gmap string cell -> list (string * cell))
    (py_hash : string -> Z) (metadata : gmap string (list (gmap string cell))) :
  map doc_metadata (metadata_docs items py_hash metadata)
  = map Some (default [] (metadata !! "tables") ++ default [] (metadata !! "columns")
              ++ default [] (metadata !! "column_stats")
              ++ default [] (metadata !! "query_history"))
  /\ forall t c s q : gmap string cell,
       doc_id (table_doc t) <> doc_id (column_doc c)
       /\ doc_id (table_doc t) <> doc_id (stats_doc items s)
       /\ doc_id (table_doc t) <> doc_id (query_doc py_hash q)
       /\ doc_id (column_doc c) <> doc_id (stats_doc items s)
       /\ doc_id (column_doc c) <> doc_id (query_doc py_hash q)
       /\ doc_id (stats_doc items s) <> doc_id (query_doc py_hash q).
Proof.
  split.
  - unfold metadata_docs. rewrite !map_app, !map_map. reflexivity.
  - intros t c s q. repeat split; cbn [doc_id table_doc column_doc stats_doc query_doc];
      intros Heq; discriminate Heq.
Qed.

Lemma metadata_docs_length (items : gmap string cell -> list (string * cell))
    (py_hash : string -> Z) (metadata : gmap string (list (gmap string cell))) :
  length (metadata_docs items py_hash metadata)
  = (length (default [] (metadata !! "tables")) + length (default [] (metadata !! "columns"))
     + length (default [] (metadata !! "column_stats"))
     + length (default [] (metadata !! "query_history")))%nat.
Proof. unfold metadata_docs. rewrite !length_app, !length_map. lia. Qed.

Lemma extract_metadata_safe (w : world) results w' :
  extract_metadata w = (Return results, w') -> safe_snapshot results.
Proof.
  unfold extract_metadata, bind at 1.
  destruct (get_sf_connection w) as [[[]|e] w0]; [|discriminate].
  unfold try_finally, bind at 1.
  destruct (apply_context w0) as [[[]|e] w1]; [|discriminate].
  unfold bind at 1.
  destruct (run_battery _ initial_results w1) as [[res1|e] w2] eqn:H1; [|discriminate].
  unfold bind at 1, write_snapshot at 1. unfold bind at 1.
  destruct (derive_stats res1 _) as [[res2|e] w3] eqn:H2; [|discriminate].
  unfold bind at 1, write_snapshot at 1. unfold bind at 1.
  destruct (build_graph res2 _) as [[[]|e] w4]; [|discriminate].
  intros [= <- <-].
  apply (derive_stats_safe _ _ _ _ H2), (run_battery_safe _ _ _ _ _ H1), initial_results_safe.
Qed.

Lemma safe_row_dumpable (r : gmap string cell) :
  safe_row r -> forallb (fun kv => dumpable (snd kv)) (map_to_list r) = true.
Proof.
  intros Hsafe. apply forallb_forall. intros [k v] Hin.
  apply list_elem_of_In, elem_of_map_to_list in Hin.
  exact (Hsafe k v Hin).
Qed.

Lemma safe_rows_section (metadata : gmap string (list (gmap string cell))) key :
  safe_snapshot metadata -> Forall safe_row (default [] (metadata !! key)).
Proof.
  intros Hsafe. destruct (metadata !! key) as [rows|] eqn:Hk; simpl; [|constructor].
  exact (Hsafe key rows Hk).
Qed.

Lemma docs_of_safe_rows (f : gmap string cell -> document) rows :
  (forall r, doc_metadata (f r) = Some r) ->
  Forall safe_row rows -> forallb dumpable_doc (map f rows) = true.
Proof.
  intros Hmeta Hrows. induction Hrows as [|r rows Hr _ IH]; simpl; [reflexivity|].
  rewrite IH, andb_true_r. unfold dumpable_doc. rewrite Hmeta.
  apply safe_row_dumpable, Hr.
Qed.

Lemma metadata_docs_dumpable (items : gmap string cell -> list (string * cell))
    (py_hash : string -> Z) (metadata : gmap string (list (gmap string cell))) :
  safe_snapshot metadata -> forallb dumpable_doc (metadata_docs items py_hash metadata) = true.
Proof.
  intros Hsafe. unfold metadata_docs. rewrite !forallb_app.
  rewrite !docs_of_safe_rows by (first [intros r; reflexivity | apply safe_rows_section, Hsafe]).
  reflexivity.
Qed.

(** X19. A refresh whose extraction raises ends with that exception
    before any document is written or indexed.  After an extraction that
    returns, the two writes of the documents file cannot fail, since the
    snapshot holds JSON-safe values only: the file is written twice with the
    documents of the snapshot, and the refresh ends as the indexing of these
    documents ends.  A refresh that returns has sent exactly their
    identifiers to the vector store, in order, and its count is the number
    of rows of tables, columns, column_stats and query_history in the
    snapshot. *)
Theorem run_indexes_the_snapshot (items : gmap string cell -> list (string * cell))
    (py_hash : string -> Z) (w : world) (written : list docs_file) :
  (forall e w1,
      extract_metadata w = (Raise e, w1) ->
      run items py_hash w written = (Raise e, (w1, written)))
  /\ (forall md w1,
      extract_metadata w = (Return md, w1) ->
      run items py_hash w written
      = (fst (upsert_docs_to_chroma (metadata_docs items py_hash md) w1),
         (snd (upsert_docs_to_chroma (metadata_docs items py_hash md) w1),
          written ++ [DocsWritten (metadata_docs items py_hash md);
                      DocsWritten (metadata_docs items py_hash md)])))
  /\ (forall n w' written',
      run items py_hash w written = (Return n, (w', written')) ->
      exists md w1,
        extract_metadata w = (Return md, w1)
        /\ n = (length (default [] (md !! "tables")) + length (default [] (md !! "columns"))
                + length (default [] (md !! "column_stats"))
                + length (default [] (md !! "query_history")))%nat
        /\ exists batches,
             w_upserts w' = w_upserts w1 ++ batches
             /\ concat batches = map doc_id (metadata_docs items py_hash md)).
Proof.
  assert (Hrun : forall md w1,
      extract_metadata w = (Return md, w1) ->
      run items py_hash w written
      = (fst (upsert_docs_to_chroma (metadata_docs items py_hash md) w1),
         (snd (upsert_docs_to_chroma (metadata_docs items py_hash md) w1),
          written ++ [DocsWritten (metadata_docs items py_hash md);
                      DocsWritten (metadata_docs items py_hash md)]))).
  { intros md w1 Hx. unfold run. rewrite Hx.
    unfold save_metadata_docs, dump_docs.
    pose proof (metadata_docs_dumpable items py_hash md (extract_metadata_safe _ _ _ Hx))
      as Hdump.
    rewrite Hdump. cbv beta iota. rewrite Hdump.
    destruct (upsert_docs_to_chroma (metadata_docs items py_hash md) w1) as [count w2].
    rewrite <- app_assoc. reflexivity. }
  split; [|split; [exact Hrun|]].
  - intros e w1 Hx. unfold run. rewrite Hx. reflexivity.
  - intros n w' written' Hret.
    destruct (extract_metadata w) as [[md|e] w1] eqn:Hx.
    2:{ unfold run in Hret. rewrite Hx in Hret. discriminate Hret. }
    rewrite (Hrun md w1 eq_refl) in Hret.
    destruct (upsert_docs_to_chroma (metadata_docs items py_hash md) w1) as [count w2] eqn:Hup.
    simpl in Hret. injection Hret as -> <- _.
    exists md, w1. split; [reflexivity|].
    revert Hup. unfold upsert_docs_to_chroma, bind at 1.
    destruct (get_chroma_collection w1) as [[[]|e] w3] eqn:Hopen; [|discriminate].
    intros Hloop. apply upsert_loop_spec in Hloop as [-> Htrace].
    rewrite batches_cover in * by lia. rewrite !length_map, metadata_docs_length.
    split; [lia|].
    eexists. rewrite Htrace, (get_chroma_collection_upserts _ _ _ Hopen).
    split; [reflexivity|]. apply batches_cover. lia.
Qed.



End DocumentProperties.

(** ** The chart *)

Section ChartProperties.

Lemma head_of_filter {A} (f : A -> bool) (l : list A) (x : A) (rest : list A) :
  List.filter f l = x :: rest -> x ∈ l.
Proof.
  intros Heq. apply list_elem_of_In.
  assert (Hin : In x (List.filter f l)) by (rewrite Heq; left; reflexivity).
  apply List.filter_In in Hin as [Hin _]. exact Hin.
Qed.

Lemma head_of_labels (f : frame_column -> bool) (cols : list frame_column) x rest :
  map column_label (List.filter f cols) = x :: rest -> x ∈ map column_label cols.
Proof.
  destruct (List.filter f cols) as [|c cs] eqn:Hf; [discriminate|].
  intros [= <- _]. apply list_elem_of_In, in_map, list_elem_of_In.
  exact (head_of_filter _ _ _ _ Hf).
Qed.

(** X21. [render_chart] draws nothing for an empty frame and nothing for
    a frame without a numeric column, whatever chart is asked for; for a
    non-empty frame of two or more columns, one of them numeric, it always
    draws a figure, whatever the chart type says. *)
Theorem render_chart_needs_a_numeric_column (df : data_frame) (chart_type : string) :
  (df_empty df = true -> render_chart df chart_type = None)
  /\ (numeric_labels df = [] -> render_chart df chart_type = None)
  /\ (df_empty df = false -> (2 <= length (frame_columns df))%nat -> numeric_labels df <> [] ->
      exists fig, render_chart df chart_type = Some fig).
Proof.
  unfold numeric_labels, render_chart. split; [|split].
  - intros ->. reflexivity.
  - intros ->. destruct (df_empty df); [reflexivity|].
    destruct (List.filter _ (map column_label (frame_columns df)));
      destruct (map column_label (List.filter (fun c => negb (is_numeric c)) (frame_columns df)));
      destruct (map column_label (frame_columns df)) as [|? [|? ?]]; reflexivity.
  - intros -> Hlen Hnum.
    destruct (map column_label (List.filter is_numeric (frame_columns df))) as [|y ys];
      [contradiction|].
    destruct (frame_columns df) as [|c1 [|c2 cs]]; [simpl in Hlen; lia | simpl in Hlen; lia|].
    cbn [map].
    repeat match goal with
           | |- context [match ?l with [] => _ | _ :: _ => _ end] => destruct l
           | |- context [if ?b then _ else _] => destruct b
           end; eauto.
Qed.

(** X22. In a figure [render_chart] draws, the vertical axis is a numeric
    column of the frame and the horizontal axis is a column of the frame.
    A line, area or scatter figure is drawn only when asked for by that
    name, and both axes of a scatter figure are numeric; every other
    request ends in a bar figure. *)
Theorem render_chart_axes (df : data_frame) (chart_type : string) (fig : figure) :
  render_chart df chart_type = Some fig ->
  figure_y fig ∈ numeric_labels df
  /\ figure_x fig ∈ map column_label (frame_columns df)
  /\ match fig with
     | LineChart _ _ => chart_type = "line"
     | AreaChart _ _ => chart_type = "area"
     | ScatterChart x _ => chart_type = "scatter" /\ x ∈ numeric_labels df
     | BarChart _ _ => True
     end.
Proof.
  unfold numeric_labels, render_chart.
  destruct (df_empty df); [discriminate|].
  destruct (List.filter _ (map column_label (frame_columns df))) as [|tx txs] eqn:Htime;
    destruct (map column_label (List.filter is_numeric (frame_columns df)))
      as [|y [|y2 ys]] eqn:Hnum;
    destruct (map column_label (List.filter (fun c => negb (is_numeric c)) (frame_columns df)))
      as [|cx cxs] eqn:Hcat;
    try (apply head_of_filter in Htime);
    try (apply head_of_labels in Hcat);
    pose proof (head_of_labels is_numeric (frame_columns df)) as Hhead;
    rewrite Hnum in Hhead;
    unfold str_in; cbn [existsb orb];
    destruct (String.eqb chart_type "line") eqn:Hline;
    destruct (String.eqb chart_type "area") eqn:Harea;
    destruct (String.eqb chart_type "bar") eqn:Hbar;
    destruct (String.eqb chart_type "scatter") eqn:Hscatter;
    cbn [orb];
    try (destruct (map column_label (frame_columns df)) as [|c1 [|c2 cs]] eqn:Hcols);
    intros [= <-]; cbn [figure_x figure_y];
    repeat split;
    try (apply String.eqb_eq; assumption);
    try (apply list_elem_of_here);
    try (apply list_elem_of_further, list_elem_of_here);
    eauto.
Qed.

End ChartProperties.

(** ** The users file and the login *)

Section AuthProperties.
Context {rt : PyRuntime} {ext : Externals}.




(** X23. [verify_user] accepts exactly when the user is known and either
    the stored password carries the {SHA256} mark and the rest of it is the
    digest of the password typed, or it carries no mark and is the password
    typed; it then returns the stored role.  In every other case it returns
    (False, None): a role is never returned without success. *)
Theorem verify_user_accepts_exactly (username password : string)
    (users : gmap string (string * string)) :
  (forall role,
      verify_user username password users = (true, Some role) <->
      exists stored,
        users !! username = Some (stored, role)
        /\ if startswith "{SHA256}" stored
           then _hash_password password = str_drop 8 stored
           else stored = password)
  /\ (verify_user username password users = (false, None)
      \/ exists role, verify_user username password users = (true, Some role)).
Proof.
  unfold verify_user. destruct (users !! username) as [[stored role0]|].
  2:{ split; [|left; reflexivity]. intros role. split; [discriminate|].
      intros (? & [=] & _). }
  destruct (startswith "{SHA256}" stored) eqn:Hmark.
  - destruct (String.eqb_spec (_hash_password password) (str_drop 8 stored)) as [Heq|Hne].
    + split; [|right; eauto]. intros role. split.
      * intros [= <-]. exists stored. rewrite Hmark. auto.
      * intros (? & [= <- <-] & _). reflexivity.
    + split; [|left; reflexivity]. intros role. split; [discriminate|].
      intros (? & [= <- <-] & Hh). rewrite Hmark in Hh. contradiction.
  - destruct (String.eqb_spec stored password) as [Heq|Hne].
    + split; [|right; eauto]. intros role. split.
      * intros [= <-]. exists stored. rewrite Hmark. auto.
      * intros (? & [= <- <-] & _). reflexivity.
    + split; [|left; reflexivity]. intros role. split; [discriminate|].
      intros (? & [= <- <-] & Hh). rewrite Hmark in Hh. contradiction.
Qed.



End AuthProperties.

(** ** Worked instances of the further properties *)

Lemma search_ignores_keyword_case_witness :
  @search demo_runtime scenario_graph "ORDERS" 10 = search scenario_graph "orders" 10.
Proof.
  exact (proj1 (@search_ignores_keyword_case demo_runtime scenario_graph "orders" 10 eq_refl)).
Defined.

Lemma search_on_built_graph_witness :
  exists g1 ms,
    @build_from_metadata demo_runtime empty_graph scenario_tables scenario_columns = Return g1
    /\ search g1 "orders" 10 = Return ms.
Proof.
  exact (@search_on_built_graph demo_runtime empty_graph scenario_tables scenario_columns
           "orders" 10 eq_refl).
Defined.

Lemma generate_sql_and_insight_rejects_non_objects_witness :
  @generate_sql_and_insight demo_runtime (parsing_services list_or_null) "top orders?"
    list_reply_world
  = (Raise TypeError, list_reply_world).
Proof.
  apply (@generate_sql_and_insight_rejects_non_objects demo_runtime
           (parsing_services list_or_null) "top orders?" list_reply_world
           ["doc one"; "doc two"; "doc three"] list_reply_world "[]" list_reply_world
           (JList []));
    [reflexivity | reflexivity | reflexivity | reflexivity | intros d; discriminate].
Defined.

Lemma generate_sql_and_insight_keeps_object_witness :
  exists result w3,
    @generate_sql_and_insight demo_runtime demo_services "top orders?" object_reply_world
    = (Return result, w3)
    /\ dict_get result "context"
       = Some (JList [JStr "doc one"; JStr "doc two"; JStr "doc three"]).
Proof.
  destruct (@generate_sql_and_insight_keeps_object demo_runtime demo_services "top orders?"
              object_reply_world ["doc one"; "doc two"; "doc three"] object_reply_world
              "{}" object_reply_world [] eq_refl eq_refl eq_refl eq_refl)
    as (result & w3 & Hrun & Hctx & _).
  exists result, w3. split; [exact Hrun | exact Hctx].
Defined.

Lemma pick_context_without_graph_file_witness :
  @pick_context demo_runtime demo_services "revenue" cold_graph_world
  = (Return ["doc one"; "doc two"], cold_graph_world).
Proof.
  exact (proj2 (@pick_context_without_graph_file demo_runtime demo_services "revenue"
                  cold_graph_world ["doc one"; "doc two"] cold_graph_world eq_refl eq_refl)).
Defined.

Lemma render_chart_axes_witness :
  "total" ∈ numeric_labels demo_frame /\ "order_date" ∈ map column_label (frame_columns demo_frame).
Proof.
  destruct (render_chart_axes demo_frame "line" (LineChart "order_date" "total") eq_refl)
    as (Hy & Hx & _).
  split; [exact Hy | exact Hx].
Defined.


Lemma snapshot_keys_witness :
  exists results w',
    @extract_metadata demo_runtime demo_services refresh_world = (Return results, w')
    /\ (dom results = battery_keys \/ dom results = {["column_stats"]} ∪ battery_keys).
Proof.
  pose (w1 := snd (@apply_context demo_runtime demo_services refresh_world)).
  assert (Hconn : @get_sf_connection demo_runtime demo_services refresh_world
                  = (Return tt, refresh_world)) by reflexivity.
  assert (Hctx : @apply_context demo_runtime demo_services refresh_world = (Return tt, w1))
    by reflexivity.
  destruct (@extract_metadata_returns demo_runtime demo_services refresh_world refresh_world
              w1 Hconn Hctx) as (results & w' & Hrun).
  exists results, w'. split; [exact Hrun|].
  exact (@snapshot_keys demo_runtime demo_services refresh_world results w' Hrun).
Defined.

